(** * web-snapshot: the capture controller of [snapshot.py]

    A shallow embedding of the [WebSnapshot] class.  The program is a
    sequential script that talks to a headless browser, the clock and
    the file system; the embedding threads an explicit [state] through
    a small state-and-exception monad and takes the answers of the
    outside world from a [browser] oracle.

    Conventions.  Time is counted in milliseconds: [time.sleep(0.5)] is
    [sleep 500].  A Python [str] is the string of the bytes of its
    UTF-8 encoding.  The heights, widths and counts that the scripts
    return are integers.  The two [while] loops run on fuel: the poll
    of [wait_for_content_stable] ends within eleven rounds, whereas the
    [while True] of [scroll_to_bottom] need not end, and a run that
    exhausts any fuel is a run that does not end.  Exceptions outside
    [Exception] ([KeyboardInterrupt] and the like) are left out.  The
    library calls behave as in CPython 3.11 and Selenium 4. *)

From Stdlib Require Import ZArith String Ascii List Bool Lia.
From Stdlib Require Import DecimalString DecimalZ DecimalPos.
From stdpp Require Import gmap strings.

Local Open Scope Z_scope.

(** ** Python values and exceptions *)

(** The exception classes the program can meet.  [TimeoutException] is
    Selenium's; [WebDriverException] stands for every other Selenium
    error; [UnicodeEncodeError] is what writing a text that the stream
    cannot encode raises; all six are subclasses of [Exception]. *)
Inductive exn : Type :=
| TimeoutException (msg : string)
| WebDriverException (msg : string)
| ValueError (msg : string)
| OverflowError (msg : string)
| UnicodeEncodeError (msg : string)
| OSError (msg : string).

(** [str(e)] *)
Definition str_exn (e : exn) : string :=
  match e with
  | TimeoutException m | WebDriverException m | ValueError m
  | OverflowError m | UnicodeEncodeError m | OSError m => m
  end.

Inductive result (A : Type) : Type :=
| Ok (a : A)
| Err (e : exn).
Arguments Ok {A} a.
Arguments Err {A} e.

(** [str(n)] for a Python int *)
Definition str_int (n : Z) : string := NilZero.string_of_int (Z.to_int n).

(** [posixpath.join(a, b)] *)
Definition startswith_sep (s : string) : bool :=
  match s with
  | String c _ => if ascii_dec c "/"%char then true else false
  | EmptyString => false
  end.

Fixpoint endswith_sep (s : string) : bool :=
  match s with
  | EmptyString => false
  | String c EmptyString => if ascii_dec c "/"%char then true else false
  | String _ rest => endswith_sep rest
  end.

Definition path_join (a b : string) : string :=
  if startswith_sep b then b
  else if (String.length a =? 0)%nat || endswith_sep a then a +:+ b
  else a +:+ "/" +:+ b.

(** [datetime.now()] and [strftime('%Y%m%d_%H%M%S')] *)
Record datetime : Type := {
  year : nat; month : nat; day : nat;
  hour : nat; minute : nat; second : nat
}.

Fixpoint zeros (n : nat) : string :=
  match n with
  | O => EmptyString
  | S n' => "0" +:+ zeros n'
  end.

Definition zero_pad (width n : nat) : string :=
  let digits := NilZero.string_of_uint (Nat.to_uint n) in
  zeros (width - String.length digits) +:+ digits.

Definition strftime (d : datetime) : string :=
  zero_pad 4 (year d) +:+ zero_pad 2 (month d) +:+ zero_pad 2 (day d) +:+ "_"
  +:+ zero_pad 2 (hour d) +:+ zero_pad 2 (minute d) +:+ zero_pad 2 (second d).

(** ** JSON values and [json.dump(..., ensure_ascii=False, indent=2)] *)

(** A Python dict keeps its keys in insertion order and [json.dump]
    writes them in that order, so an object is an association list. *)
#[warnings="-register-all"]
Inductive json : Type :=
| JStr (s : string)
| JInt (n : Z)
| JObj (fields : list (string * json)).

Definition dquote : ascii := ascii_of_nat 34.
Definition backslash : ascii := ascii_of_nat 92.
Definition newline : ascii := ascii_of_nat 10.

Definition hex_digit (n : nat) : ascii :=
  match n with
  | 0%nat => "0" | 1%nat => "1" | 2%nat => "2" | 3%nat => "3"
  | 4%nat => "4" | 5%nat => "5" | 6%nat => "6" | 7%nat => "7"
  | 8%nat => "8" | 9%nat => "9" | 10%nat => "a" | 11%nat => "b"
  | 12%nat => "c" | 13%nat => "d" | 14%nat => "e" | _ => "f"
  end%char.

(** One character of a string literal.  With [ensure_ascii=False] only
    the quote, the backslash and the control characters below 0x20 are
    escaped; every other byte, the non-ASCII ones included, is copied. *)
Definition escape_char (c : ascii) : string :=
  let n := nat_of_ascii c in
  if (n =? 34)%nat then String backslash (String dquote EmptyString)
  else if (n =? 92)%nat then String backslash (String backslash EmptyString)
  else if (n =? 8)%nat then String backslash "b"
  else if (n =? 12)%nat then String backslash "f"
  else if (n =? 10)%nat then String backslash "n"
  else if (n =? 13)%nat then String backslash "r"
  else if (n =? 9)%nat then String backslash "t"
  else if (n <? 32)%nat then
    String backslash
      ("u00" +:+ String (hex_digit (n / 16)) (String (hex_digit (n mod 16)) EmptyString))
  else String c EmptyString.

Fixpoint escape (s : string) : string :=
  match s with
  | EmptyString => EmptyString
  | String c rest => escape_char c +:+ escape rest
  end.

Definition quote (s : string) : string :=
  String dquote (escape s +:+ String dquote EmptyString).

Fixpoint spaces (n : nat) : string :=
  match n with
  | O => EmptyString
  | S n' => " " +:+ spaces n'
  end.

Definition newline_indent (indent level : nat) : string :=
  String newline (spaces (indent * level)).

(** The items of a non-empty object: each is its quoted key, a colon
    and a space, and its value; [separator] stands before every item
    but the first. *)
Fixpoint dump_items (dump : json -> string) (separator : string)
    (first : bool) (l : list (string * json)) : string :=
  match l with
  | [] => EmptyString
  | (k, x) :: l' =>
      (if first then EmptyString else separator)
      +:+ quote k +:+ ": " +:+ dump x
      +:+ dump_items dump separator false l'
  end.

(** The text [json.dumps(v, ensure_ascii=False, indent=indent)] at
    nesting depth [level]: items are separated by a comma and a new
    line indented one level deeper than the braces around them. *)
Fixpoint dumps (indent level : nat) (v : json) {struct v} : string :=
  match v with
  | JStr s => quote s
  | JInt n => str_int n
  | JObj [] => "{}"
  | JObj fields =>
      "{" +:+ newline_indent indent (S level)
      +:+ dump_items (dumps indent (S level))
            ("," +:+ newline_indent indent (S level)) true fields
      +:+ newline_indent indent level +:+ "}"
  end.

(** [d[k]] on a JSON object *)
Fixpoint assoc (k : string) (l : list (string * json)) : option json :=
  match l with
  | [] => None
  | (k', v) :: l' => if String.eqb k k' then Some v else assoc k l'
  end.

Definition field (k : string) (v : json) : option json :=
  match v with
  | JObj fields => assoc k fields
  | _ => None
  end.

Definition keys (v : json) : list string :=
  match v with
  | JObj fields => map fst fields
  | _ => []
  end.

(** ** The outside world *)

Inductive level : Type := DEBUG | INFO | WARNING | ERROR | CRITICAL.

(** The JavaScript snippets handed to [execute_script]. *)
Inductive script : Type :=
| ReadScrollHeight            (* return document.body.scrollHeight *)
| ScrollToFraction (i : nat)  (* window.scrollTo(0, document.body.scrollHeight * {i/10}); *)
| ScrollToBottom              (* window.scrollTo(0, document.body.scrollHeight); *)
| ScrollToTop                 (* window.scrollTo(0, 0); *)
| ImagesComplete              (* every img is complete with naturalHeight !== 0 *)
| AjaxIdle                    (* jQuery.active == 0, or fetch with resource entries *)
| CountMutations              (* MutationObserver counting changes for 1000 ms *)
| MaxHeight                   (* Math.max over the five height metrics *)
| MaxWidth                    (* Math.max over the five width metrics *)
| UserAgent.                  (* return navigator.userAgent *)

(** Every interaction with the browser, the clock and the file system,
    in the order the program performs them. *)
Inductive event : Type :=
| EPathExists (path : string)
| EMakedirs (path : string)
| EBasicConfig (threshold : level) (log_file : string)
| EChrome
| EGet (url : string)
| EUntilBody (timeout : Z)
| EUntil (timeout : Z) (s : script)
| EScript (s : script)
| ESetWindowSize (w h : Z)
| ENow
| ESaveScreenshot (path : string)
| ETitle
| ECurrentUrl
| EOpen (path encoding : string)
| EDump (path : string)
| ESleep (ms : Z)
| EPrint (line : string)
| EQuit.

(** What a file holds: the screenshot of a window of the given size,
    an image file that was opened and not written in full (empty, or
    cut short), or text. *)
Inductive content : Type :=
| Png (w h : Z)
| Truncated
| Text (s : string).

(** The five size metrics a measuring script reads: scroll and offset
    size of the body, client, scroll and offset size of the document
    element. *)
Record metrics : Type := {
  body_scroll : Z; body_offset : Z;
  doc_client : Z; doc_scroll : Z; doc_offset : Z
}.

Definition math_max (m : metrics) : Z :=
  Z.max (body_scroll m)
    (Z.max (body_offset m)
       (Z.max (doc_client m) (Z.max (doc_scroll m) (doc_offset m)))).

(** The answers of the outside world.  The [n]-th interaction of a run
    (counted from 0 over all kinds) takes [latency n] milliseconds and
    gets the answer of the oracle of its kind at [n]. *)
Record browser : Type := {
  latency : nat -> N;
  on_path_exists : nat -> bool;
  on_makedirs : nat -> result unit;
  on_chrome : nat -> result unit;
  on_get : nat -> result unit;
  on_body : nat -> result unit;
  on_scroll_height : nat -> result Z;
  on_scroll : nat -> result unit;
  on_images : nat -> result unit;
  on_ajax : nat -> result unit;
  on_mutations : nat -> result Z;
  on_metrics : nat -> result metrics;
  on_set_window_size : nat -> result unit;
  on_now : nat -> datetime;
  (** Selenium's [save_screenshot] answers [False] instead of raising
      when the image cannot be written: when opening the file for
      writing or the writing itself meets an [OSError]. *)
  on_save_screenshot : nat -> result bool;
  (** When [save_screenshot] answers [False] at [n]: whether the file
      had been opened, and so created or emptied, before it failed. *)
  opened : nat -> bool;
  on_title : nat -> result string;
  on_current_url : nat -> result string;
  on_user_agent : nat -> result string;
  on_open : nat -> result unit;
  on_dump : nat -> result unit;
  on_print : nat -> result unit;
  (** When writing a text fails at [n] ([json.dump] into the file,
      [print] to the standard output): how many characters of the
      text had got through. *)
  written : nat -> nat;
  on_quit : nat -> result unit
}.

(** ** Program state *)

Record state : Type := {
  clock : Z;                       (* time.time(), in milliseconds *)
  calls : nat;                     (* interactions so far *)
  trace : list event;
  window : Z * Z;                  (* size of the browser window *)
  files : gmap string content;
  log : list (level * string);     (* calls of self.logger *)
  stdout : list string             (* what print has put out, a line each *)
}.

Definition initial : state :=
  {| clock := 0; calls := 0; trace := []; window := (0, 0);
     files := ∅; log := []; stdout := [] |}.

Definition interact (ev : event) (ms : Z) (s : state) : state :=
  {| clock := clock s + ms; calls := S (calls s); trace := trace s ++ [ev];
     window := window s; files := files s; log := log s; stdout := stdout s |}.

Definition slept (ms : Z) (s : state) : state :=
  {| clock := clock s + Z.max 0 ms; calls := calls s; trace := trace s ++ [ESleep ms];
     window := window s; files := files s; log := log s; stdout := stdout s |}.

(** A sleep that was asked for and refused: no time passes. *)
Definition refused (ms : Z) (s : state) : state :=
  {| clock := clock s; calls := calls s; trace := trace s ++ [ESleep ms];
     window := window s; files := files s; log := log s; stdout := stdout s |}.

Definition set_window (w h : Z) (s : state) : state :=
  {| clock := clock s; calls := calls s; trace := trace s;
     window := (w, h); files := files s; log := log s; stdout := stdout s |}.

Definition set_file (path : string) (c : content) (s : state) : state :=
  {| clock := clock s; calls := calls s; trace := trace s;
     window := window s; files := <[path := c]> (files s); log := log s;
     stdout := stdout s |}.

Definition logged (l : level) (msg : string) (s : state) : state :=
  {| clock := clock s; calls := calls s; trace := trace s;
     window := window s; files := files s; log := log s ++ [(l, msg)];
     stdout := stdout s |}.

Definition printed (line : string) (s : state) : state :=
  {| clock := clock s; calls := calls s; trace := trace s;
     window := window s; files := files s; log := log s;
     stdout := stdout s ++ [line] |}.

(** The first [k] characters of a text. *)
Definition prefix (k : nat) (text : string) : string := substring 0 k text.

(** What a [print] that failed has left on the standard output: the
    part of the line that had got through, if any. *)
Definition printed_part (k : nat) (line : string) (s : state) : state :=
  match k with
  | O => s
  | S _ => printed (prefix k line) s
  end.

(** ** The monad: state, exceptions, and fuel for unbounded loops *)

Inductive outcome (A : Type) : Type :=
| Ret (a : A) (s : state)
| Raise (e : exn) (s : state)
| OutOfFuel.
Arguments Ret {A} a s.
Arguments Raise {A} e s.
Arguments OutOfFuel {A}.

Definition M (A : Type) : Type := state -> outcome A.

Definition ret {A} (a : A) : M A := fun s => Ret a s.

Definition bind {A B} (c : M A) (k : A -> M B) : M B :=
  fun s =>
    match c s with
    | Ret a s' => k a s'
    | Raise e s' => Raise e s'
    | OutOfFuel => OutOfFuel
    end.

Declare Scope py_scope.
Delimit Scope py_scope with py.
Notation "x <- c1 ;; c2" := (bind c1 (fun x => c2))
  (at level 100, c1 at next level, c2 at level 200, right associativity)
  : py_scope.
Notation "c1 ;; c2" := (bind c1 (fun _ => c2))
  (at level 100, c2 at level 200, right associativity) : py_scope.
Local Open Scope py_scope.

(** [try: c  except ...: h]; the handler answers [None] for an
    exception no [except] clause matches, which is raised again. *)
Definition try_except {A} (c : M A) (h : exn -> option (M A)) : M A :=
  fun s =>
    match c s with
    | Ret a s' => Ret a s'
    | Raise e s' =>
        match h e with
        | Some k => k s'
        | None => Raise e s'
        end
    | OutOfFuel => OutOfFuel
    end.

(** [try: c  finally: f] *)
Definition try_finally {A} (c : M A) (f : M unit) : M A :=
  fun s =>
    match c s with
    | Ret a s' => (f ;; ret a) s'
    | Raise e s' => (f ;; (fun s2 => Raise e s2)) s'
    | OutOfFuel => OutOfFuel
    end.

Definition logger (l : level) (msg : string) : M unit :=
  fun s => Ret tt (logged l msg s).


(** [time.time()] *)
Definition time_time : M Z := fun s => Ret (clock s) s.

(** [time.sleep] first turns the length into a number of nanoseconds
    in a signed 64-bit integer. *)
Definition fits_time_t (ms : Z) : bool :=
  (-9223372036854775808 <=? ms * 1000000)
  && (ms * 1000000 <=? 9223372036854775807).

(** [time.sleep]; the argument is in milliseconds here.  A length that
    does not fit is refused with [OverflowError], a negative one that
    fits with [ValueError], and then no time passes. *)
Definition sleep (ms : Z) : M unit :=
  fun s =>
    if negb (fits_time_t ms)
    then Raise (OverflowError "timestamp too large to convert to C _PyTime_t")
           (refused ms s)
    else if ms <? 0
    then Raise (ValueError "sleep length must be non-negative") (refused ms s)
    else Ret tt (slept ms s).

Definition modify (f : state -> state) : M unit := fun s => Ret tt (f s).

Definition raise {A} (e : exn) : M A := fun s => Raise e s.

(** [for x in l: body] *)
Fixpoint for_each {A} (l : list A) (body : A -> M unit) : M unit :=
  match l with
  | [] => ret tt
  | x :: l' => body x ;; for_each l' body
  end.

Definition is_not_None {A} (o : option A) : bool :=
  match o with
  | Some _ => true
  | None => false
  end.

(** ** The class [WebSnapshot] *)

(** The fields of [self] that [__init__] stores; the logger and the
    driver live in the [state] and the [browser]. *)
Record WebSnapshot : Type := {
  output_dir : string;
  wait_time : option Z
}.

(** The parsed command line. *)
Record arguments : Type := {
  arg_url : string;
  arg_output_dir : string;
  arg_log_level : level;
  arg_wait_time : option Z
}.

Section Methods.

Variable env : browser.

(** One interaction: it is recorded, takes its latency, and returns or
    raises what the oracle says. *)
Definition driver {A} (ev : event) (oracle : nat -> result A) : M A :=
  fun s =>
    let s' := interact ev (Z.of_N (latency env (calls s))) s in
    match oracle (calls s) with
    | Ok a => Ret a s'
    | Err e => Raise e s'
    end.

Definition execute_script {A} (js : script) (oracle : nat -> result A) : M A :=
  driver (EScript js) oracle.

Definition set_window_size (w h : Z) : M unit :=
  driver (ESetWindowSize w h) (on_set_window_size env) ;;
  modify (set_window w h).

(** Selenium's [save_screenshot] takes the image from the browser,
    opens the file for writing and writes it; an [OSError] of the last
    two steps is turned into the answer [False], and then the file is
    as it was if it could not be opened, and empty or cut short if it
    could. *)
Definition save_screenshot (path : string) : M bool :=
  fun s =>
    (saved <- driver (ESaveScreenshot path) (on_save_screenshot env) ;;
     if saved : bool
     then fun s1 =>
            Ret true (set_file path (Png (fst (window s1)) (snd (window s1))) s1)
     else if opened env (calls s)
     then modify (set_file path Truncated) ;; ret false
     else ret false) s.

(** [with open(path, 'w', encoding='utf-8') as f:
       json.dump(data, f, ensure_ascii=False, indent=2)]
    Opening creates the file empty.  [json.dump] writes the text piece
    by piece and the file is closed on the way out of the [with]: the
    text is in it once the dump and the closing flush succeed, and
    when they fail the file keeps what had got through. *)
Definition write_json (path : string) (data : json) : M unit :=
  driver (EOpen path "utf-8") (on_open env) ;;
  modify (set_file path (Text EmptyString)) ;;
  fun s =>
    let text := dumps 2 0 data in
    let s' := interact (EDump path) (Z.of_N (latency env (calls s))) s in
    match on_dump env (calls s) with
    | Ok _ => Ret tt (set_file path (Text text) s')
    | Err e => Raise e (set_file path (Text (prefix (written env (calls s)) text)) s')
    end.

(** [print(line)]: the line goes to the standard output, unless the
    stream cannot encode it ([UnicodeEncodeError]) or cannot be
    written to ([OSError]). *)
Definition print (line : string) : M unit :=
  fun s =>
    let s' := interact (EPrint line) (Z.of_N (latency env (calls s))) s in
    match on_print env (calls s) with
    | Ok _ => Ret tt (printed line s')
    | Err e => Raise e (printed_part (written env (calls s)) line s')
    end.

(** [logging.basicConfig] opens the log file for its [FileHandler]. *)
Definition setup_logging (log_level : level) : M unit :=
  present <- driver (EPathExists "logs") (fun n => Ok (on_path_exists env n)) ;;
  (if negb present then driver (EMakedirs "logs") (on_makedirs env) else ret tt) ;;
  driver (EBasicConfig log_level (path_join "logs" "snapshot.log")) (on_open env).

Definition setup_driver : M unit :=
  driver EChrome (on_chrome env) ;;
  set_window_size 1920 1080.

(** [__init__] *)
Definition init (dir : string) (log_level : level) (wt : option Z)
  : M WebSnapshot :=
  setup_logging log_level ;;
  setup_driver ;;
  ret {| output_dir := dir; wait_time := wt |}.

(** One pass of the loop body of [scroll_to_bottom], up to the new
    measurement of the height. *)
Definition scroll_pass : M Z :=
  for_each (seq 1 9) (fun i =>
    execute_script (ScrollToFraction i) (on_scroll env) ;;
    sleep 500) ;;
  execute_script ScrollToBottom (on_scroll env) ;;
  sleep 2000 ;;
  execute_script ReadScrollHeight (on_scroll_height env).

(** [while True:] of [scroll_to_bottom] *)
Fixpoint scroll_loop (fuel : nat) (last_height : Z) : M unit :=
  match fuel with
  | O => fun _ => OutOfFuel
  | S fuel' =>
      new_height <- scroll_pass ;;
      if new_height =? last_height then ret tt
      else scroll_loop fuel' new_height
  end.

Definition scroll_to_bottom (fuel : nat) : M unit :=
  logger INFO "Starting progressive scroll to trigger lazy loading..." ;;
  last_height <- execute_script ReadScrollHeight (on_scroll_height env) ;;
  scroll_loop fuel last_height ;;
  execute_script ScrollToTop (on_scroll env) ;;
  logger INFO "Completed progressive scroll".

(** [while time.time() - start_time < timeout:] of
    [wait_for_content_stable]; [timeout] is in seconds. *)
Fixpoint stable_loop (fuel : nat) (timeout start_time last_height : Z) : M bool :=
  match fuel with
  | O => fun _ => OutOfFuel
  | S fuel' =>
      now <- time_time ;;
      if now - start_time <? 1000 * timeout then
        current_height <- execute_script ReadScrollHeight (on_scroll_height env) ;;
        if current_height =? last_height then
          sleep 2000 ;;
          ret true
        else
          sleep 1000 ;;
          stable_loop fuel' timeout start_time current_height
      else ret false
  end.

Definition wait_for_content_stable (fuel : nat) (timeout : Z) : M bool :=
  logger INFO "Waiting for content to stabilize..." ;;
  start_time <- time_time ;;
  stable_loop fuel timeout start_time 0.

Definition wait_for_images : M unit :=
  logger INFO "Waiting for images to load..." ;;
  try_except
    (driver (EUntil 10 ImagesComplete) (on_images env))
    (fun e =>
       match e with
       | TimeoutException _ =>
           Some (logger WARNING "Timeout waiting for images to load")
       | _ => None
       end).

Definition wait_for_dynamic_content : M bool :=
  logger INFO "Checking for dynamic content loading..." ;;
  try_except
    (driver (EUntil 5 AjaxIdle) (on_ajax env) ;;
     changes <- execute_script CountMutations (on_mutations env) ;;
     if changes =? 0 then
       logger INFO "No DOM changes detected, content appears stable" ;;
       ret true
     else ret false)
    (fun e =>
       Some (logger DEBUG ("Error checking dynamic content: " +:+ str_exn e) ;;
             ret false)).

(** The extra-delay step of [capture_screenshot]:
    [if self.wait_time is not None or not (content_stable and
    dynamic_content_loaded): ...] *)
Definition extra_delay (self : WebSnapshot)
    (content_stable dynamic_content_loaded : bool) : M unit :=
  if is_not_None (wait_time self)
     || negb (content_stable && dynamic_content_loaded)
  then
    let wt := match wait_time self with Some n => n | None => 3 end in
    logger INFO ("Waiting additional " +:+ str_int wt
                 +:+ " seconds for content to stabilize") ;;
    sleep (1000 * wt)
  else ret tt.

Definition json_data (url timestamp : string) (viewport_width total_height : Z)
    (title current_url user_agent : string) : json :=
  JObj [ ("url", JStr url);
         ("timestamp", JStr timestamp);
         ("dimensions", JObj [ ("width", JInt viewport_width);
                               ("height", JInt total_height) ]);
         ("metadata", JObj [ ("title", JStr title);
                             ("url", JStr current_url);
                             ("user_agent", JStr user_agent) ]) ].

(** The body of the [try] block of [capture_screenshot]. *)
Definition capture_body (self : WebSnapshot) (url : string) (fuel : nat)
  : M (string * string) :=
  logger INFO ("Starting screenshot capture for URL: " +:+ url) ;;
  driver (EGet url) (on_get env) ;;
  driver (EUntilBody 10) (on_body env) ;;
  scroll_to_bottom fuel ;;
  content_stable <- wait_for_content_stable fuel 10 ;;
  wait_for_images ;;
  dynamic_content_loaded <- wait_for_dynamic_content ;;
  extra_delay self content_stable dynamic_content_loaded ;;
  height_metrics <- execute_script MaxHeight (on_metrics env) ;;
  let total_height := math_max height_metrics in
  width_metrics <- execute_script MaxWidth (on_metrics env) ;;
  let viewport_width := math_max width_metrics in
  set_window_size (viewport_width + 100) (total_height + 100) ;;
  sleep 2000 ;;
  now <- driver ENow (fun n => Ok (on_now env n)) ;;
  let timestamp := strftime now in
  let filename := "snapshot_" +:+ timestamp in
  let screenshot_path := path_join (output_dir self) (filename +:+ ".png") in
  save_screenshot screenshot_path ;;
  title <- driver ETitle (on_title env) ;;
  current_url <- driver ECurrentUrl (on_current_url env) ;;
  user_agent <- execute_script UserAgent (on_user_agent env) ;;
  let data := json_data url timestamp viewport_width total_height
                title current_url user_agent in
  let json_path := path_join (output_dir self) (filename +:+ ".json") in
  write_json json_path data ;;
  logger INFO ("Screenshot and JSON data saved successfully: " +:+ filename) ;;
  ret (screenshot_path, json_path).

(** [capture_screenshot]: the pair of paths, or [None] after any
    exception. *)
Definition capture_screenshot (self : WebSnapshot) (url : string) (fuel : nat)
  : M (option (string * string)) :=
  try_except
    (paths <- capture_body self url fuel ;; ret (Some paths))
    (fun e =>
       match e with
       | TimeoutException _ =>
           Some (logger ERROR ("Timeout while loading URL: " +:+ url) ;;
                 ret None)
       | _ =>
           Some (logger ERROR ("Error capturing screenshot: " +:+ str_exn e) ;;
                 ret None)
       end).

(** [close]; after [__init__] the attribute [driver] is there. *)
Definition close : M unit :=
  driver EQuit (on_quit env) ;;
  logger INFO "WebDriver closed successfully".

(** [main], from the parsed arguments on. *)
Definition main (args : arguments) (fuel : nat) : M unit :=
  present <- driver (EPathExists (arg_output_dir args))
               (fun n => Ok (on_path_exists env n)) ;;
  (if negb present
   then driver (EMakedirs (arg_output_dir args)) (on_makedirs env)
   else ret tt) ;;
  snapshot <- init (arg_output_dir args) (arg_log_level args)
                (arg_wait_time args) ;;
  try_finally
    (result <- capture_screenshot snapshot (arg_url args) fuel ;;
     match result with
     | Some (screenshot_path, _) =>
         print ("Screenshot and JSON data saved successfully: "
                +:+ screenshot_path)
     | None => print "Failed to capture screenshot"
     end)
    close.

End Methods.

(** ** A reader for the JSON texts [json.dump] writes *)

(** A recursive-descent reader for objects, strings and integers: what
    a consumer of the sidecar does with [json.load].  Of the [\u]
    escapes it knows the ones [escape_char] writes. *)

Definition is_ws (c : ascii) : bool :=
  let n := nat_of_ascii c in
  (n =? 32)%nat || (n =? 10)%nat || (n =? 13)%nat || (n =? 9)%nat.

Fixpoint skip_ws (s : string) : string :=
  match s with
  | String c rest => if is_ws c then skip_ws rest else s
  | EmptyString => EmptyString
  end.

Definition is_digit (c : ascii) : bool :=
  let n := nat_of_ascii c in
  (48 <=? n)%nat && (n <=? 57)%nat.

Definition hex_value (c : ascii) : option nat :=
  let n := nat_of_ascii c in
  if is_digit c then Some (n - 48)%nat
  else if (97 <=? n)%nat && (n <=? 102)%nat then Some (n - 87)%nat
  else if (65 <=? n)%nat && (n <=? 70)%nat then Some (n - 55)%nat
  else None.

Definition cons_char (c : ascii) (r : option (string * string))
  : option (string * string) :=
  match r with
  | Some (str, rest) => Some (String c str, rest)
  | None => None
  end.

(** The body of a string literal, after its opening quote: the decoded
    string and what follows the closing quote. *)
Fixpoint read_string (s : string) : option (string * string) :=
  match s with
  | EmptyString => None
  | String c r =>
      if Ascii.eqb c dquote then Some (EmptyString, r)
      else if Ascii.eqb c backslash then
        match r with
        | String e r1 =>
            if Ascii.eqb e dquote || Ascii.eqb e backslash || Ascii.eqb e "/"
            then cons_char e (read_string r1)
            else if Ascii.eqb e "b" then cons_char (ascii_of_nat 8) (read_string r1)
            else if Ascii.eqb e "f" then cons_char (ascii_of_nat 12) (read_string r1)
            else if Ascii.eqb e "n" then cons_char (ascii_of_nat 10) (read_string r1)
            else if Ascii.eqb e "r" then cons_char (ascii_of_nat 13) (read_string r1)
            else if Ascii.eqb e "t" then cons_char (ascii_of_nat 9) (read_string r1)
            else if Ascii.eqb e "u" then
              match r1 with
              | String z1 (String z2 (String h1 (String h2 r2))) =>
                  if Ascii.eqb z1 "0" && Ascii.eqb z2 "0" then
                    match hex_value h1, hex_value h2 with
                    | Some a, Some b =>
                        if (16 * a + b <? 128)%nat
                        then cons_char (ascii_of_nat (16 * a + b)) (read_string r2)
                        else None
                    | _, _ => None
                    end
                  else None
              | _ => None
              end
            else None
        | EmptyString => None
        end
      else if (nat_of_ascii c <? 32)%nat then None
      else cons_char c (read_string r)
  end.

(** The longest prefix of digits, and the rest. *)
Fixpoint read_digits (s : string) : string * string :=
  match s with
  | String c r =>
      if is_digit c
      then let (digits, rest) := read_digits r in (String c digits, rest)
      else (EmptyString, s)
  | EmptyString => (EmptyString, EmptyString)
  end.

Definition read_int (s : string) : option (Z * string) :=
  let (literal, rest) :=
    match s with
    | String c r =>
        if Ascii.eqb c "-"
        then let (digits, rest) := read_digits r in (String c digits, rest)
        else read_digits s
    | EmptyString => (EmptyString, EmptyString)
    end in
  match NilZero.int_of_string literal with
  | Some d => Some (Z.of_int d, rest)
  | None => None
  end.

Fixpoint read_value (fuel : nat) (s : string) : option (json * string) :=
  match fuel with
  | O => None
  | S fuel' =>
      match skip_ws s with
      | EmptyString => None
      | String c r =>
          if Ascii.eqb c dquote then
            match read_string r with
            | Some (str, rest) => Some (JStr str, rest)
            | None => None
            end
          else if Ascii.eqb c "{" then
            match skip_ws r with
            | String c' r' =>
                if Ascii.eqb c' "}" then Some (JObj [], r')
                else
                  match read_members fuel' r with
                  | Some (fields, rest) => Some (JObj fields, rest)
                  | None => None
                  end
            | EmptyString => None
            end
          else
            match read_int (String c r) with
            | Some (n, rest) => Some (JInt n, rest)
            | None => None
            end
      end
  end

(** The members of an object, from its first key to its closing brace. *)
with read_members (fuel : nat) (s : string)
  : option (list (string * json) * string) :=
  match fuel with
  | O => None
  | S fuel' =>
      match skip_ws s with
      | String q r =>
          if Ascii.eqb q dquote then
            match read_string r with
            | Some (key, r1) =>
                match skip_ws r1 with
                | String colon r2 =>
                    if Ascii.eqb colon ":" then
                      match read_value fuel' r2 with
                      | Some (v, r3) =>
                          match skip_ws r3 with
                          | String sep r4 =>
                              if Ascii.eqb sep "," then
                                match read_members fuel' r4 with
                                | Some (fields, r5) => Some ((key, v) :: fields, r5)
                                | None => None
                                end
                              else if Ascii.eqb sep "}" then Some ([(key, v)], r4)
                              else None
                          | EmptyString => None
                          end
                      | None => None
                      end
                    else None
                | EmptyString => None
                end
            | None => None
            end
          else None
      | EmptyString => None
      end
  end.

(** [json.loads]: one value, then nothing but white space. *)
Definition loads (s : string) : option json :=
  match read_value (String.length s) s with
  | Some (v, rest) =>
      match skip_ws rest with
      | EmptyString => Some v
      | _ => None
      end
  | None => None
  end.

(** ** Sample pages *)

Definition sample_metrics : metrics :=
  {| body_scroll := 1000; body_offset := 900; doc_client := 800;
     doc_scroll := 1200; doc_offset := 700 |}.

Definition sample_now : datetime :=
  {| year := 2024; month := 3; day := 9; hour := 14; minute := 5; second := 7 |}.

(** A browser whose interactions take no time and all succeed, except
    for the answers given as arguments. *)
Definition scripted (get body : nat -> result unit)
    (heights : nat -> result Z) (images ajax : nat -> result unit)
    (mutations : nat -> result Z) (saved : nat -> result bool)
    (title : nat -> result string) : browser :=
  {| latency := fun _ => 0%N;
     on_path_exists := fun _ => true;
     on_makedirs := fun _ => Ok tt;
     on_chrome := fun _ => Ok tt;
     on_get := get;
     on_body := body;
     on_scroll_height := heights;
     on_scroll := fun _ => Ok tt;
     on_images := images;
     on_ajax := ajax;
     on_mutations := mutations;
     on_metrics := fun _ => Ok sample_metrics;
     on_set_window_size := fun _ => Ok tt;
     on_now := fun _ => sample_now;
     on_save_screenshot := saved;
     opened := fun _ => false;
     on_title := title;
     on_current_url := fun _ => Ok "https://example.com/";
     on_user_agent := fun _ => Ok "HeadlessChrome";
     on_open := fun _ => Ok tt;
     on_dump := fun _ => Ok tt;
     on_print := fun _ => Ok tt;
     written := fun _ => O;
     on_quit := fun _ => Ok tt |}.

Definition fine {A} (a : A) : nat -> result A := fun _ => Ok a.

(** A page of constant height 1000 on which every step succeeds. *)
Definition calm : browser :=
  scripted (fine tt) (fine tt) (fine 1000) (fine tt) (fine tt) (fine 0)
    (fine true) (fine "Example").

(** A page that is one pixel higher at every look. *)
Definition growing : browser :=
  scripted (fine tt) (fine tt) (fun n => Ok (Z.of_nat n)) (fine tt) (fine tt)
    (fine 0) (fine true) (fine "Example").

(** A page whose body never shows up within the ten seconds. *)
Definition stalled : browser :=
  scripted (fine tt) (fun _ => Err (TimeoutException "no body after 10 s"))
    (fine 1000) (fine tt) (fine tt) (fine 0) (fine true) (fine "Example").

(** A browser that loses the page once the screenshot is taken: asking
    for the title fails. *)
Definition untitled : browser :=
  scripted (fine tt) (fine tt) (fine 1000) (fine tt) (fine tt) (fine 0)
    (fine true) (fun _ => Err (WebDriverException "no such window")).

(** A browser in which reading the height fails. *)
Definition heightless : browser :=
  scripted (fine tt) (fine tt)
    (fun _ => Err (WebDriverException "javascript error"))
    (fine tt) (fine tt) (fine 0) (fine true) (fine "Example").

(** A page whose images never complete and whose request check fails. *)
Definition sluggish : browser :=
  scripted (fine tt) (fine tt) (fine 1000)
    (fun _ => Err (TimeoutException "images"))
    (fun _ => Err (WebDriverException "javascript error"))
    (fine 0) (fine true) (fine "Example").

(** A page whose body has no height: all its content is positioned
    absolutely, or has not arrived yet. *)
Definition flat : browser :=
  scripted (fine tt) (fine tt) (fine 0) (fine tt) (fine tt) (fine 0)
    (fine true) (fine "Example").

(** A page whose body has no height until its content arrives, after
    the sixteenth interaction; from then on it keeps growing. *)
Definition late_content : browser :=
  scripted (fine tt) (fine tt)
    (fun n => Ok (if (n <=? 15)%nat then 0 else 500 + Z.of_nat n))
    (fine tt) (fine tt) (fine 0) (fine true) (fine "Example").

Definition sample_self : WebSnapshot :=
  {| output_dir := "snapshotFile"; wait_time := None |}.

(** [--wait-time -5] *)
Definition hasty : WebSnapshot :=
  {| output_dir := "snapshotFile"; wait_time := Some (-5) |}.


(** [--wait-time -10000000000] *)
Definition rash : WebSnapshot :=
  {| output_dir := "snapshotFile"; wait_time := Some (-10000000000) |}.

Definition sample_url : string := "https://example.com".

Definition sample_png : string := "snapshotFile/snapshot_20240309_140507.png".
Definition sample_json : string := "snapshotFile/snapshot_20240309_140507.json".

(** The captures of some of the sample pages. *)
Definition calm_run : outcome (option (string * string)) :=
  capture_screenshot calm sample_self sample_url 11 initial.

Definition untitled_run : outcome (option (string * string)) :=
  capture_screenshot untitled sample_self sample_url 11 initial.

Definition heightless_run : outcome (option (string * string)) :=
  capture_screenshot heightless sample_self sample_url 11 initial.

Definition sluggish_run : outcome (option (string * string)) :=
  capture_screenshot sluggish sample_self sample_url 11 initial.

Definition late_run : outcome (option (string * string)) :=
  capture_screenshot late_content sample_self sample_url 11 initial.


Definition rash_run : outcome (option (string * string)) :=
  capture_screenshot calm rash sample_url 11 initial.

(** A browser whose scripts time out. *)
Definition script_timeout : browser :=
  scripted (fine tt) (fine tt)
    (fun _ => Err (TimeoutException "script timeout"))
    (fine tt) (fine tt) (fine 0) (fine true) (fine "Example").

(** A browser whose window cannot be resized, on a machine where no
    directory is there yet. *)
Definition unsizable : browser :=
  {| latency := fun _ => 0%N;
     on_path_exists := fun _ => false;
     on_makedirs := fun _ => Ok tt;
     on_chrome := fun _ => Ok tt;
     on_get := fun _ => Ok tt;
     on_body := fun _ => Ok tt;
     on_scroll_height := fun _ => Ok 1000;
     on_scroll := fun _ => Ok tt;
     on_images := fun _ => Ok tt;
     on_ajax := fun _ => Ok tt;
     on_mutations := fun _ => Ok 0;
     on_metrics := fun _ => Ok sample_metrics;
     on_set_window_size := fun _ => Err (WebDriverException "window is gone");
     on_now := fun _ => sample_now;
     on_save_screenshot := fun _ => Ok true;
     opened := fun _ => false;
     on_title := fun _ => Ok "Example";
     on_current_url := fun _ => Ok "https://example.com/";
     on_user_agent := fun _ => Ok "HeadlessChrome";
     on_open := fun _ => Ok tt;
     on_dump := fun _ => Ok tt;
     on_print := fun _ => Ok tt;
     written := fun _ => O;
     on_quit := fun _ => Ok tt |}.

(** A browser that does everything but quit. *)
Definition clingy : browser :=
  {| latency := fun _ => 0%N;
     on_path_exists := fun _ => false;
     on_makedirs := fun _ => Ok tt;
     on_chrome := fun _ => Ok tt;
     on_get := fun _ => Ok tt;
     on_body := fun _ => Ok tt;
     on_scroll_height := fun _ => Ok 1000;
     on_scroll := fun _ => Ok tt;
     on_images := fun _ => Ok tt;
     on_ajax := fun _ => Ok tt;
     on_mutations := fun _ => Ok 0;
     on_metrics := fun _ => Ok sample_metrics;
     on_set_window_size := fun _ => Ok tt;
     on_now := fun _ => sample_now;
     on_save_screenshot := fun _ => Ok true;
     opened := fun _ => false;
     on_title := fun _ => Ok "Example";
     on_current_url := fun _ => Ok "https://example.com/";
     on_user_agent := fun _ => Ok "HeadlessChrome";
     on_open := fun _ => Ok tt;
     on_dump := fun _ => Ok tt;
     on_print := fun _ => Ok tt;
     written := fun _ => O;
     on_quit := fun _ => Err (WebDriverException "chrome not reachable") |}.

(** A browser run with a standard output that cannot encode what is
    printed. *)
Definition mute : browser :=
  {| latency := fun _ => 0%N;
     on_path_exists := fun _ => false;
     on_makedirs := fun _ => Ok tt;
     on_chrome := fun _ => Ok tt;
     on_get := fun _ => Ok tt;
     on_body := fun _ => Ok tt;
     on_scroll_height := fun _ => Ok 1000;
     on_scroll := fun _ => Ok tt;
     on_images := fun _ => Ok tt;
     on_ajax := fun _ => Ok tt;
     on_mutations := fun _ => Ok 0;
     on_metrics := fun _ => Ok sample_metrics;
     on_set_window_size := fun _ => Ok tt;
     on_now := fun _ => sample_now;
     on_save_screenshot := fun _ => Ok true;
     opened := fun _ => false;
     on_title := fun _ => Ok "Example";
     on_current_url := fun _ => Ok "https://example.com/";
     on_user_agent := fun _ => Ok "HeadlessChrome";
     on_open := fun _ => Ok tt;
     on_dump := fun _ => Ok tt;
     on_print :=
       fun _ => Err (UnicodeEncodeError "ascii codec cannot encode the line");
     written := fun _ => O;
     on_quit := fun _ => Ok tt |}.

(** [--url https://example.com] *)
Definition sample_args : arguments :=
  {| arg_url := sample_url; arg_output_dir := "snapshotFile";
     arg_log_level := INFO; arg_wait_time := None |}.

Definition other_url : string := "https://example.org/news".

(** A browser on a disk that is full for the image: the file is
    opened, the writing fails, and [save_screenshot] answers
    [False]. *)
Definition unwritable : browser :=
  {| latency := fun _ => 0%N;
     on_path_exists := fun _ => true;
     on_makedirs := fun _ => Ok tt;
     on_chrome := fun _ => Ok tt;
     on_get := fun _ => Ok tt;
     on_body := fun _ => Ok tt;
     on_scroll_height := fun _ => Ok 1000;
     on_scroll := fun _ => Ok tt;
     on_images := fun _ => Ok tt;
     on_ajax := fun _ => Ok tt;
     on_mutations := fun _ => Ok 0;
     on_metrics := fun _ => Ok sample_metrics;
     on_set_window_size := fun _ => Ok tt;
     on_now := fun _ => sample_now;
     on_save_screenshot := fun _ => Ok false;
     opened := fun _ => true;
     on_title := fun _ => Ok "Example";
     on_current_url := fun _ => Ok "https://example.com/";
     on_user_agent := fun _ => Ok "HeadlessChrome";
     on_open := fun _ => Ok tt;
     on_dump := fun _ => Ok tt;
     on_print := fun _ => Ok tt;
     written := fun _ => O;
     on_quit := fun _ => Ok tt |}.

(** ** Notions used in the statements *)

(** The state a computation ends in, if it ends. *)
Definition final {A} (o : outcome A) : option state :=
  match o with
  | Ret _ s | Raise _ s => Some s
  | OutOfFuel => None
  end.

(** What a run leaves behind for the operator: the files and the
    lines on the standard output. *)
Definition outputs (s : state) : gmap string content * list string :=
  (files s, stdout s).

(** [c] writes no file and prints nothing, however it ends. *)
Definition quiet {A} (c : M A) : Prop :=
  forall s s', final (c s) = Some s' -> outputs s' = outputs s.

(** What the handlers of [capture_screenshot] log for an exception. *)
Definition failure_message (url : string) (e : exn) : string :=
  match e with
  | TimeoutException _ => "Timeout while loading URL: " +:+ url
  | _ => "Error capturing screenshot: " +:+ str_exn e
  end.

(** [capture_body] in two halves, for the proofs: the steps up to the
    extra delay, which only wait and look, and the steps from the
    measurement on, which resize, shoot and write. *)
Definition prepare (env : browser) (self : WebSnapshot) (url : string)
    (fuel : nat) : M unit :=
  logger INFO ("Starting screenshot capture for URL: " +:+ url) ;;
  driver env (EGet url) (on_get env) ;;
  driver env (EUntilBody 10) (on_body env) ;;
  scroll_to_bottom env fuel ;;
  content_stable <- wait_for_content_stable env fuel 10 ;;
  wait_for_images env ;;
  dynamic_content_loaded <- wait_for_dynamic_content env ;;
  extra_delay self content_stable dynamic_content_loaded.

Definition stem (env : browser) (n : nat) : string :=
  "snapshot_" +:+ strftime (on_now env n).

Definition png_path (self : WebSnapshot) (filename : string) : string :=
  path_join (output_dir self) (filename +:+ ".png").

Definition json_path (self : WebSnapshot) (filename : string) : string :=
  path_join (output_dir self) (filename +:+ ".json").

Definition shoot (env : browser) (self : WebSnapshot) (url : string)
  : M (string * string) :=
  height_metrics <- execute_script env MaxHeight (on_metrics env) ;;
  width_metrics <- execute_script env MaxWidth (on_metrics env) ;;
  set_window_size env (math_max width_metrics + 100)
    (math_max height_metrics + 100) ;;
  sleep 2000 ;;
  now <- driver env ENow (fun n => Ok (on_now env n)) ;;
  save_screenshot env (png_path self ("snapshot_" +:+ strftime now)) ;;
  title <- driver env ETitle (on_title env) ;;
  current_url <- driver env ECurrentUrl (on_current_url env) ;;
  user_agent <- execute_script env UserAgent (on_user_agent env) ;;
  write_json env (json_path self ("snapshot_" +:+ strftime now))
    (json_data url (strftime now) (math_max width_metrics)
       (math_max height_metrics) title current_url user_agent) ;;
  logger INFO ("Screenshot and JSON data saved successfully: "
               +:+ "snapshot_" +:+ strftime now) ;;
  ret (png_path self ("snapshot_" +:+ strftime now),
       json_path self ("snapshot_" +:+ strftime now)).

(** What one pass of [scroll_to_bottom] does: nine scrolls to a tenth
    more of the height, each followed by half a second, the scroll to
    the bottom, two seconds, and the new measurement. *)
Definition pass_events : list event :=
  flat_map (fun i => [EScript (ScrollToFraction i); ESleep 500]) (seq 1 9)
  ++ [EScript ScrollToBottom; ESleep 2000; EScript ReadScrollHeight].

(** What [wait_for_content_stable] compares its [i]-th sample with:
    the initial [last_height], then the sample before. *)
Definition previous (v : nat -> Z) (last : Z) (i : nat) : Z :=
  match i with
  | O => last
  | S j => v j
  end.

(** [n] samples of the height that did not end the wait, one second
    after each. *)
Definition polls (n : nat) : list event :=
  concat (repeat [EScript ReadScrollHeight; ESleep 1000] n).

(** [c] ends, with a value or an exception. *)
Definition halts {A} (c : M A) : Prop := forall s, c s <> OutOfFuel.

Definition succeeds {A} (oracle : nat -> result A) : Prop :=
  forall n, exists a, oracle n = Ok a.

(** A browser on which every step succeeds, save perhaps the wait for
    the images and the check for dynamic content. *)
Record cooperative (env : browser) : Prop := {
  coop_get : succeeds (on_get env);
  coop_body : succeeds (on_body env);
  coop_scroll_height : succeeds (on_scroll_height env);
  coop_scroll : succeeds (on_scroll env);
  coop_metrics : succeeds (on_metrics env);
  coop_set_window_size : succeeds (on_set_window_size env);
  coop_save_screenshot : succeeds (on_save_screenshot env);
  coop_title : succeeds (on_title env);
  coop_current_url : succeeds (on_current_url env);
  coop_user_agent : succeeds (on_user_agent env);
  coop_open : succeeds (on_open env);
  coop_dump : succeeds (on_dump env)
}.

Definition height_at (env : browser) (n : nat) : Z :=
  match on_scroll_height env n with
  | Ok h => h
  | Err _ => 0
  end.

(** [wait_time] is absent or a length that [time.sleep] takes: not
    negative, and fitting 64 bits when counted in nanoseconds *)
Definition valid_wait_time (self : WebSnapshot) : Prop :=
  match wait_time self with
  | Some n => 0 <= n <= 9223372036
  | None => True
  end.

(** What [time.sleep] raises when it is asked for a negative number of
    seconds. *)
Definition sleep_refusal (n : Z) : exn :=
  if -9223372036 <=? n
  then ValueError "sleep length must be non-negative"
  else OverflowError "timestamp too large to convert to C _PyTime_t".

Definition final_state {A} (o : outcome A) : state :=
  match final o with
  | Some s => s
  | None => initial
  end.

(** The layout of the sidecar, line by line: one member a line, two
    spaces of indentation a level. *)
Fixpoint unlines (l : list string) : string :=
  match l with
  | [] => EmptyString
  | [x] => x
  | x :: rest => x +:+ String newline (unlines rest)
  end.

Definition sidecar_lines (url ts : string) (W H : Z) (title cur ua : string)
  : list string :=
  [ "{";
    "  " +:+ quote "url" +:+ ": " +:+ quote url +:+ ",";
    "  " +:+ quote "timestamp" +:+ ": " +:+ quote ts +:+ ",";
    "  " +:+ quote "dimensions" +:+ ": {";
    "    " +:+ quote "width" +:+ ": " +:+ str_int W +:+ ",";
    "    " +:+ quote "height" +:+ ": " +:+ str_int H;
    "  },";
    "  " +:+ quote "metadata" +:+ ": {";
    "    " +:+ quote "title" +:+ ": " +:+ quote title +:+ ",";
    "    " +:+ quote "url" +:+ ": " +:+ quote cur +:+ ",";
    "    " +:+ quote "user_agent" +:+ ": " +:+ quote ua;
    "  }";
    "}" ].

(** Number of nodes of a JSON value, members counted. *)
Fixpoint size (v : json) : nat :=
  match v with
  | JObj fields => S (list_sum (map (fun kv => S (size (snd kv))) fields))
  | _ => 1%nat
  end.

Definition msize (fields : list (string * json)) : nat :=
  list_sum (map (fun kv => S (size (snd kv))) fields).

(** A text that does not go on with a digit. *)
Definition starts_clean (s : string) : Prop :=
  match s with
  | String c _ => is_digit c = false
  | EmptyString => True
  end.

Definition all_digits (s : string) : Prop :=
  forall c, In c (list_ascii_of_string s) -> is_digit c = true.

(** [c] takes at least [d] milliseconds when it returns, and the clock
    never goes back, however it ends. *)
Definition lasts (d : Z) {A} (c : M A) : Prop :=
  forall s,
    match c s with
    | Ret _ s' => clock s <= clock s' /\ clock s + d <= clock s'
    | Raise _ s' => clock s <= clock s'
    | OutOfFuel => True
    end.

(** The length of the sleep that a supplied wait time asks for, in
    milliseconds. *)
Definition delay_of (self : WebSnapshot) : Z :=
  match wait_time self with
  | Some n => Z.max 0 (1000 * n)
  | None => 0
  end.

(** The events that open and close the browser session. *)
Definition session_event (ev : event) : bool :=
  match ev with
  | EChrome | EQuit => true
  | _ => false
  end.

Definition quit_event (ev : event) : bool :=
  match ev with
  | EQuit => true
  | _ => false
  end.

(** [c] only adds to the trace, and no event that [Q] holds of,
    however it ends. *)
Definition never (Q : event -> bool) {A} (c : M A) : Prop :=
  forall s s', final (c s) = Some s' ->
    exists t, trace s' = trace s ++ t /\ existsb Q t = false.

(** [main] up to the start of the browser, for the proofs: the output
    directory and the logging. *)
Definition startup (env : browser) (args : arguments) : M unit :=
  present <- driver env (EPathExists (arg_output_dir args))
               (fun n => Ok (on_path_exists env n)) ;;
  (if negb present
   then driver env (EMakedirs (arg_output_dir args)) (on_makedirs env)
   else ret tt) ;;
  setup_logging env (arg_log_level args).

(** The line [main] prints for the result of the capture. *)
Definition report (result : option (string * string)) : string :=
  match result with
  | Some (screenshot_path, _) =>
      "Screenshot and JSON data saved successfully: " +:+ screenshot_path
  | None => "Failed to capture screenshot"
  end.

(** * Properties *)

(** ** Reasoning about the monad *)

Lemma bind_Ret {A B} (c : M A) (k : A -> M B) s a s1 :
  c s = Ret a s1 -> bind c k s = k a s1.
Proof. unfold bind. now intros ->. Qed.

Lemma bind_Raise {A B} (c : M A) (k : A -> M B) s e s1 :
  c s = Raise e s1 -> bind c k s = Raise e s1.
Proof. unfold bind. now intros ->. Qed.

Lemma bind_OutOfFuel {A B} (c : M A) (k : A -> M B) s :
  c s = OutOfFuel -> bind c k s = OutOfFuel.
Proof. unfold bind. now intros ->. Qed.

Lemma bind_Ret_inv {A B} (c : M A) (k : A -> M B) s b s' :
  bind c k s = Ret b s' ->
  exists a s1, c s = Ret a s1 /\ k a s1 = Ret b s'.
Proof.
  unfold bind. destruct (c s) as [a s1|e s1|]; intros H; try discriminate.
  now exists a, s1.
Qed.

Lemma bind_Raise_inv {A B} (c : M A) (k : A -> M B) s e s' :
  bind c k s = Raise e s' ->
  c s = Raise e s' \/ exists a s1, c s = Ret a s1 /\ k a s1 = Raise e s'.
Proof.
  unfold bind. destruct (c s) as [a s1|e1 s1|]; intros H; try discriminate.
  - right. now exists a, s1.
  - left. now inversion H.
Qed.

Lemma bind_OutOfFuel_inv {A B} (c : M A) (k : A -> M B) s :
  bind c k s = OutOfFuel ->
  c s = OutOfFuel \/ exists a s1, c s = Ret a s1 /\ k a s1 = OutOfFuel.
Proof.
  unfold bind. destruct (c s) as [a s1|e1 s1|]; intros H; try discriminate.
  - right. now exists a, s1.
  - now left.
Qed.

Section Facts.

Variable env : browser.

Lemma driver_Ok {A} (ev : event) (oracle : nat -> result A) s a :
  oracle (calls s) = Ok a ->
  driver env ev oracle s = Ret a (interact ev (Z.of_N (latency env (calls s))) s).
Proof. unfold driver. now intros ->. Qed.

Lemma driver_Err {A} (ev : event) (oracle : nat -> result A) s e :
  oracle (calls s) = Err e ->
  driver env ev oracle s = Raise e (interact ev (Z.of_N (latency env (calls s))) s).
Proof. unfold driver. now intros ->. Qed.

Lemma fits_time_t_spec ms :
  fits_time_t ms = true <-> -9223372036854 <= ms <= 9223372036854.
Proof.
  unfold fits_time_t. rewrite andb_true_iff, !Z.leb_le. lia.
Qed.

Lemma print_Ret_inv line s u s' :
  print env line s = Ret u s' ->
  on_print env (calls s) = Ok tt /\
  s' = printed line (interact (EPrint line) (Z.of_N (latency env (calls s))) s).
Proof.
  unfold print. destruct (on_print env (calls s)) as [[]|e]; intros [=].
  subst. auto.
Qed.

Lemma print_Raise_inv line s e s' :
  print env line s = Raise e s' ->
  on_print env (calls s) = Err e /\
  s' = printed_part (written env (calls s)) line
         (interact (EPrint line) (Z.of_N (latency env (calls s))) s).
Proof.
  unfold print. destruct (on_print env (calls s)) as [[]|e1]; intros [=].
  subst. auto.
Qed.

Lemma print_halts line s : print env line s <> OutOfFuel.
Proof. unfold print. destruct (on_print env (calls s)); discriminate. Qed.

Lemma sleep_Ret ms s :
  0 <= ms <= 9223372036854 -> sleep ms s = Ret tt (slept ms s).
Proof.
  intros H. unfold sleep.
  rewrite (proj2 (fits_time_t_spec ms)) by lia. simpl.
  destruct (Z.ltb_spec ms 0); [lia | reflexivity].
Qed.

Lemma sleep_Raise ms s :
  -9223372036854 <= ms < 0 ->
  sleep ms s = Raise (ValueError "sleep length must be non-negative") (refused ms s).
Proof.
  intros H. unfold sleep.
  rewrite (proj2 (fits_time_t_spec ms)) by lia. simpl.
  destruct (Z.ltb_spec ms 0); [reflexivity | lia].
Qed.

Lemma sleep_Overflow ms s :
  ms < -9223372036854 \/ 9223372036854 < ms ->
  sleep ms s
  = Raise (OverflowError "timestamp too large to convert to C _PyTime_t")
      (refused ms s).
Proof.
  intros H. unfold sleep.
  destruct (fits_time_t ms) eqn:E; [|reflexivity].
  apply fits_time_t_spec in E. lia.
Qed.

End Facts.

(** ** Reading back what [dumps] writes *)

Lemma append_cons c (a b : string) : String c a +:+ b = String c (a +:+ b).
Proof. reflexivity. Qed.

Lemma append_assoc (a b c : string) : (a +:+ b) +:+ c = a +:+ (b +:+ c).
Proof.
  induction a as [|x a IH]; [reflexivity|].
  rewrite !append_cons. now rewrite IH.
Qed.

Lemma read_escape_char c tail :
  read_string (escape_char c +:+ tail) = cons_char c (read_string tail).
Proof.
  destruct c as [b0 b1 b2 b3 b4 b5 b6 b7].
  destruct b0, b1, b2, b3, b4, b5, b6, b7; reflexivity.
Qed.

Lemma read_escape s rest :
  read_string (escape s +:+ String dquote rest) = Some (s, rest).
Proof.
  induction s as [|c s IH].
  - reflexivity.
  - change (escape (String c s)) with (escape_char c +:+ escape s).
    rewrite append_assoc, read_escape_char, IH. reflexivity.
Qed.

Lemma read_digits_app d rest :
  all_digits d -> starts_clean rest -> read_digits (d +:+ rest) = (d, rest).
Proof.
  induction d as [|c d IH]; intros Hd Hrest.
  - change (EmptyString +:+ rest) with rest.
    destruct rest as [|c r]; [reflexivity|]. simpl in *. now rewrite Hrest.
  - rewrite append_cons. simpl.
    rewrite (Hd c) by (simpl; auto).
    rewrite IH; auto. intros x Hx. apply Hd. simpl. auto.
Qed.

Lemma uint_digits d : all_digits (NilEmpty.string_of_uint d).
Proof.
  induction d; intros c; simpl; try tauto;
    intros [<- | H]; auto.
Qed.

Lemma nilzero_uint_digits d : all_digits (NilZero.string_of_uint d).
Proof.
  destruct d; try apply (uint_digits (_ _)).
  intros c [<- | []]. reflexivity.
Qed.

Lemma nilzero_uint_head d :
  exists c r, NilZero.string_of_uint d = String c r /\ is_digit c = true.
Proof.
  destruct d; simpl; eauto.
Qed.

Lemma read_int_str_int n rest :
  starts_clean rest -> read_int (str_int n +:+ rest) = Some (n, rest).
Proof.
  intros Hrest. unfold str_int.
  assert (Hparse : NilZero.int_of_string (NilZero.string_of_int (Z.to_int n)) = Some (Z.to_int n)).
  { apply NilZero.isi; destruct n; simpl; try discriminate;
      intros [= H]; now apply Unsigned.to_uint_nonnil in H. }
  unfold read_int.
  destruct (Z.to_int n) as [d|d] eqn:E.
  - simpl NilZero.string_of_int in *.
    destruct (nilzero_uint_head d) as (c & r & Hc & Hdig).
    rewrite Hc, append_cons.
    assert (Ascii.eqb c "-" = false) as ->.
    { destruct (Ascii.eqb_spec c "-"); [subst; discriminate | reflexivity]. }
    rewrite <- append_cons, <- Hc, read_digits_app by (auto using nilzero_uint_digits).
    rewrite Hparse, <- E, DecimalZ.of_to. reflexivity.
  - simpl NilZero.string_of_int in *. rewrite append_cons.
    rewrite Ascii.eqb_refl, read_digits_app by (auto using nilzero_uint_digits).
    rewrite Hparse, <- E, DecimalZ.of_to. reflexivity.
Qed.

Lemma skip_ws_stop c t : is_ws c = false -> skip_ws (String c t) = String c t.
Proof. intros H. simpl. now rewrite H. Qed.

Lemma skip_ws_spaces n t : skip_ws (spaces n +:+ t) = skip_ws t.
Proof. induction n as [|n IH]; [reflexivity|]. exact IH. Qed.

Lemma skip_ws_newline_indent i l t : skip_ws (newline_indent i l +:+ t) = skip_ws t.
Proof. unfold newline_indent. rewrite append_cons. apply skip_ws_spaces. Qed.

Lemma quote_app s t : quote s +:+ t = String dquote (escape s +:+ String dquote t).
Proof. unfold quote. now rewrite append_cons, append_assoc. Qed.

Lemma str_int_head n :
  exists c r, str_int n = String c r /\ (is_digit c = true \/ c = "-"%char).
Proof.
  unfold str_int. destruct (Z.to_int n) as [d|d]; simpl.
  - destruct (nilzero_uint_head d) as (c & r & -> & H). eauto.
  - eauto.
Qed.

Lemma dump_items_false D sep k x fs :
  dump_items D sep false ((k, x) :: fs) = sep +:+ dump_items D sep true ((k, x) :: fs).
Proof. reflexivity. Qed.

Lemma dump_items_true D sep k x fs :
  dump_items D sep true ((k, x) :: fs) =
  quote k +:+ ": " +:+ D x +:+ dump_items D sep false fs.
Proof. reflexivity. Qed.

Lemma size_pos v : (1 <= size v)%nat.
Proof. destruct v; simpl; lia. Qed.

Lemma skip_ws_dumps i l v rest :
  skip_ws (dumps i l v +:+ rest) = dumps i l v +:+ rest.
Proof.
  destruct v as [str|n|[|[k x] fs]].
  - reflexivity.
  - simpl dumps. destruct (str_int_head n) as (c & r & -> & [H | ->]); [|reflexivity].
    rewrite append_cons. apply skip_ws_stop.
    unfold is_digit, is_ws in *.
    destruct (nat_of_ascii c) as [|m]; [discriminate|].
    do 32 (destruct m as [|m]; [discriminate|]). reflexivity.
  - reflexivity.
  - reflexivity.
Qed.

Lemma read_round_trip fuel :
  (forall v i l rest s,
      (size v <= fuel)%nat -> starts_clean rest ->
      skip_ws s = dumps i l v +:+ rest ->
      read_value fuel s = Some (v, rest)) /\
  (forall f fs i l rest s,
      (msize (f :: fs) <= fuel)%nat ->
      skip_ws s = dump_items (dumps i (S l)) ("," +:+ newline_indent i (S l)) true (f :: fs)
                  +:+ newline_indent i l +:+ "}" +:+ rest ->
      read_members fuel s = Some (f :: fs, rest)).
Proof.
  induction fuel as [|fuel [IHv IHm]].
  { split.
    - intros v i l rest s H. pose proof (size_pos v). lia.
    - intros f fs i l rest s H. unfold msize in H. simpl in H. lia. }
  split.
  - intros v i l rest s Hsize Hclean Hs. simpl. rewrite Hs.
    destruct v as [str|n|fields].
    + simpl dumps. rewrite quote_app, Ascii.eqb_refl, read_escape. reflexivity.
    + simpl dumps.
      destruct (str_int_head n) as (c & r & Hc & Hhead).
      pose proof (read_int_str_int n rest Hclean) as Hint.
      rewrite Hc in *. rewrite append_cons in *.
      assert (Ascii.eqb c dquote = false /\ Ascii.eqb c "{" = false) as [-> ->].
      { destruct Hhead as [H | ->]; [|now split].
        split; destruct (Ascii.eqb_spec c dquote), (Ascii.eqb_spec c "{");
          subst; try reflexivity; discriminate. }
      rewrite Hint. reflexivity.
    + destruct fields as [|[k x] fs].
      * reflexivity.
      * change (dumps i l (JObj ((k, x) :: fs))) with
          ("{" +:+ newline_indent i (S l)
           +:+ dump_items (dumps i (S l)) ("," +:+ newline_indent i (S l)) true ((k, x) :: fs)
           +:+ newline_indent i l +:+ "}").
        rewrite !append_assoc. rewrite append_cons.
        change (Ascii.eqb "{" dquote) with false. cbv iota.
        rewrite Ascii.eqb_refl.
        change (EmptyString +:+ ?t) with t.
        rewrite skip_ws_newline_indent.
        rewrite dump_items_true, !append_assoc, quote_app.
        rewrite skip_ws_stop by reflexivity.
        change (Ascii.eqb dquote "}") with false. cbv iota.
        rewrite (IHm (k, x) fs i l rest); [reflexivity| |].
        -- simpl in Hsize. unfold msize. simpl. lia.
        -- rewrite skip_ws_newline_indent.
           rewrite dump_items_true, !append_assoc, quote_app.
           rewrite skip_ws_stop by reflexivity.
           change ("}" +:+ rest) with (String "}" rest). reflexivity.
  - intros [k x] fs i l rest s Hsize Hs. simpl. rewrite Hs.
    rewrite dump_items_true, !append_assoc, quote_app.
    rewrite Ascii.eqb_refl, read_escape.
    change (": " +:+ ?t) with (String ":" (String " " t)).
    rewrite skip_ws_stop by reflexivity. rewrite Ascii.eqb_refl.
    unfold msize in Hsize. simpl in Hsize.
    destruct fs as [|[k' x'] fs].
    + rewrite (IHv x i (S l) (newline_indent i l +:+ "}" +:+ rest));
        [| lia | reflexivity | apply (skip_ws_dumps i (S l) x)].
      rewrite skip_ws_newline_indent.
      change ("}" +:+ rest) with (String "}" rest).
      rewrite skip_ws_stop by reflexivity. reflexivity.
    + rewrite dump_items_false.
      rewrite (IHv x i (S l)
                 (("," +:+ newline_indent i (S l)
                   +:+ dump_items (dumps i (S l)) ("," +:+ newline_indent i (S l)) true ((k', x') :: fs))
                  +:+ newline_indent i l +:+ "}" +:+ rest));
        [| simpl in *; lia | reflexivity | apply (skip_ws_dumps i (S l) x)].
      rewrite !append_assoc. rewrite append_cons.
      rewrite skip_ws_stop by reflexivity. rewrite Ascii.eqb_refl.
      change (EmptyString +:+ ?t) with t.
      rewrite (IHm (k', x') fs i l rest); [reflexivity | |].
      * unfold msize. simpl in *. lia.
      * rewrite skip_ws_newline_indent.
        rewrite dump_items_true, !append_assoc, quote_app.
        rewrite skip_ws_stop by reflexivity. reflexivity.
Qed.

Lemma json_nested_ind (P : json -> Prop) :
  (forall s, P (JStr s)) ->
  (forall n, P (JInt n)) ->
  (forall fields, Forall (fun kv => P (snd kv)) fields -> P (JObj fields)) ->
  forall v, P v.
Proof.
  intros Hs Hn Ho. fix IH 1. intros [s|n|fields].
  - apply Hs.
  - apply Hn.
  - apply Ho. induction fields as [|[k x] fields IHf]; constructor.
    + apply IH.
    + exact IHf.
Qed.

Lemma length_append (a b : string) :
  String.length (a +:+ b) = (String.length a + String.length b)%nat.
Proof.
  induction a as [|c a IH]; [reflexivity|].
  rewrite append_cons. simpl. now rewrite IH.
Qed.

Lemma append_nil_r (a : string) : a +:+ EmptyString = a.
Proof.
  induction a as [|c a IH]; [reflexivity|].
  rewrite append_cons. now rewrite IH.
Qed.

Lemma length_dump_items D sep first fields :
  Forall (fun kv => (size (snd kv) <= String.length (D (snd kv)))%nat) fields ->
  (msize fields <= String.length (dump_items D sep first fields))%nat.
Proof.
  intros H. revert first. induction H as [|[k x] fields Hx _ IH]; intros first.
  - simpl. unfold msize. simpl. lia.
  - change (dump_items D sep first ((k, x) :: fields)) with
      ((if first then EmptyString else sep)
       +:+ quote k +:+ ": " +:+ D x +:+ dump_items D sep false fields).
    rewrite !length_append. specialize (IH false).
    unfold msize in *. simpl in *. lia.
Qed.

Lemma length_dumps i l v : (size v <= String.length (dumps i l v))%nat.
Proof.
  revert l. induction v as [s|n|fields IH] using json_nested_ind; intros l.
  - simpl. lia.
  - simpl. destruct (str_int_head n) as (c & r & -> & _). simpl. lia.
  - destruct fields as [|[k x] fs]; [simpl; lia|].
    change (dumps i l (JObj ((k, x) :: fs))) with
      ("{" +:+ newline_indent i (S l)
       +:+ dump_items (dumps i (S l)) ("," +:+ newline_indent i (S l)) true ((k, x) :: fs)
       +:+ newline_indent i l +:+ "}").
    rewrite !length_append.
    pose proof (length_dump_items (dumps i (S l)) ("," +:+ newline_indent i (S l))
                  true ((k, x) :: fs)) as Hlen.
    unfold msize in Hlen. change (size (JObj ((k, x) :: fs)))
      with (S (list_sum (map (fun kv => S (size (snd kv))) ((k, x) :: fs)))).
    assert (Hall : Forall (fun kv => (size (snd kv) <= String.length (dumps i (S l) (snd kv)))%nat)
                     ((k, x) :: fs)).
    { eapply Forall_impl; [exact IH|]. intros kv Hkv. apply Hkv. }
    specialize (Hlen Hall). simpl String.length at 1. lia.
Qed.

(** Reading back the text [dumps] writes gives the value written. *)
Lemma loads_dumps i v : loads (dumps i 0 v) = Some v.
Proof.
  unfold loads.
  destruct (read_round_trip (String.length (dumps i 0 v))) as [Hv _].
  rewrite (Hv v i 0%nat EmptyString).
  - reflexivity.
  - apply length_dumps.
  - exact I.
  - pose proof (skip_ws_dumps i 0 v EmptyString) as H.
    now rewrite !append_nil_r in *.
Qed.

(** ** Which steps write or print *)

Lemma outputs_files s s' : outputs s' = outputs s -> files s' = files s.
Proof. now intros [= ? ?]. Qed.

Lemma outputs_stdout s s' : outputs s' = outputs s -> stdout s' = stdout s.
Proof. now intros [= ? ?]. Qed.

Lemma quiet_ret {A} (a : A) : quiet (ret a).
Proof. intros s s' [= <-]. reflexivity. Qed.

Lemma quiet_bind {A B} (c : M A) (k : A -> M B) :
  quiet c -> (forall a, quiet (k a)) -> quiet (bind c k).
Proof.
  intros Hc Hk s s'. unfold bind.
  destruct (c s) as [a s1|e s1|] eqn:E; simpl; intros H.
  - rewrite (Hk a s1 s' H). apply Hc. now rewrite E.
  - injection H as <-. apply Hc. now rewrite E.
  - discriminate.
Qed.

Lemma quiet_try_except {A} (c : M A) (h : exn -> option (M A)) :
  quiet c -> (forall e k, h e = Some k -> quiet k) ->
  quiet (try_except c h).
Proof.
  intros Hc Hh s s'. unfold try_except.
  destruct (c s) as [a s1|e s1|] eqn:E; simpl; intros H.
  - injection H as <-. apply Hc. now rewrite E.
  - destruct (h e) as [k|] eqn:Ek.
    + rewrite (Hh e k Ek s1 s' H). apply Hc. now rewrite E.
    + injection H as <-. apply Hc. now rewrite E.
  - discriminate.
Qed.

Lemma quiet_logger l msg : quiet (logger l msg).
Proof. intros s s' [= <-]. reflexivity. Qed.

Lemma quiet_time : quiet time_time.
Proof. intros s s' [= <-]. reflexivity. Qed.

Lemma quiet_sleep ms : quiet (sleep ms).
Proof.
  intros s s'. unfold sleep.
  destruct (fits_time_t ms), (ms <? 0); intros [= <-]; reflexivity.
Qed.

Lemma quiet_for_each {A} (l : list A) (body : A -> M unit) :
  (forall x, quiet (body x)) -> quiet (for_each l body).
Proof.
  intros Hb. induction l as [|x l IH]; simpl.
  - apply quiet_ret.
  - apply quiet_bind; auto.
Qed.

Lemma quiet_driver {A} env ev (oracle : nat -> result A) :
  quiet (driver env ev oracle).
Proof.
  intros s s'. unfold driver.
  destruct (oracle (calls s)); intros [= <-]; reflexivity.
Qed.

Lemma quiet_set_window_size env w h :
  quiet (set_window_size env w h).
Proof.
  apply quiet_bind; [apply quiet_driver|].
  intros _ s s' [= <-]. reflexivity.
Qed.

Create HintDb frame.
#[global] Hint Resolve quiet_ret quiet_logger quiet_time
  quiet_sleep quiet_driver quiet_set_window_size : frame.

Ltac frame :=
  repeat first
    [ solve [eauto with frame]
    | apply quiet_bind; [|intros ?]
    | apply quiet_try_except; [|intros ? ? ?]
    | apply quiet_for_each; intros ?
    | match goal with
      | H : Some _ = Some _ |- _ => inversion H; subst; clear H
      | H : None = Some _ |- _ => discriminate H
      | |- quiet (if ?b then _ else _) => destruct b
      | H : match ?e with _ => _ end = Some _ |- _ => destruct e
      end ].

Lemma quiet_scroll_pass env : quiet (scroll_pass env).
Proof. unfold scroll_pass, execute_script. frame. Qed.

Lemma quiet_scroll_loop env fuel last :
  quiet (scroll_loop env fuel last).
Proof.
  revert last. induction fuel as [|fuel IH]; intros last; simpl.
  - intros s s' [=].
  - apply quiet_bind; [apply quiet_scroll_pass|].
    intros h. destruct (h =? last); [apply quiet_ret | apply IH].
Qed.

Lemma quiet_scroll_to_bottom env fuel :
  quiet (scroll_to_bottom env fuel).
Proof.
  unfold scroll_to_bottom, execute_script.
  pose proof (quiet_scroll_loop env). frame.
Qed.

Lemma quiet_stable_loop env fuel timeout start last :
  quiet (stable_loop env fuel timeout start last).
Proof.
  revert last. induction fuel as [|fuel IH]; intros last; simpl.
  - intros s s' [=].
  - apply quiet_bind; [apply quiet_time|].
    intros now. destruct (now - start <? 1000 * timeout); [|apply quiet_ret].
    unfold execute_script. apply quiet_bind; [apply quiet_driver|].
    intros h. destruct (h =? last); frame.
Qed.

Lemma quiet_wait_for_content_stable env fuel timeout :
  quiet (wait_for_content_stable env fuel timeout).
Proof.
  unfold wait_for_content_stable.
  pose proof (quiet_stable_loop env). frame.
Qed.

Lemma quiet_wait_for_images env : quiet (wait_for_images env).
Proof. unfold wait_for_images. frame. Qed.

Lemma quiet_wait_for_dynamic_content env :
  quiet (wait_for_dynamic_content env).
Proof. unfold wait_for_dynamic_content, execute_script. frame. Qed.

Lemma quiet_extra_delay self cs dl : quiet (extra_delay self cs dl).
Proof. unfold extra_delay. frame. Qed.

#[global] Hint Resolve quiet_scroll_to_bottom
  quiet_wait_for_content_stable quiet_wait_for_images
  quiet_wait_for_dynamic_content quiet_extra_delay : frame.

(** ** The handlers of [capture_screenshot] *)

Lemma capture_screenshot_Raise env self url fuel s e s1 :
  capture_body env self url fuel s = Raise e s1 ->
  capture_screenshot env self url fuel s
  = Ret None (logged ERROR (failure_message url e) s1).
Proof.
  intros H. unfold capture_screenshot, try_except.
  erewrite bind_Raise by exact H. now destruct e.
Qed.

Lemma capture_screenshot_Ret env self url fuel s paths s1 :
  capture_body env self url fuel s = Ret paths s1 ->
  capture_screenshot env self url fuel s = Ret (Some paths) s1.
Proof.
  intros H. unfold capture_screenshot, try_except.
  erewrite bind_Ret by exact H. reflexivity.
Qed.

Lemma capture_screenshot_OutOfFuel env self url fuel s :
  capture_body env self url fuel s = OutOfFuel ->
  capture_screenshot env self url fuel s = OutOfFuel.
Proof.
  intros H. unfold capture_screenshot, try_except.
  erewrite bind_OutOfFuel by exact H. reflexivity.
Qed.

(** [capture_screenshot] never raises: it ends with a result, or its
    body runs for ever. *)
Lemma capture_screenshot_cases env self url fuel s :
  (exists paths s1, capture_body env self url fuel s = Ret paths s1 /\
     capture_screenshot env self url fuel s = Ret (Some paths) s1) \/
  (exists e s1, capture_body env self url fuel s = Raise e s1 /\
     capture_screenshot env self url fuel s
     = Ret None (logged ERROR (failure_message url e) s1)) \/
  (capture_body env self url fuel s = OutOfFuel /\
     capture_screenshot env self url fuel s = OutOfFuel).
Proof.
  destruct (capture_body env self url fuel s) as [paths s1|e s1|] eqn:E.
  - left. eauto using capture_screenshot_Ret.
  - right; left. eauto using capture_screenshot_Raise.
  - right; right. eauto using capture_screenshot_OutOfFuel.
Qed.

(** ** The two halves of [capture_body] *)

Lemma capture_body_split env self url fuel s :
  capture_body env self url fuel s
  = (prepare env self url fuel ;; shoot env self url) s.
Proof.
  unfold capture_body, prepare, shoot, png_path, json_path, bind.
  repeat match goal with
         | |- context [match ?c s with _ => _ end] => destruct (c s)
         | |- context [match ?c ?x with Ret _ _ => _ | _ => _ end] =>
             destruct (c x)
         end; reflexivity.
Qed.

Lemma quiet_prepare env self url fuel :
  quiet (prepare env self url fuel).
Proof. unfold prepare. frame. Qed.

(** ** The primitive steps, read backwards *)

Lemma driver_inv {A} env ev (oracle : nat -> result A) s o :
  driver env ev oracle s = o ->
  (exists a, oracle (calls s) = Ok a /\
     o = Ret a (interact ev (Z.of_N (latency env (calls s))) s)) \/
  (exists e, oracle (calls s) = Err e /\
     o = Raise e (interact ev (Z.of_N (latency env (calls s))) s)).
Proof.
  unfold driver. destruct (oracle (calls s)) as [a|e]; intros <-; eauto.
Qed.

Lemma driver_Ret_inv {A} env ev (oracle : nat -> result A) s a s' :
  driver env ev oracle s = Ret a s' ->
  oracle (calls s) = Ok a /\ s' = interact ev (Z.of_N (latency env (calls s))) s.
Proof.
  intros H. apply driver_inv in H as [(a' & E & [= -> ->]) | (e & E & [=])]. auto.
Qed.

Lemma driver_Raise_inv {A} env ev (oracle : nat -> result A) s e s' :
  driver env ev oracle s = Raise e s' ->
  oracle (calls s) = Err e /\ s' = interact ev (Z.of_N (latency env (calls s))) s.
Proof.
  intros H. apply driver_inv in H as [(a' & E & [=]) | (e' & E & [= -> ->])]. auto.
Qed.

Lemma sleep_Ret_inv ms s u s' :
  sleep ms s = Ret u s' -> 0 <= ms <= 9223372036854 /\ s' = slept ms s.
Proof.
  unfold sleep. destruct (fits_time_t ms) eqn:E; simpl; [|discriminate].
  apply fits_time_t_spec in E.
  destruct (Z.ltb_spec ms 0); intros [=]. subst. split; [lia | reflexivity].
Qed.

Lemma sleep_Raise_inv ms s e s' :
  sleep ms s = Raise e s' ->
  (ms < 0 \/ 9223372036854 < ms) /\ s' = refused ms s.
Proof.
  unfold sleep. destruct (fits_time_t ms) eqn:E; simpl.
  - destruct (Z.ltb_spec ms 0); intros [=]. subst. auto.
  - intros [= <- <-]. split; [|reflexivity].
    destruct (Z.ltb_spec ms 0); [now left|right].
    destruct (Z.leb_spec ms 9223372036854); [|lia].
    assert (fits_time_t ms = true) by (apply fits_time_t_spec; lia).
    congruence.
Qed.

Ltac run_shoot H :=
  unfold shoot, execute_script, set_window_size, save_screenshot, write_json,
    driver, bind, sleep, modify, logger, ret in H;
  simpl in H;
  repeat match type of H with
         | context [match ?o with Ok _ => _ | Err _ => _ end] =>
             destruct o eqn:?; simpl in H; try discriminate H
         | context [if ?b then _ else _] =>
             destruct b eqn:?; simpl in H; try discriminate H
         end.


Lemma shoot_Ret env self url s p j s' :
  shoot env self url s = Ret (p, j) s' ->
  exists hm wm saved title cur ua,
    let c := calls s in
    let W := math_max wm in
    let H := math_max hm in
    let ts := strftime (on_now env (3 + c)) in
    let data := json_data url ts W H title cur ua in
    on_metrics env c = Ok hm /\
    on_metrics env (1 + c) = Ok wm /\
    on_save_screenshot env (4 + c) = Ok saved /\
    on_title env (5 + c) = Ok title /\
    on_current_url env (6 + c) = Ok cur /\
    on_user_agent env (7 + c) = Ok ua /\
    p = png_path self ("snapshot_" +:+ ts) /\
    j = json_path self ("snapshot_" +:+ ts) /\
    files s' = <[j := Text (dumps 2 0 data)]>
                 (if saved then <[p := Png (W + 100) (H + 100)]> (files s)
                  else if opened env (4 + c) then <[p := Truncated]> (files s)
                  else files s) /\
    window s' = (W + 100, H + 100) /\
    trace s' = trace s ++ [EScript MaxHeight; EScript MaxWidth;
                           ESetWindowSize (W + 100) (H + 100); ESleep 2000;
                           ENow; ESaveScreenshot p; ETitle; ECurrentUrl;
                           EScript UserAgent; EOpen j "utf-8"; EDump j].
Proof.
  intros H. run_shoot H;
  injection H as <- <- <-;
  do 6 eexists; simpl;
  repeat match goal with
         | E : opened _ _ = _ |- _ => rewrite E; clear E
         end;
  (repeat split; try eassumption; try reflexivity);
  try (rewrite insert_insert_eq; reflexivity);
  repeat (rewrite <- app_assoc; simpl); reflexivity.
Qed.

(** When the second half fails, the screenshot may already be there,
    in full or cut short, and the JSON file may have been opened: then
    it holds the part of its text that had got through. *)
Lemma shoot_Raise env self url s e s' :
  shoot env self url s = Raise e s' ->
  exists hm wm title cur ua k shot,
    let W := math_max wm in
    let H := math_max hm in
    let ts := strftime (on_now env (3 + calls s)) in
    let p := png_path self ("snapshot_" +:+ ts) in
    let j := json_path self ("snapshot_" +:+ ts) in
    let data := json_data url ts W H title cur ua in
    (shot = files s \/
     shot = <[p := Png (W + 100) (H + 100)]> (files s) \/
     shot = <[p := Truncated]> (files s)) /\
    (files s' = shot \/
     files s' = <[j := Text (prefix k (dumps 2 0 data))]> shot).
Proof.
  intros H. run_shoot H; injection H as <- <-; simpl;
    (let hm := match goal with
               | E : on_metrics _ (calls s) = Ok ?a |- _ => a
               | _ => constr:(sample_metrics)
               end in
     let wm := match goal with
               | E : on_metrics _ (S (calls s)) = Ok ?a |- _ => a
               | _ => constr:(sample_metrics)
               end in
     let title := match goal with
                  | E : on_title _ _ = Ok ?a |- _ => a
                  | _ => constr:(EmptyString)
                  end in
     let cur := match goal with
                | E : on_current_url _ _ = Ok ?a |- _ => a
                | _ => constr:(EmptyString)
                end in
     let ua := match goal with
               | E : on_user_agent _ _ = Ok ?a |- _ => a
               | _ => constr:(EmptyString)
               end in
     exists hm, wm, title, cur, ua);
    first
      [ solve [exists O; eexists;
               split; [left; reflexivity | left; reflexivity]]
      | solve [exists O; eexists;
               split; [right; left; reflexivity | left; reflexivity]]
      | solve [exists O; eexists;
               split; [right; right; reflexivity | left; reflexivity]]
      | solve [eexists _, _;
               split; [left; reflexivity
                      | right; rewrite ?insert_insert_eq; reflexivity]]
      | solve [eexists _, _;
               split; [right; left; reflexivity
                      | right; rewrite ?insert_insert_eq; reflexivity]]
      | solve [eexists _, _;
               split; [right; right; reflexivity
                      | right; rewrite ?insert_insert_eq; reflexivity]] ].
Qed.

Lemma shoot_halts env self url s : shoot env self url s <> OutOfFuel.
Proof.
  intros H. run_shoot H.
Qed.

(** ** The lazy-load scroll *)

Lemma bind_assoc {A B C} (c : M A) (k : A -> M B) (k' : B -> M C) s :
  bind (bind c k) k' s = bind c (fun a => bind (k a) k') s.
Proof. unfold bind. now destruct (c s). Qed.

Lemma scroll_pass_Ret env s h :
  (forall n, on_scroll env n = Ok tt) ->
  on_scroll_height env (10 + calls s) = Ok h ->
  exists s1,
    scroll_pass env s = Ret h s1 /\
    trace s1 = trace s ++ pass_events /\
    calls s1 = (11 + calls s)%nat /\
    log s1 = log s.
Proof.
  intros Hscroll Hh. unfold scroll_pass, execute_script. simpl for_each.
  repeat first
    [ rewrite bind_assoc
    | erewrite bind_Ret by (first [ apply driver_Ok; apply Hscroll
                                  | apply sleep_Ret; lia
                                  | reflexivity ]) ].
  erewrite driver_Ok by exact Hh.
  eexists. split; [reflexivity|]. simpl.
  repeat (rewrite <- app_assoc; simpl). auto.
Qed.

Lemma scroll_loop_settles env :
  (forall n, on_scroll env n = Ok tt) ->
  forall k fuel s (g : nat -> Z),
    (k < fuel)%nat ->
    (forall i, on_scroll_height env (10 + 11 * i + calls s) = Ok (g (S i))) ->
    g (S k) = g k ->
    (forall j, (j < k)%nat -> g (S j) <> g j) ->
    exists s',
      scroll_loop env fuel (g 0%nat) s = Ret tt s' /\
      trace s' = trace s ++ concat (repeat pass_events (S k)) /\
      calls s' = (11 * S k + calls s)%nat /\
      log s' = log s.
Proof.
  intros Hscroll. induction k as [|k IH]; intros fuel s g Hfuel Hg Hfix Hne.
  - destruct fuel as [|fuel]; [lia|]. simpl scroll_loop.
    destruct (scroll_pass_Ret env s (g 1%nat) Hscroll) as (s1 & Hpass & Htr & Hc & Hl).
    { exact (Hg 0%nat). }
    erewrite bind_Ret by exact Hpass.
    rewrite Hfix, Z.eqb_refl. exists s1. split; [reflexivity|].
    rewrite Htr, Hc, Hl. split; [|split; [lia | reflexivity]].
    change (concat (repeat pass_events 1)) with (pass_events ++ []).
    now rewrite app_nil_r.
  - destruct fuel as [|fuel]; [lia|]. simpl scroll_loop.
    destruct (scroll_pass_Ret env s (g 1%nat) Hscroll) as (s1 & Hpass & Htr & Hc & Hl).
    { exact (Hg 0%nat). }
    erewrite bind_Ret by exact Hpass.
    destruct (Z.eqb_spec (g 1%nat) (g 0%nat)) as [E|_].
    { exfalso. apply (Hne 0%nat); [lia | exact E]. }
    destruct (IH fuel s1 (fun i => g (S i))) as (s' & Hloop & Htr' & Hc' & Hl').
    + lia.
    + intros i. rewrite Hc. rewrite <- (Hg (S i)). f_equal. lia.
    + exact Hfix.
    + intros j Hj. apply Hne. lia.
    + exists s'. split; [exact Hloop|]. rewrite Htr', Htr, Hc', Hc, Hl', Hl.
      split; [|split; [lia | reflexivity]].
      change (repeat pass_events (S (S k))) with (pass_events :: repeat pass_events (S k)).
      rewrite concat_cons. now rewrite app_assoc.
Qed.

Lemma scroll_loop_diverges env :
  (forall n, on_scroll env n = Ok tt) ->
  forall fuel s (g : nat -> Z),
    (forall i, on_scroll_height env (10 + 11 * i + calls s) = Ok (g (S i))) ->
    (forall j, g (S j) <> g j) ->
    scroll_loop env fuel (g 0%nat) s = OutOfFuel.
Proof.
  intros Hscroll. induction fuel as [|fuel IH]; intros s g Hg Hne; [reflexivity|].
  simpl scroll_loop.
  destruct (scroll_pass_Ret env s (g 1%nat) Hscroll) as (s1 & Hpass & Htr & Hc & Hl).
  { exact (Hg 0%nat). }
  erewrite bind_Ret by exact Hpass.
  destruct (Z.eqb_spec (g 1%nat) (g 0%nat)) as [E|_]; [now apply Hne in E|].
  apply (IH s1 (fun i => g (S i))).
  - intros i. rewrite Hc. rewrite <- (Hg (S i)). f_equal. lia.
  - intros j. apply Hne.
Qed.

(** If fuel is too short: runs out of fuel *)
Lemma scroll_loop_needs_fuel env :
  (forall n, on_scroll env n = Ok tt) ->
  forall fuel s (g : nat -> Z),
    (forall i, on_scroll_height env (10 + 11 * i + calls s) = Ok (g (S i))) ->
    (forall j, (j < fuel)%nat -> g (S j) <> g j) ->
    scroll_loop env fuel (g 0%nat) s = OutOfFuel.
Proof.
  intros Hscroll. induction fuel as [|fuel IH]; intros s g Hg Hne; [reflexivity|].
  simpl scroll_loop.
  destruct (scroll_pass_Ret env s (g 1%nat) Hscroll) as (s1 & Hpass & Htr & Hc & Hl).
  { exact (Hg 0%nat). }
  erewrite bind_Ret by exact Hpass.
  destruct (Z.eqb_spec (g 1%nat) (g 0%nat)) as [E|_].
  { exfalso. apply (Hne 0%nat); [lia | exact E]. }
  apply (IH s1 (fun i => g (S i))).
  - intros i. rewrite Hc. rewrite <- (Hg (S i)). f_equal. lia.
  - intros j Hj. apply Hne. lia.
Qed.


(** ** The height-stability poll *)

Lemma stable_loop_S env f timeout start last s :
  stable_loop env (S f) timeout start last s =
  (now <- time_time ;;
   if now - start <? 1000 * timeout then
     current_height <- execute_script env ReadScrollHeight (on_scroll_height env) ;;
     if current_height =? last then sleep 2000 ;; ret true
     else sleep 1000 ;; stable_loop env f timeout start current_height
   else ret false) s.
Proof. reflexivity. Qed.

Lemma stable_loop_halts env timeout start :
  forall f s last,
    1000 * timeout - (clock s - start) <= 1000 * Z.of_nat f ->
    stable_loop env (S f) timeout start last s <> OutOfFuel.
Proof.
  induction f as [|f IH]; intros s last Hf; rewrite stable_loop_S;
    (erewrite bind_Ret by reflexivity);
    destruct (Z.ltb_spec (clock s - start) (1000 * timeout)) as [Hlt|Hge];
    try discriminate; try lia.
  unfold execute_script.
  destruct (on_scroll_height env (calls s)) as [h|e] eqn:E.
  - erewrite bind_Ret by (apply driver_Ok; exact E).
    destruct (h =? last).
    + erewrite bind_Ret by (apply sleep_Ret; lia). discriminate.
    + erewrite bind_Ret by (apply sleep_Ret; lia).
      apply IH. simpl. lia.
  - erewrite bind_Raise by (apply driver_Err; exact E). discriminate.
Qed.

Lemma stable_loop_spec env timeout start :
  forall f s last (v : nat -> Z),
    (forall i, on_scroll_height env (i + calls s) = Ok (v i)) ->
    1000 * timeout - (clock s - start) <= 1000 * Z.of_nat f ->
    exists n b s',
      stable_loop env (S f) timeout start last s = Ret b s' /\
      trace s' = trace s ++ polls n
                 ++ (if b then [EScript ReadScrollHeight; ESleep 2000] else []) /\
      (forall i, (i < n)%nat -> v i <> previous v last i) /\
      (b = true -> v n = previous v last n /\
                   (clock s - start) + 1000 * Z.of_nat n < 1000 * timeout) /\
      (b = false -> n = 0%nat \/
                    (clock s - start) + 1000 * (Z.of_nat n - 1) < 1000 * timeout) /\
      log s' = log s.
Proof.
  induction f as [|f IH]; intros s last v Hv Hf; rewrite stable_loop_S;
    (erewrite bind_Ret by reflexivity);
    destruct (Z.ltb_spec (clock s - start) (1000 * timeout)) as [Hlt|Hge];
    try lia.
  - exists 0%nat, false, s. simpl. rewrite app_nil_r.
    repeat split; auto; try lia; discriminate.
  - unfold execute_script.
    erewrite bind_Ret by (apply driver_Ok; exact (Hv 0%nat)).
    destruct (Z.eqb_spec (v 0%nat) last) as [E|E].
    + erewrite bind_Ret by (apply sleep_Ret; lia).
      exists 0%nat, true. eexists. split; [reflexivity|]. simpl.
      rewrite <- app_assoc. simpl.
      repeat split; auto; try lia; discriminate.
    + erewrite bind_Ret by (apply sleep_Ret; lia).
      match goal with
      | |- context [stable_loop _ _ _ _ _ ?s1] =>
          destruct (IH s1 (v 0%nat) (fun i => v (S i)))
            as (n & b & s' & Hrun & Htr & Hne & Htrue & Hfalse & Hlog)
      end.
      { intros i. simpl. rewrite <- (Hv (S i)). f_equal. lia. }
      { simpl. lia. }
      exists (S n), b, s'. split; [exact Hrun|]. simpl in *.
      split; [rewrite Htr, <- !app_assoc; reflexivity|].
      assert (Hprev : forall i, previous (fun j => v (S j)) (v 0%nat) i = v i)
        by (now intros [|i]).
      split.
      { intros [|i] Hi; [exact E|]. intros Heq.
        apply (Hne i); [lia|]. rewrite Hprev. exact Heq. }
      split.
      { intros Hb. destruct (Htrue Hb) as [Heq Ht]. rewrite Hprev in Heq.
        split; [exact Heq | lia]. }
      split; [|exact Hlog].
      intros Hb. right. destruct (Hfalse Hb) as [-> | H]; lia.
  - exists 0%nat, false, s. simpl. rewrite app_nil_r.
    repeat split; auto; try lia; discriminate.
Qed.

(** ** Which steps end *)

Lemma halts_ret {A} (a : A) : halts (ret a).
Proof. intros s. discriminate. Qed.

Lemma halts_bind {A B} (c : M A) (k : A -> M B) :
  halts c -> (forall a, halts (k a)) -> halts (bind c k).
Proof.
  intros Hc Hk s. unfold bind. specialize (Hc s).
  destruct (c s) as [a s1|e s1|]; [apply Hk | discriminate | contradiction].
Qed.

Lemma halts_try_except {A} (c : M A) (h : exn -> option (M A)) :
  halts c -> (forall e k, h e = Some k -> halts k) -> halts (try_except c h).
Proof.
  intros Hc Hh s. unfold try_except. specialize (Hc s).
  destruct (c s) as [a s1|e s1|]; [discriminate | | contradiction].
  destruct (h e) as [k|] eqn:E; [eapply Hh; eauto | discriminate].
Qed.

Lemma halts_logger l msg : halts (logger l msg).
Proof. intros s. discriminate. Qed.

Lemma halts_sleep ms : halts (sleep ms).
Proof.
  intros s. unfold sleep. destruct (fits_time_t ms), (ms <? 0); discriminate.
Qed.

Lemma halts_driver {A} env ev (oracle : nat -> result A) :
  halts (driver env ev oracle).
Proof. intros s. unfold driver. destruct (oracle (calls s)); discriminate. Qed.

Lemma halts_modify f : halts (modify f).
Proof. intros s. discriminate. Qed.

Create HintDb halting.
#[global] Hint Resolve halts_ret halts_logger halts_sleep halts_driver
  halts_modify : halting.

Ltac halting :=
  repeat first
    [ solve [eauto with halting]
    | apply halts_bind; [|intros ?]
    | apply halts_try_except; [|intros ? ? ?]
    | match goal with
      | H : Some _ = Some _ |- _ => inversion H; subst; clear H
      | H : None = Some _ |- _ => discriminate H
      | |- halts (if ?b then _ else _) => destruct b
      | H : match ?e with _ => _ end = Some _ |- _ => destruct e
      end ].

Lemma halts_wait_for_images env : halts (wait_for_images env).
Proof. unfold wait_for_images. halting. Qed.

Lemma halts_wait_for_dynamic_content env : halts (wait_for_dynamic_content env).
Proof. unfold wait_for_dynamic_content, execute_script. halting. Qed.

Lemma halts_extra_delay self cs dl : halts (extra_delay self cs dl).
Proof. unfold extra_delay. halting. Qed.

Lemma halts_wait_for_content_stable env fuel :
  (11 <= fuel)%nat -> halts (wait_for_content_stable env fuel 10).
Proof.
  intros Hfuel s. unfold wait_for_content_stable.
  do 2 (erewrite bind_Ret by reflexivity).
  destruct fuel as [|f]; [lia|]. apply stable_loop_halts. simpl. lia.
Qed.

#[global] Hint Resolve halts_wait_for_images halts_wait_for_dynamic_content
  halts_extra_delay halts_wait_for_content_stable : halting.

(** The scroll loop is the only step of the capture that may run for
    ever. *)
Lemma prepare_OutOfFuel env self url fuel s :
  (11 <= fuel)%nat ->
  prepare env self url fuel s = OutOfFuel ->
  exists last s1, scroll_loop env fuel last s1 = OutOfFuel.
Proof.
  intros Hfuel H. unfold prepare in H.
  apply bind_OutOfFuel_inv in H as [H | (? & s1 & _ & H)]; [discriminate|].
  apply bind_OutOfFuel_inv in H as [H | (? & s2 & _ & H)];
    [now apply halts_driver in H|].
  apply bind_OutOfFuel_inv in H as [H | (? & s3 & _ & H)];
    [now apply halts_driver in H|].
  apply bind_OutOfFuel_inv in H as [H | (? & s4 & _ & H)].
  - unfold scroll_to_bottom in H.
    apply bind_OutOfFuel_inv in H as [H | (? & t1 & _ & H)]; [discriminate|].
    apply bind_OutOfFuel_inv in H as [H | (last & t2 & _ & H)];
      [now apply halts_driver in H|].
    apply bind_OutOfFuel_inv in H as [H | (? & t3 & _ & H)]; [eauto|].
    exfalso. revert H. apply halts_bind; halting.
  - exfalso. revert H.
    apply halts_bind; [now apply halts_wait_for_content_stable|]. intros cs.
    halting.
Qed.

Lemma capture_screenshot_OutOfFuel_inv env self url fuel s :
  (11 <= fuel)%nat ->
  capture_screenshot env self url fuel s = OutOfFuel ->
  exists last s1, scroll_loop env fuel last s1 = OutOfFuel.
Proof.
  intros Hfuel H.
  destruct (capture_screenshot_cases env self url fuel s)
    as [(? & ? & _ & E) | [(? & ? & _ & E) | [Hbody _]]];
    try (rewrite E in H; discriminate).
  rewrite capture_body_split in Hbody.
  apply bind_OutOfFuel_inv in Hbody as [Hp | (? & s1 & _ & Hs)].
  - eapply prepare_OutOfFuel; eauto.
  - now apply shoot_halts in Hs.
Qed.

Lemma prepare_Ret_inv env self url fuel s u s' :
  prepare env self url fuel s = Ret u s' ->
  exists cs dl s0,
    extra_delay self cs dl s0 = Ret tt s' /\ outputs s0 = outputs s.
Proof.
  intros H. unfold prepare in H.
  pose proof H as Hfull.
  apply bind_Ret_inv in H as (? & s1 & H1 & H).
  apply bind_Ret_inv in H as (? & s2 & H2 & H).
  apply bind_Ret_inv in H as (? & s3 & H3 & H).
  apply bind_Ret_inv in H as (? & s4 & H4 & H).
  apply bind_Ret_inv in H as (cs & s5 & H5 & H).
  apply bind_Ret_inv in H as (? & s6 & H6 & H).
  apply bind_Ret_inv in H as (dl & s7 & H7 & H).
  destruct u. exists cs, dl, s7. split; [exact H|].
  rewrite (quiet_wait_for_dynamic_content env s6 s7) by (now rewrite H7).
  rewrite (quiet_wait_for_images env s5 s6) by (now rewrite H6).
  rewrite (quiet_wait_for_content_stable env fuel 10 s4 s5) by (now rewrite H5).
  rewrite (quiet_scroll_to_bottom env fuel s3 s4) by (now rewrite H4).
  rewrite (quiet_driver env _ _ s2 s3) by (now rewrite H3).
  rewrite (quiet_driver env _ _ s1 s2) by (now rewrite H2).
  inversion H1. reflexivity.
Qed.

(** ** Runs on a cooperative browser *)

Lemma succeeds_unit (oracle : nat -> result unit) n :
  succeeds oracle -> oracle n = Ok tt.
Proof. intros H. destruct (H n) as [[] E]. exact E. Qed.

Lemma height_at_Ok env n :
  succeeds (on_scroll_height env) -> on_scroll_height env n = Ok (height_at env n).
Proof. intros H. unfold height_at. destruct (H n) as [h ->]. reflexivity. Qed.

Lemma first_fixed_point k :
  forall g : nat -> Z,
    g (S k) = g k ->
    exists k', (k' <= k)%nat /\ g (S k') = g k' /\
               forall j, (j < k')%nat -> g (S j) <> g j.
Proof.
  induction k as [|k IH]; intros g Hk.
  - exists 0%nat. repeat split; [lia | exact Hk | intros j Hj; lia].
  - destruct (Z.eq_dec (g 1%nat) (g 0%nat)) as [E|E].
    + exists 0%nat. repeat split; [lia | exact E | intros j Hj; lia].
    + destruct (IH (fun i => g (S i)) Hk) as (k' & Hle & Hfix & Hne).
      exists (S k'). repeat split; [lia | exact Hfix |].
      intros [|j] Hj; [exact E | apply Hne; lia].
Qed.

Lemma scroll_to_bottom_settles env s (h : nat -> Z) k fuel :
  (forall n, on_scroll env n = Ok tt) ->
  (forall i, on_scroll_height env (11 * i + calls s) = Ok (h i)) ->
  h (S k) = h k -> (forall j, (j < k)%nat -> h (S j) <> h j) ->
  (k < fuel)%nat ->
  exists s',
    scroll_to_bottom env fuel s = Ret tt s' /\
    trace s' = trace s ++ [EScript ReadScrollHeight]
               ++ concat (repeat pass_events (S k))
               ++ [EScript ScrollToTop].
Proof.
  intros Hscroll Hh Hfix Hne Hfuel.
  assert (Hfirst : on_scroll_height env (calls s) = Ok (h 0%nat)).
  { rewrite <- (Hh 0%nat). f_equal. }
  unfold scroll_to_bottom, execute_script.
  erewrite bind_Ret by reflexivity.
  erewrite bind_Ret by (apply driver_Ok; exact Hfirst).
  match goal with
  | |- context [bind (scroll_loop _ _ _) _ ?s1] =>
      destruct (scroll_loop_settles env Hscroll k fuel s1 h Hfuel)
        as (s' & Hloop & Htr & Hc & Hl); auto
  end.
  { intros i. rewrite <- (Hh (S i)). f_equal. simpl. lia. }
  erewrite bind_Ret by exact Hloop.
  erewrite bind_Ret by (apply driver_Ok; apply Hscroll).
  eexists. split; [reflexivity|]. simpl. rewrite Htr. simpl.
  now rewrite <- !app_assoc.
Qed.

Lemma scroll_to_bottom_diverges env s (h : nat -> Z) fuel :
  (forall n, on_scroll env n = Ok tt) ->
  (forall i, on_scroll_height env (11 * i + calls s) = Ok (h i)) ->
  (forall j, h (S j) <> h j) ->
  scroll_to_bottom env fuel s = OutOfFuel.
Proof.
  intros Hscroll Hh Hne.
  assert (Hfirst : on_scroll_height env (calls s) = Ok (h 0%nat)).
  { rewrite <- (Hh 0%nat). f_equal. }
  unfold scroll_to_bottom, execute_script.
  erewrite bind_Ret by reflexivity.
  erewrite bind_Ret by (apply driver_Ok; exact Hfirst).
  erewrite bind_OutOfFuel; [reflexivity|].
  apply (scroll_loop_diverges env Hscroll fuel _ h); [|exact Hne].
  intros i. rewrite <- (Hh (S i)). f_equal. simpl. lia.
Qed.

Lemma wait_for_content_stable_Ret env fuel s :
  succeeds (on_scroll_height env) -> (11 <= fuel)%nat ->
  exists b s', wait_for_content_stable env fuel 10 s = Ret b s'.
Proof.
  intros Hh Hfuel. unfold wait_for_content_stable.
  do 2 (erewrite bind_Ret by reflexivity).
  destruct fuel as [|f]; [lia|].
  match goal with
  | |- context [stable_loop _ _ _ _ _ ?s1] =>
      destruct (stable_loop_spec env 10 (clock s1) f s1 0
                  (fun i => height_at env (i + calls s1)))
        as (n & b & s' & Hrun & _)
  end.
  - intros i. now apply height_at_Ok.
  - simpl. lia.
  - eauto.
Qed.

Lemma wait_for_images_Ok env s :
  on_images env (calls s) = Ok tt ->
  wait_for_images env s
  = Ret tt (interact (EUntil 10 ImagesComplete) (Z.of_N (latency env (calls s)))
              (logged INFO "Waiting for images to load..." s)).
Proof.
  intros H. unfold wait_for_images, try_except.
  erewrite bind_Ret by reflexivity.
  erewrite driver_Ok by exact H. reflexivity.
Qed.

Lemma wait_for_images_timeout env s msg :
  on_images env (calls s) = Err (TimeoutException msg) ->
  wait_for_images env s
  = Ret tt (logged WARNING "Timeout waiting for images to load"
              (interact (EUntil 10 ImagesComplete) (Z.of_N (latency env (calls s)))
                 (logged INFO "Waiting for images to load..." s))).
Proof.
  intros H. unfold wait_for_images, try_except.
  erewrite bind_Ret by reflexivity.
  erewrite driver_Err by exact H. reflexivity.
Qed.

(** The check for dynamic content never raises. *)
Lemma wait_for_dynamic_content_Ret env s :
  exists b s', wait_for_dynamic_content env s = Ret b s' /\
    (b = true <->
     on_ajax env (calls s) = Ok tt /\ on_mutations env (S (calls s)) = Ok 0).
Proof.
  unfold wait_for_dynamic_content, try_except, execute_script.
  erewrite bind_Ret by reflexivity.
  destruct (on_ajax env (calls s)) as [[]|e] eqn:Ea.
  - erewrite bind_Ret by (apply driver_Ok; exact Ea).
    destruct (on_mutations env (S (calls s))) as [changes|e] eqn:Em.
    + erewrite bind_Ret by (apply driver_Ok; exact Em).
      destruct (Z.eqb_spec changes 0) as [->|Hne].
      * erewrite bind_Ret by reflexivity. do 2 eexists. split; [reflexivity|]. tauto.
      * do 2 eexists. split; [reflexivity|]. split; [discriminate|].
        intros [_ [= ?]]. contradiction.
    + erewrite bind_Raise by (apply driver_Err; exact Em).
      do 2 eexists. split; [reflexivity|]. split; [discriminate|]. intros [_ [=]].
  - erewrite bind_Raise by (apply driver_Err; exact Ea).
    do 2 eexists. split; [reflexivity|]. split; [discriminate|]. intros [[=] _].
Qed.

Lemma extra_delay_Ret self cs dl s :
  valid_wait_time self -> exists s', extra_delay self cs dl s = Ret tt s'.
Proof.
  unfold valid_wait_time, extra_delay. intros Hw.
  destruct (wait_time self) as [n|]; simpl.
  - erewrite bind_Ret by reflexivity. rewrite sleep_Ret by lia. eauto.
  - destruct (negb (cs && dl)); [|eauto].
    erewrite bind_Ret by reflexivity. rewrite sleep_Ret by lia. eauto.
Qed.

Lemma shoot_Ret_total env self url s :
  cooperative env -> exists paths s', shoot env self url s = Ret paths s'.
Proof.
  intros [_ _ _ _ Hm Hw Hs Ht Hc Hu Ho Hd].
  unfold shoot, execute_script, set_window_size, save_screenshot, write_json,
    driver, bind, sleep, modify, logger, ret. simpl.
  repeat match goal with
         | |- context [match ?o ?n with Ok _ => _ | Err _ => _ end] =>
             let E := fresh "E" in
             first [ destruct (Hm n) as [? E]; rewrite E
                   | destruct (Hw n) as [? E]; rewrite E
                   | destruct (Hs n) as [? E]; rewrite E
                   | destruct (Ht n) as [? E]; rewrite E
                   | destruct (Hc n) as [? E]; rewrite E
                   | destruct (Hu n) as [? E]; rewrite E
                   | destruct (Ho n) as [? E]; rewrite E
                   | destruct (Hd n) as [? E]; rewrite E ];
             simpl
         | |- context [if ?b then _ else _] => destruct b; simpl
         end; eauto.
Qed.

(** On a cooperative browser whose page settles, the first half of the
    capture comes to the extra delay. *)
Lemma prepare_reaches_delay env self url s k fuel :
  cooperative env ->
  (forall n, on_images env n = Ok tt \/
             exists msg, on_images env n = Err (TimeoutException msg)) ->
  height_at env (11 * S k + (2 + calls s)) = height_at env (11 * k + (2 + calls s)) ->
  (k < fuel)%nat -> (11 <= fuel)%nat ->
  exists cs dl s0,
    prepare env self url fuel s = extra_delay self cs dl s0 /\
    outputs s0 = outputs s.
Proof.
  intros Hcoop Himg Hfix Hk Hfuel.
  pose proof (coop_scroll_height env Hcoop) as Hheights.
  unfold prepare.
  erewrite bind_Ret by reflexivity.
  erewrite bind_Ret by (apply driver_Ok, succeeds_unit, Hcoop).
  erewrite bind_Ret by (apply driver_Ok, succeeds_unit, Hcoop).
  match goal with
  | |- context [bind (scroll_to_bottom _ _) _ ?s1] =>
      destruct (first_fixed_point k (fun i => height_at env (11 * i + calls s1)) Hfix)
        as (k' & Hle & Hfix' & Hne);
      destruct (scroll_to_bottom_settles env s1
                  (fun i => height_at env (11 * i + calls s1)) k' fuel)
        as (s2 & Hscroll & _); auto; try lia;
      [ intros n; apply succeeds_unit, Hcoop
      | intros i; now apply height_at_Ok
      | assert (Hout2 : outputs s2 = outputs s)
          by (apply (quiet_scroll_to_bottom env fuel s1 s2); now rewrite Hscroll) ]
  end.
  erewrite bind_Ret by exact Hscroll.
  destruct (wait_for_content_stable_Ret env fuel s2 Hheights Hfuel) as (cs & s3 & Hcs).
  erewrite bind_Ret by exact Hcs.
  assert (exists s4, wait_for_images env s3 = Ret tt s4) as [s4 Hi].
  { destruct (Himg (calls s3)) as [E | [msg E]].
    - rewrite (wait_for_images_Ok env s3 E). eauto.
    - rewrite (wait_for_images_timeout env s3 msg E). eauto. }
  erewrite bind_Ret by exact Hi.
  destruct (wait_for_dynamic_content_Ret env s4) as (dl & s5 & Hdl & _).
  erewrite bind_Ret by exact Hdl.
  exists cs, dl, s5. split; [reflexivity|].
  rewrite (quiet_wait_for_dynamic_content env s4 s5) by (now rewrite Hdl).
  rewrite (quiet_wait_for_images env s3 s4) by (now rewrite Hi).
  rewrite (quiet_wait_for_content_stable env fuel 10 s2 s3) by (now rewrite Hcs).
  exact Hout2.
Qed.

Lemma prepare_Ret env self url s k fuel :
  cooperative env ->
  (forall n, on_images env n = Ok tt \/
             exists msg, on_images env n = Err (TimeoutException msg)) ->
  valid_wait_time self ->
  height_at env (11 * S k + (2 + calls s)) = height_at env (11 * k + (2 + calls s)) ->
  (k < fuel)%nat -> (11 <= fuel)%nat ->
  exists s', prepare env self url fuel s = Ret tt s'.
Proof.
  intros Hcoop Himg Hwait Hfix Hk Hfuel.
  destruct (prepare_reaches_delay env self url s k fuel)
    as (cs & dl & s0 & -> & _); auto.
  now apply extra_delay_Ret.
Qed.

(** On a cooperative browser whose page settles, the capture returns
    the pair of paths, whatever the image wait and the dynamic-content
    check meet. *)
Lemma capture_screenshot_succeeds env self url s k fuel :
  cooperative env ->
  (forall n, on_images env n = Ok tt \/
             exists msg, on_images env n = Err (TimeoutException msg)) ->
  valid_wait_time self ->
  height_at env (11 * S k + (2 + calls s)) = height_at env (11 * k + (2 + calls s)) ->
  (k < fuel)%nat -> (11 <= fuel)%nat ->
  exists paths s', capture_screenshot env self url fuel s = Ret (Some paths) s'.
Proof.
  intros Hcoop Himg Hwait Hfix Hk Hfuel.
  destruct (prepare_Ret env self url s k fuel) as (s1 & Hp); auto.
  destruct (shoot_Ret_total env self url s1 Hcoop) as (paths & s' & Hs).
  exists paths, s'. apply capture_screenshot_Ret.
  rewrite capture_body_split. erewrite bind_Ret by exact Hp. exact Hs.
Qed.

(** * The claims *)

(** ** Navigation *)

(** C3: when the navigation or the wait for the body raises
    [TimeoutException], [capture_screenshot] returns [None], the files
    are what they were (no PNG, no JSON), and the failure is logged as
    a timeout. *)
Theorem C3_navigation_timeout env self url fuel s msg :
  on_get env (calls s) = Err (TimeoutException msg) \/
  (on_get env (calls s) = Ok tt /\
   on_body env (S (calls s)) = Err (TimeoutException msg)) ->
  exists s',
    capture_screenshot env self url fuel s = Ret None s' /\
    files s' = files s /\
    log s' = log s ++ [(INFO, "Starting screenshot capture for URL: " +:+ url);
                       (ERROR, "Timeout while loading URL: " +:+ url)].
Proof.
  intros [Hget | [Hget Hbody]].
  - eexists. split.
    + apply capture_screenshot_Raise. unfold capture_body.
      erewrite bind_Ret by reflexivity.
      erewrite bind_Raise by (apply driver_Err; exact Hget). reflexivity.
    + simpl. split; [reflexivity|]. now rewrite <- app_assoc.
  - eexists. split.
    + apply capture_screenshot_Raise. unfold capture_body.
      erewrite bind_Ret by reflexivity.
      erewrite bind_Ret by (apply driver_Ok; exact Hget).
      erewrite bind_Raise by (apply driver_Err; exact Hbody). reflexivity.
    + simpl. split; [reflexivity|]. now rewrite <- app_assoc.
Qed.

Lemma C3_witness :
  exists s',
    capture_screenshot stalled sample_self sample_url 11 initial = Ret None s' /\
    files s' = files initial /\
    log s' = log initial
             ++ [(INFO, "Starting screenshot capture for URL: " +:+ sample_url);
                 (ERROR, "Timeout while loading URL: " +:+ sample_url)].
Proof.
  apply (C3_navigation_timeout stalled sample_self sample_url 11 initial
           "no body after 10 s").
  right. split; reflexivity.
Defined.

(** ** The extra delay *)





(** ** The passes of the scroll *)

(** C5: while scrolling and measuring succeed, with [h k] the height
    measured after [k] passes ([h 0] before the first), [scroll_to_bottom]
    makes passes of nine scrolls to one more tenth of the height and one
    to the bottom, a pause after each, and a measurement; it ends after
    pass [k + 1] for the first [k] with [h (k + 1) = h k], having made
    exactly these passes, and then scrolls to the top.  Nothing bounds
    the passes: if [h] grows strictly the loop outlasts any fuel. *)
Theorem C5_scroll_to_bottom env s (h : nat -> Z) :
  (forall n, on_scroll env n = Ok tt) ->
  (forall k, on_scroll_height env (11 * k + calls s) = Ok (h k)) ->
  (forall k fuel,
      h (S k) = h k -> (forall j, (j < k)%nat -> h (S j) <> h j) ->
      (k < fuel)%nat ->
      exists s',
        scroll_to_bottom env fuel s = Ret tt s' /\
        trace s' = trace s ++ [EScript ReadScrollHeight]
                   ++ concat (repeat pass_events (S k))
                   ++ [EScript ScrollToTop]) /\
  ((forall k, h k < h (S k)) ->
   forall fuel, scroll_to_bottom env fuel s = OutOfFuel) /\
  pass_events
  = [EScript (ScrollToFraction 1); ESleep 500;
     EScript (ScrollToFraction 2); ESleep 500;
     EScript (ScrollToFraction 3); ESleep 500;
     EScript (ScrollToFraction 4); ESleep 500;
     EScript (ScrollToFraction 5); ESleep 500;
     EScript (ScrollToFraction 6); ESleep 500;
     EScript (ScrollToFraction 7); ESleep 500;
     EScript (ScrollToFraction 8); ESleep 500;
     EScript (ScrollToFraction 9); ESleep 500;
     EScript ScrollToBottom; ESleep 2000; EScript ReadScrollHeight].
Proof.
  intros Hscroll Hh. split; [|split].
  - intros k fuel Hfix Hne Hfuel.
    now apply scroll_to_bottom_settles with (h := h).
  - intros Hgrow fuel. apply scroll_to_bottom_diverges with (h := h); auto.
    intros j. specialize (Hgrow j). lia.
  - reflexivity.
Qed.

Lemma C5_witness :
  (exists s',
      scroll_to_bottom calm 1 initial = Ret tt s' /\
      trace s' = trace initial ++ [EScript ReadScrollHeight]
                 ++ concat (repeat pass_events 1) ++ [EScript ScrollToTop]) /\
  (forall fuel, scroll_to_bottom growing fuel initial = OutOfFuel).
Proof.
  split.
  - apply (C5_scroll_to_bottom calm initial (fun _ => 1000)
             (fun _ => eq_refl) (fun _ => eq_refl)); [reflexivity | | lia].
    intros j Hj. lia.
  - apply (C5_scroll_to_bottom growing initial (fun k => Z.of_nat (11 * k + 0))
             (fun _ => eq_refl) (fun _ => eq_refl)).
    intros k. lia.
Defined.

(** ** The first sample of the poll *)

(** What [wait_for_content_stable] does while reading the height
    succeeds, [v i] being its [i]-th sample: it takes a sample a second
    while less than [timeout] seconds have passed, at most [timeout] of
    them, and answers [True], two seconds later, at the first sample
    equal to the value it is compared with, which for the first sample
    is the initial [last_height = 0]. *)
Lemma wait_for_content_stable_spec env fuel s (v : nat -> Z) :
  (forall i, on_scroll_height env (i + calls s) = Ok (v i)) ->
  (11 <= fuel)%nat ->
  exists n b s',
    wait_for_content_stable env fuel 10 s = Ret b s' /\
    trace s' = trace s ++ polls n
               ++ (if b then [EScript ReadScrollHeight; ESleep 2000] else []) /\
    (forall i, (i < n)%nat -> v i <> previous v 0 i) /\
    (b = true -> v n = previous v 0 n /\ (n < 10)%nat) /\
    (b = false -> (n <= 10)%nat).
Proof.
  intros Hv Hfuel. unfold wait_for_content_stable.
  do 2 (erewrite bind_Ret by reflexivity).
  destruct fuel as [|f]; [lia|].
  match goal with
  | |- context [stable_loop _ _ _ _ _ ?s1] =>
      destruct (stable_loop_spec env 10 (clock s1) f s1 0 v)
        as (n & b & s' & Hrun & Htr & Hne & Htrue & Hfalse & _)
  end.
  - exact Hv.
  - simpl. lia.
  - exists n, b, s'. split; [exact Hrun|]. split; [exact Htr|].
    split; [exact Hne|]. split.
    + intros Hb. destruct (Htrue Hb) as [Heq Ht]. split; [exact Heq|].
      simpl in Ht. lia.
    + intros Hb. destruct (Hfalse Hb) as [-> | Ht]; [lia|]. simpl in Ht. lia.
Qed.

(** On a page whose first sample is not 0, [True] is answered only for
    two equal samples in a row, and [False] if no two samples in a row
    are equal. *)
Lemma wait_for_content_stable_nonzero env fuel s (v : nat -> Z) :
  (forall i, on_scroll_height env (i + calls s) = Ok (v i)) ->
  (11 <= fuel)%nat ->
  v 0%nat <> 0 ->
  exists b s',
    wait_for_content_stable env fuel 10 s = Ret b s' /\
    (b = true -> exists m, v (S m) = v m) /\
    ((forall m, v (S m) <> v m) -> b = false).
Proof.
  intros Hv Hfuel Hnz.
  destruct (wait_for_content_stable_spec env fuel s v Hv Hfuel)
    as (n & b & s' & Hrun & _ & _ & Htrue & _).
  exists b, s'. split; [exact Hrun|].
  assert (Hpair : b = true -> exists m, v (S m) = v m).
  { intros Hb. destruct (Htrue Hb) as [Heq _].
    destruct n as [|m]; [contradiction | now exists m]. }
  split; [exact Hpair|].
  intros Hne. destruct b; [|reflexivity].
  destruct (Hpair eq_refl) as [m Hm]. now apply Hne in Hm.
Qed.

(** C8, at the input on which the code departs from it: when the first
    sample reads 0 it equals the initial [last_height = 0], and
    [wait_for_content_stable] answers [True] after this one sample and
    the two-second delay, whatever the height is afterwards. *)
Theorem C8_first_sample_zero env fuel s :
  on_scroll_height env (calls s) = Ok 0 ->
  exists s',
    wait_for_content_stable env (S fuel) 10 s = Ret true s' /\
    trace s' = trace s ++ [EScript ReadScrollHeight; ESleep 2000] /\
    calls s' = S (calls s).
Proof.
  intros H0. unfold wait_for_content_stable.
  do 2 (erewrite bind_Ret by reflexivity).
  rewrite stable_loop_S.
  erewrite bind_Ret by reflexivity.
  match goal with
  | |- context [if ?c then _ else _] =>
      destruct c eqn:E; [|apply Z.ltb_ge in E; lia]
  end.
  unfold execute_script.
  erewrite bind_Ret by (apply driver_Ok; exact H0).
  simpl. eexists. split; [reflexivity|]. simpl.
  rewrite <- app_assoc. auto.
Qed.

Lemma C8_witness :
  (exists s',
      wait_for_content_stable late_content 11 10 initial = Ret true s' /\
      trace s' = trace initial ++ [EScript ReadScrollHeight; ESleep 2000] /\
      calls s' = S (calls initial)) /\
  on_scroll_height late_content 16 <> on_scroll_height late_content 17.
Proof.
  split.
  - apply (C8_first_sample_zero late_content 10 initial). reflexivity.
  - discriminate.
Defined.

(** The same inside a whole capture: on [late_content] the scroll ends
    after one pass, the poll takes one sample, and the capture goes on
    to the images without the extra delay, the height being 0 at its
    sixteenth interaction and 516 at the next. *)
Lemma late_content_capture :
  exists before after,
    trace (final_state late_run)
    = before ++ [EScript ScrollToTop; EScript ReadScrollHeight; ESleep 2000;
                 EUntil 10 ImagesComplete; EUntil 5 AjaxIdle;
                 EScript CountMutations; EScript MaxHeight] ++ after /\
    length before = 24%nat /\
    on_scroll_height late_content 15 = Ok 0 /\
    on_scroll_height late_content 16 = Ok 516.
Proof.
  eexists (firstn 24 (trace (final_state late_run))),
          (skipn 31 (trace (final_state late_run))).
  split; [vm_compute; reflexivity|].
  split; [vm_compute; reflexivity|]. split; reflexivity.
Qed.

(** ** A negative wait time *)

Lemma quiet_modify_window w h : quiet (modify (set_window w h)).
Proof. intros s s' [= <-]. reflexivity. Qed.

Lemma quiet_init env dir lvl wt : quiet (init env dir lvl wt).
Proof. unfold init, setup_logging, setup_driver. frame. Qed.

Lemma quiet_close env : quiet (close env).
Proof. unfold close. frame. Qed.

Lemma init_Ret_inv env dir lvl wt s self s' :
  init env dir lvl wt s = Ret self s' ->
  self = {| output_dir := dir; wait_time := wt |}.
Proof.
  intros H. unfold init in H.
  apply bind_Ret_inv in H as (? & ? & _ & H).
  apply bind_Ret_inv in H as (? & ? & _ & H).
  now injection H as <- _.
Qed.

Lemma extra_delay_negative dir n cs dl s :
  n < 0 ->
  extra_delay {| output_dir := dir; wait_time := Some n |} cs dl s
  = Raise (sleep_refusal n)
      (refused (1000 * n)
         (logged INFO ("Waiting additional " +:+ str_int n
                       +:+ " seconds for content to stabilize") s)).
Proof.
  intros Hn. unfold extra_delay, sleep_refusal. simpl.
  erewrite bind_Ret by reflexivity.
  destruct (Z.leb_spec (-9223372036) n).
  - apply sleep_Raise. lia.
  - apply sleep_Overflow. lia.
Qed.

Lemma capture_negative env dir n url fuel s :
  n < 0 ->
  (exists s',
      capture_screenshot env {| output_dir := dir; wait_time := Some n |} url fuel s
      = Ret None s' /\ outputs s' = outputs s) \/
  capture_screenshot env {| output_dir := dir; wait_time := Some n |} url fuel s
  = OutOfFuel.
Proof.
  intros Hn.
  set (self := {| output_dir := dir; wait_time := Some n |}).
  assert (Hnever : forall u s1, prepare env self url fuel s <> Ret u s1).
  { intros u s1 Hp. apply prepare_Ret_inv in Hp as (cs & dl & s0 & Hd & _).
    unfold self in Hd. rewrite extra_delay_negative in Hd by exact Hn.
    discriminate. }
  destruct (capture_screenshot_cases env self url fuel s)
    as [(paths & s1 & Hbody & _) | [(e & s1 & Hbody & Hcap) | [_ Hcap]]].
  - rewrite capture_body_split in Hbody.
    apply bind_Ret_inv in Hbody as (u & s0 & Hp & _). now apply Hnever in Hp.
  - left. eexists. split; [exact Hcap|].
    rewrite capture_body_split in Hbody.
    apply bind_Raise_inv in Hbody as [Hp | (u & s0 & Hp & _)];
      [|now apply Hnever in Hp].
    change (outputs (logged ERROR (failure_message url e) s1)) with (outputs s1).
    apply (quiet_prepare env self url fuel). now rewrite Hp.
  - now right.
Qed.

Lemma main_negative env url dir lvl n fuel s u s' :
  n < 0 ->
  main env {| arg_url := url; arg_output_dir := dir; arg_log_level := lvl;
              arg_wait_time := Some n |} fuel s = Ret u s' ->
  files s' = files s /\
  stdout s' = stdout s ++ ["Failed to capture screenshot"].
Proof.
  intros Hn H. unfold main in H. simpl in H.
  apply bind_Ret_inv in H as (present & s1 & H1 & H).
  apply bind_Ret_inv in H as (? & s2 & H2 & H).
  apply bind_Ret_inv in H as (self & s3 & H3 & H).
  assert (Hout : outputs s3 = outputs s).
  { rewrite (quiet_init env _ _ _ s2 s3) by (now rewrite H3).
    assert (Hq : quiet (if negb present
                        then driver env (EMakedirs dir) (on_makedirs env)
                        else ret tt)) by frame.
    rewrite (Hq s1 s2) by (now rewrite H2).
    eapply quiet_driver. now rewrite H1. }
  apply init_Ret_inv in H3 as ->.
  unfold try_finally in H.
  destruct (capture_negative env dir n url fuel s3 Hn) as [(s4 & Hcap & Hout4) | Hcap].
  - erewrite bind_Ret in H by exact Hcap. cbv beta iota in H.
    destruct (print env "Failed to capture screenshot" s4) as [[] s5|e s5|] eqn:Hpr.
    + apply print_Ret_inv in Hpr as [_ ->].
      apply bind_Ret_inv in H as (? & s6 & H6 & H).
      injection H as _ <-.
      match type of H6 with
      | close env ?s5 = _ => pose proof (quiet_close env s5 s6) as Hq
      end.
      rewrite H6 in Hq. specialize (Hq eq_refl).
      injection Hq as Hf Hs. injection Hout4 as Hf4 Hs4. injection Hout as Hf3 Hs3.
      simpl in *. split; congruence.
    + apply bind_Ret_inv in H as (? & ? & _ & H). discriminate.
    + discriminate.
  - erewrite bind_OutOfFuel in H by exact Hcap. discriminate.
Qed.

(** C10 as stated fails for a wait time below -9223372036: with
    [--wait-time -10000000000] what [time.sleep] raises is not
    [ValueError] but [OverflowError].  The capture returns [None] and
    writes no file all the same. *)
Lemma C10_counterexample :
  extra_delay rash true true initial
  = Raise (OverflowError "timestamp too large to convert to C _PyTime_t")
      (refused (1000 * -10000000000)
         (logged INFO ("Waiting additional " +:+ str_int (-10000000000)
                       +:+ " seconds for content to stabilize") initial)) /\
  rash_run = Ret None (final_state rash_run) /\
  last (log (final_state rash_run))
  = Some (ERROR, "Error capturing screenshot: "
                 +:+ "timestamp too large to convert to C _PyTime_t") /\
  files (final_state rash_run) = ∅.
Proof.
  split; [vm_compute; reflexivity|].
  split; [vm_compute; reflexivity|].
  split; vm_compute; reflexivity.
Qed.

(** C10, amended: [main] hands the parsed wait time to the capture as
    it is.  For a negative one the extra delay is entered whatever the
    two checks reported and [time.sleep] refuses it, with [ValueError]
    down to -9223372036 seconds and with [OverflowError] below; the
    general handler of [capture_screenshot] catches either, so that
    the capture returns [None] with the files as they were (unless the
    scroll before never ends), and [main], when it returns, has
    printed the failure line. *)
Theorem C10_negative_wait_time env url dir lvl n fuel s :
  n < 0 ->
  let self := {| output_dir := dir; wait_time := Some n |} in
  let asked s0 :=
    refused (1000 * n)
      (logged INFO ("Waiting additional " +:+ str_int n
                    +:+ " seconds for content to stabilize") s0) in
  (forall cs dl s0,
      extra_delay self cs dl s0 = Raise (sleep_refusal n) (asked s0)) /\
  (-9223372036 <= n ->
   sleep_refusal n = ValueError "sleep length must be non-negative") /\
  (n < -9223372036 ->
   sleep_refusal n
   = OverflowError "timestamp too large to convert to C _PyTime_t") /\
  ((11 <= fuel)%nat ->
   (exists s', capture_screenshot env self url fuel s = Ret None s' /\
               files s' = files s) \/
   (capture_screenshot env self url fuel s = OutOfFuel /\
    exists last s1, scroll_loop env fuel last s1 = OutOfFuel)) /\
  (forall k,
      cooperative env ->
      (forall i, on_images env i = Ok tt \/
                 exists msg, on_images env i = Err (TimeoutException msg)) ->
      height_at env (11 * S k + (2 + calls s))
      = height_at env (11 * k + (2 + calls s)) ->
      (k < fuel)%nat -> (11 <= fuel)%nat ->
      exists s0,
        capture_screenshot env self url fuel s
        = Ret None
            (logged ERROR
               ("Error capturing screenshot: " +:+ str_exn (sleep_refusal n))
               (asked s0)) /\
        files s0 = files s) /\
  (forall u s',
      main env {| arg_url := url; arg_output_dir := dir; arg_log_level := lvl;
                  arg_wait_time := Some n |} fuel s = Ret u s' ->
      files s' = files s /\
      stdout s' = stdout s ++ ["Failed to capture screenshot"]).
Proof.
  intros Hn self asked. split; [|split; [|split; [|split; [|split]]]].
  - intros cs dl s0. now apply extra_delay_negative.
  - intros H. unfold sleep_refusal. destruct (Z.leb_spec (-9223372036) n); [reflexivity|lia].
  - intros H. unfold sleep_refusal. destruct (Z.leb_spec (-9223372036) n); [lia|reflexivity].
  - intros Hfuel.
    destruct (capture_negative env dir n url fuel s Hn) as [(s' & Hcap & Hout) | Hcap].
    + left. exists s'. split; [exact Hcap | now apply outputs_files].
    + right. split; [exact Hcap|].
      now apply (capture_screenshot_OutOfFuel_inv env self url fuel s).
  - intros k Hcoop Himg Hfix Hk Hfuel.
    destruct (prepare_reaches_delay env self url s k fuel)
      as (cs & dl & s0 & Hp & Hout); auto.
    exists s0. split; [|now apply outputs_files].
    rewrite (capture_screenshot_Raise env self url fuel s
               (sleep_refusal n) (asked s0)).
    + unfold sleep_refusal. now destruct (-9223372036 <=? n).
    + rewrite capture_body_split. apply bind_Raise.
      rewrite Hp. now apply extra_delay_negative.
  - intros u s' Hmain. now apply (main_negative env url dir lvl n fuel s u s').
Qed.

Lemma cooperative_scripted heights images ajax mutations saved title :
  succeeds heights -> succeeds saved -> succeeds title ->
  cooperative (scripted (fine tt) (fine tt) heights images ajax mutations
                 saved title).
Proof.
  intros Hh Hs Ht.
  constructor; simpl; auto; intros i; eexists; reflexivity.
Qed.

Lemma cooperative_calm : cooperative calm.
Proof. apply cooperative_scripted; intros i; eexists; reflexivity. Qed.

Lemma C10_witness :
  exists s0,
    capture_screenshot calm hasty sample_url 11 initial
    = Ret None
        (logged ERROR
           ("Error capturing screenshot: " +:+ str_exn (sleep_refusal (-5)))
           (refused (1000 * -5)
              (logged INFO ("Waiting additional " +:+ str_int (-5)
                            +:+ " seconds for content to stabilize") s0))) /\
    files s0 = files initial.
Proof.
  assert (Hn : -5 < 0) by lia.
  destruct (C10_negative_wait_time calm sample_url "snapshotFile" INFO (-5) 11
              initial Hn) as (_ & _ & _ & _ & Hrun & _).
  apply (Hrun 0%nat).
  - exact cooperative_calm.
  - intros i. now left.
  - reflexivity.
  - lia.
  - lia.
Defined.

(** ** Successful captures *)

Lemma startswith_sep_append c f ext :
  startswith_sep (String c f +:+ ext) = startswith_sep (String c f).
Proof. reflexivity. Qed.

Lemma path_join_inj dir f g :
  startswith_sep f = false -> startswith_sep g = false ->
  path_join dir f = path_join dir g -> f = g.
Proof.
  unfold path_join. intros -> ->.
  destruct ((String.length dir =? 0)%nat || endswith_sep dir); intros H.
  - now apply String.app_inj in H.
  - apply String.app_inj in H. now injection H.
Qed.

Lemma png_json_distinct self ts :
  png_path self ("snapshot_" +:+ ts) <> json_path self ("snapshot_" +:+ ts).
Proof.
  unfold png_path, json_path. intros H.
  apply path_join_inj in H; [|reflexivity|reflexivity].
  rewrite !append_assoc in H. apply String.app_inj in H.
  apply String.app_inj in H. discriminate.
Qed.

(** What a successful capture has done. *)
Lemma capture_success env self url fuel s p j s' :
  capture_screenshot env self url fuel s = Ret (Some (p, j)) s' ->
  exists s0 hm wm saved title cur ua,
    let c := calls s0 in
    let W := math_max wm in
    let H := math_max hm in
    let ts := strftime (on_now env (3 + c)) in
    let data := json_data url ts W H title cur ua in
    outputs s0 = outputs s /\
    on_metrics env c = Ok hm /\
    on_metrics env (1 + c) = Ok wm /\
    on_save_screenshot env (4 + c) = Ok saved /\
    on_title env (5 + c) = Ok title /\
    on_current_url env (6 + c) = Ok cur /\
    on_user_agent env (7 + c) = Ok ua /\
    p = png_path self ("snapshot_" +:+ ts) /\
    j = json_path self ("snapshot_" +:+ ts) /\
    files s' = <[j := Text (dumps 2 0 data)]>
                 (if saved then <[p := Png (W + 100) (H + 100)]> (files s)
                  else if opened env (4 + c) then <[p := Truncated]> (files s)
                  else files s) /\
    window s' = (W + 100, H + 100) /\
    trace s' = trace s0 ++ [EScript MaxHeight; EScript MaxWidth;
                            ESetWindowSize (W + 100) (H + 100); ESleep 2000;
                            ENow; ESaveScreenshot p; ETitle; ECurrentUrl;
                            EScript UserAgent; EOpen j "utf-8"; EDump j].
Proof.
  intros Hcap.
  destruct (capture_screenshot_cases env self url fuel s)
    as [(paths & s1 & Hbody & E) | [(e & s1 & _ & E) | [_ E]]];
    rewrite E in Hcap; try discriminate.
  injection Hcap as -> ->.
  rewrite capture_body_split in Hbody.
  apply bind_Ret_inv in Hbody as (u & s0 & Hp & Hs).
  assert (Hout : outputs s0 = outputs s).
  { apply (quiet_prepare env self url fuel). now rewrite Hp. }
  apply shoot_Ret in Hs
    as (hm & wm & saved & title & cur & ua & H1 & H2 & H3 & H4 & H5 & H6 & Hpng
        & Hjson & Hfiles & Hwin & Htrace).
  exists s0, hm, wm, saved, title, cur, ua. simpl.
  rewrite <- (outputs_files _ _ Hout). auto 15.
Qed.

Lemma append_nil_l (a : string) : EmptyString +:+ a = a.
Proof. reflexivity. Qed.

Lemma dumps_sidecar url ts W H title cur ua :
  dumps 2 0 (json_data url ts W H title cur ua)
  = unlines (sidecar_lines url ts W H title cur ua).
Proof.
  unfold json_data, sidecar_lines, unlines, newline_indent.
  simpl dumps. unfold dump_items, newline_indent. simpl spaces.
  repeat rewrite ?append_assoc, ?append_cons, ?append_nil_l.
  reflexivity.
Qed.

Lemma calm_run_result :
  calm_run = Ret (Some (sample_png, sample_json)) (final_state calm_run).
Proof. vm_compute. reflexivity. Qed.

Lemma math_max_upper m x :
  In x [body_scroll m; body_offset m; doc_client m; doc_scroll m; doc_offset m] ->
  x <= math_max m.
Proof.
  unfold math_max. simpl. intros [<- | [<- | [<- | [<- | [<- | []]]]]]; lia.
Qed.

Lemma math_max_attained m :
  In (math_max m)
    [body_scroll m; body_offset m; doc_client m; doc_scroll m; doc_offset m].
Proof. unfold math_max. simpl. lia. Qed.

(** C7: after a successful capture the JSON file, read back, gives
    under [url] the URL the capture was called with, character for
    character, and under [timestamp] the very timestamp that the names
    of both files carry after [snapshot_]. *)
Theorem C7_round_trip env self url fuel s p j s' :
  capture_screenshot env self url fuel s = Ret (Some (p, j)) s' ->
  exists timestamp text data,
    p = path_join (output_dir self) (("snapshot_" +:+ timestamp) +:+ ".png") /\
    j = path_join (output_dir self) (("snapshot_" +:+ timestamp) +:+ ".json") /\
    files s' !! j = Some (Text text) /\
    loads text = Some data /\
    field "url" data = Some (JStr url) /\
    field "timestamp" data = Some (JStr timestamp).
Proof.
  intros Hcap.
  apply capture_success in Hcap
    as (s0 & hm & wm & saved & title & cur & ua & Hcap).
  cbv zeta in Hcap.
  destruct Hcap as (_ & _ & _ & _ & _ & _ & _ & Hp & Hj & Hfiles & _).
  eexists _, _, _. split; [exact Hp|]. split; [exact Hj|].
  split; [rewrite Hfiles; apply lookup_insert_eq|].
  split; [apply loads_dumps|]. split; reflexivity.
Qed.

Lemma C7_witness :
  exists timestamp text data,
    sample_png
    = path_join (output_dir sample_self) (("snapshot_" +:+ timestamp) +:+ ".png") /\
    sample_json
    = path_join (output_dir sample_self) (("snapshot_" +:+ timestamp) +:+ ".json") /\
    files (final_state calm_run) !! sample_json = Some (Text text) /\
    loads text = Some data /\
    field "url" data = Some (JStr sample_url) /\
    field "timestamp" data = Some (JStr timestamp).
Proof.
  apply (C7_round_trip calm sample_self sample_url 11 initial).
  vm_compute. reflexivity.
Defined.

(** C6: after a successful capture the sidecar holds under
    [dimensions] the measured width and height, each the greatest of
    its five metrics; the window was resized to these plus 100 in each
    axis, it has that size at the end, and the screenshot, when it was
    written, is the image of the window at that size. *)
Theorem C6_dimensions env self url fuel s p j s' :
  capture_screenshot env self url fuel s = Ret (Some (p, j)) s' ->
  exists n height_metrics width_metrics saved text data,
    let W := math_max width_metrics in
    let H := math_max height_metrics in
    on_metrics env n = Ok height_metrics /\
    on_metrics env (S n) = Ok width_metrics /\
    on_save_screenshot env (4 + n) = Ok saved /\
    files s' !! j = Some (Text text) /\
    loads text = Some data /\
    field "dimensions" data
    = Some (JObj [("width", JInt W); ("height", JInt H)]) /\
    In (ESetWindowSize (W + 100) (H + 100)) (trace s') /\
    window s' = (W + 100, H + 100) /\
    (saved = true -> files s' !! p = Some (Png (W + 100) (H + 100))) /\
    (forall m x,
        In x [body_scroll m; body_offset m; doc_client m; doc_scroll m;
              doc_offset m] -> x <= math_max m) /\
    (forall m,
        In (math_max m) [body_scroll m; body_offset m; doc_client m;
                         doc_scroll m; doc_offset m]).
Proof.
  intros Hcap.
  apply capture_success in Hcap
    as (s0 & hm & wm & saved & title & cur & ua & Hcap).
  cbv zeta in Hcap.
  destruct Hcap as (_ & Hh & Hw & Hs & _ & _ & _ & Hp & Hj & Hfiles & Hwin & Htr).
  exists (calls s0), hm, wm, saved. eexists _, _. cbv zeta.
  split; [exact Hh|]. split; [exact Hw|]. split; [exact Hs|].
  split; [rewrite Hfiles; apply lookup_insert_eq|].
  split; [apply loads_dumps|]. split; [reflexivity|].
  split; [rewrite Htr; apply in_or_app; right; simpl; auto|].
  split; [exact Hwin|].
  split; [|split; [apply math_max_upper | apply math_max_attained]].
  intros ->. rewrite Hfiles, lookup_insert_ne.
  - apply lookup_insert_eq.
  - rewrite Hp, Hj. intros E. symmetry in E. now apply png_json_distinct in E.
Qed.

Lemma C6_witness :
  exists n height_metrics width_metrics saved text data,
    let W := math_max width_metrics in
    let H := math_max height_metrics in
    on_metrics calm n = Ok height_metrics /\
    on_metrics calm (S n) = Ok width_metrics /\
    on_save_screenshot calm (4 + n) = Ok saved /\
    files (final_state calm_run) !! sample_json = Some (Text text) /\
    loads text = Some data /\
    field "dimensions" data
    = Some (JObj [("width", JInt W); ("height", JInt H)]) /\
    In (ESetWindowSize (W + 100) (H + 100)) (trace (final_state calm_run)) /\
    window (final_state calm_run) = (W + 100, H + 100) /\
    (saved = true ->
     files (final_state calm_run) !! sample_png = Some (Png (W + 100) (H + 100))) /\
    (forall m x,
        In x [body_scroll m; body_offset m; doc_client m; doc_scroll m;
              doc_offset m] -> x <= math_max m) /\
    (forall m,
        In (math_max m) [body_scroll m; body_offset m; doc_client m;
                         doc_scroll m; doc_offset m]).
Proof.
  apply (C6_dimensions calm sample_self sample_url 11 initial).
  vm_compute. reflexivity.
Defined.

(** ** The schema of the sidecar *)

(** C9 as stated fails on the sample capture: the metadata of its
    sidecar has no member [userAgent]; the user agent is kept under
    [user_agent]. *)
Lemma C9_counterexample :
  exists text data metadata,
    calm_run = Ret (Some (sample_png, sample_json)) (final_state calm_run) /\
    files (final_state calm_run) !! sample_json = Some (Text text) /\
    loads text = Some data /\
    field "metadata" data = Some metadata /\
    field "userAgent" metadata = None /\
    keys metadata = ["title"; "url"; "user_agent"].
Proof.
  eexists _, _, _. split; [exact calm_run_result|].
  split; [vm_compute; reflexivity|].
  split; [vm_compute; reflexivity|].
  split; [reflexivity|]. split; reflexivity.
Qed.

(** C9, amended: the sidecar of a successful capture is the object
    [{url, timestamp, dimensions: {width, height}, metadata: {title,
    url, user_agent}}] with exactly these members in this order, the
    browser's user agent under [user_agent]; its text is laid out one
    member a line with two spaces a level, and characters outside ASCII
    are written as they are. *)
Theorem C9_sidecar_schema env self url fuel s p j s' :
  capture_screenshot env self url fuel s = Ret (Some (p, j)) s' ->
  exists n timestamp W H title current_url user_agent text data
         dimensions metadata,
    on_user_agent env n = Ok user_agent /\
    In (EOpen j "utf-8") (trace s') /\
    files s' !! j = Some (Text text) /\
    text = unlines (sidecar_lines url timestamp W H title current_url user_agent) /\
    loads text = Some data /\
    keys data = ["url"; "timestamp"; "dimensions"; "metadata"] /\
    field "dimensions" data = Some dimensions /\
    keys dimensions = ["width"; "height"] /\
    field "metadata" data = Some metadata /\
    keys metadata = ["title"; "url"; "user_agent"] /\
    field "user_agent" metadata = Some (JStr user_agent) /\
    (forall c, (128 <= nat_of_ascii c)%nat -> escape_char c = String c EmptyString).
Proof.
  intros Hcap.
  apply capture_success in Hcap
    as (s0 & hm & wm & saved & title & cur & ua & Hcap).
  cbv zeta in Hcap.
  destruct Hcap as (_ & _ & _ & _ & _ & _ & Hua & _ & _ & Hfiles & _ & Htr).
  exists (7 + calls s0)%nat.
  eexists _, _, _, title, cur, ua, _, _, _, _.
  split; [exact Hua|].
  split; [rewrite Htr; apply in_or_app; right; simpl; auto 15|].
  split; [rewrite Hfiles; apply lookup_insert_eq|].
  split; [apply dumps_sidecar|].
  split; [apply loads_dumps|].
  do 6 (split; [reflexivity|]).
  intros c Hc. unfold escape_char.
  repeat match goal with
         | |- context [(?a =? ?b)%nat] =>
             destruct (Nat.eqb_spec a b); [lia|]
         | |- context [(?a <? ?b)%nat] =>
             destruct (Nat.ltb_spec a b); [lia|]
         end.
  reflexivity.
Qed.

Lemma C9_witness :
  exists n timestamp W H title current_url user_agent text data
         dimensions metadata,
    on_user_agent calm n = Ok user_agent /\
    In (EOpen sample_json "utf-8") (trace (final_state calm_run)) /\
    files (final_state calm_run) !! sample_json = Some (Text text) /\
    text = unlines (sidecar_lines sample_url timestamp W H title current_url
                      user_agent) /\
    loads text = Some data /\
    keys data = ["url"; "timestamp"; "dimensions"; "metadata"] /\
    field "dimensions" data = Some dimensions /\
    keys dimensions = ["width"; "height"] /\
    field "metadata" data = Some metadata /\
    keys metadata = ["title"; "url"; "user_agent"] /\
    field "user_agent" metadata = Some (JStr user_agent) /\
    (forall c, (128 <= nat_of_ascii c)%nat -> escape_char c = String c EmptyString).
Proof.
  apply (C9_sidecar_schema calm sample_self sample_url 11 initial sample_png).
  vm_compute. reflexivity.
Defined.

(** ** Both files, or which of them *)

(** C1 as stated fails when the browser raises once the screenshot is
    saved: on [untitled] the capture returns [None] and leaves the PNG
    behind, alone. *)
Lemma C1_counterexample :
  untitled_run = Ret None (final_state untitled_run) /\
  files (final_state untitled_run) !! sample_png = Some (Png 1300 1300) /\
  files (final_state untitled_run) !! sample_json = None /\
  files (final_state untitled_run) = {[ sample_png := Png 1300 1300 ]}.
Proof.
  split; [vm_compute; reflexivity|].
  split; [vm_compute; reflexivity|].
  split; vm_compute; reflexivity.
Qed.

(** C1, amended: the capture saves the screenshot first and writes the
    JSON last, under one stem, and takes nothing back.  The screenshot
    step leaves the files as they were, or the PNG in full, or a PNG
    cut short when [save_screenshot] could open the file and not write
    it.  When the capture returns the pair, the JSON is written in
    full on top of that.  When it returns [None], either the JSON file
    was not touched, or it was opened and holds the part of its text
    that had got through when the dump failed: none of it, a partial
    JSON text, or all of it. *)
Theorem C1_files_written env self url fuel s r s' :
  capture_screenshot env self url fuel s = Ret r s' ->
  exists n hm wm title cur ua shot,
    let W := math_max wm in
    let H := math_max hm in
    let p := png_path self (stem env n) in
    let j := json_path self (stem env n) in
    let data := json_data url (strftime (on_now env n)) W H title cur ua in
    (shot = files s \/
     shot = <[p := Png (W + 100) (H + 100)]> (files s) \/
     shot = <[p := Truncated]> (files s)) /\
    match r with
    | Some paths =>
        paths = (p, j) /\ files s' = <[j := Text (dumps 2 0 data)]> shot
    | None =>
        files s' = shot \/
        exists k, files s' = <[j := Text (prefix k (dumps 2 0 data))]> shot
    end.
Proof.
  intros Hcap.
  destruct (capture_screenshot_cases env self url fuel s)
    as [(paths & s1 & Hbody & E) | [(e & s1 & Hbody & E) | [_ E]]];
    rewrite E in Hcap; try discriminate.
  - injection Hcap as <- <-. destruct paths as [p j].
    apply capture_success in E
      as (s0 & hm & wm & saved & title & cur & ua & E).
    cbv zeta in E.
    destruct E as (_ & _ & _ & _ & _ & _ & _ & Hp & Hj & Hfiles & _).
    exists (3 + calls s0)%nat, hm, wm, title, cur, ua. eexists.
    cbv zeta. unfold stem. rewrite <- Hp, <- Hj.
    split; [|split; [reflexivity | exact Hfiles]].
    destruct saved; [right; left; reflexivity|].
    destruct (opened env (4 + calls s0)); [right; right | left]; reflexivity.
  - injection Hcap as <- <-.
    rewrite capture_body_split in Hbody.
    apply bind_Raise_inv in Hbody as [Hp | (u & s0 & Hp & Hs)].
    + exists O, sample_metrics, sample_metrics, EmptyString, EmptyString,
        EmptyString, (files s).
      cbv zeta. split; [now left|]. left.
      change (files (logged ERROR (failure_message url e) s1)) with (files s1).
      apply outputs_files, (quiet_prepare env self url fuel). now rewrite Hp.
    + assert (Hout : files s0 = files s).
      { apply outputs_files, (quiet_prepare env self url fuel). now rewrite Hp. }
      apply shoot_Raise in Hs as (hm & wm & title & cur & ua & k & shot & Hs).
      cbv zeta in Hs. rewrite Hout in Hs. destruct Hs as [Hshot Hfiles].
      exists (3 + calls s0)%nat, hm, wm, title, cur, ua, shot.
      cbv zeta. unfold stem. split; [exact Hshot|].
      change (files (logged ERROR (failure_message url e) s1)) with (files s1).
      destruct Hfiles as [Hf | Hf]; [now left | right; now exists k].
Qed.

Lemma C1_witness :
  exists n hm wm title cur ua shot,
    let W := math_max wm in
    let H := math_max hm in
    let p := png_path sample_self (stem untitled n) in
    let j := json_path sample_self (stem untitled n) in
    let data :=
      json_data sample_url (strftime (on_now untitled n)) W H title cur ua in
    (shot = files initial \/
     shot = <[p := Png (W + 100) (H + 100)]> (files initial) \/
     shot = <[p := Truncated]> (files initial)) /\
    (files (final_state untitled_run) = shot \/
     exists k,
       files (final_state untitled_run)
       = <[j := Text (prefix k (dumps 2 0 data))]> shot).
Proof.
  apply (C1_files_written untitled sample_self sample_url 11 initial None).
  vm_compute. reflexivity.
Defined.

(** ** Failures inside the waiting phases *)

(** C2 as stated fails on [heightless]: the exception raised while the
    scroll phase measures the height is not caught in that phase; it
    ends the capture, which returns [None] and takes no screenshot. *)
Lemma C2_counterexample :
  heightless_run = Ret None (final_state heightless_run) /\
  files (final_state heightless_run) = ∅ /\
  trace (final_state heightless_run)
  = [EGet sample_url; EUntilBody 10; EScript ReadScrollHeight] /\
  last (log (final_state heightless_run))
  = Some (ERROR, "Error capturing screenshot: javascript error").
Proof.
  split; [vm_compute; reflexivity|].
  split; [vm_compute; reflexivity|].
  split; vm_compute; reflexivity.
Qed.

(** C2, amended: a [TimeoutException] of the wait for the images and
    any exception of the check for dynamic content are caught inside
    their phase and only logged, as a warning and at debug level; the
    capture goes on, and when every other step succeeds and the page
    settles it returns the pair of paths.  An exception met when the
    scroll or the stability poll reads the height, and any other
    exception of the wait for the images, leaves its phase; and an
    exception that leaves a phase before the measurement makes the
    capture return [None]. *)
Theorem C2_tolerated_failures env :
  (forall s msg,
      on_images env (calls s) = Err (TimeoutException msg) ->
      wait_for_images env s
      = Ret tt (logged WARNING "Timeout waiting for images to load"
                  (interact (EUntil 10 ImagesComplete)
                     (Z.of_N (latency env (calls s)))
                     (logged INFO "Waiting for images to load..." s)))) /\
  (forall s, exists b s',
      wait_for_dynamic_content env s = Ret b s' /\
      (b = true <->
       on_ajax env (calls s) = Ok tt /\ on_mutations env (S (calls s)) = Ok 0)) /\
  (forall s e,
      on_ajax env (calls s) = Err e ->
      wait_for_dynamic_content env s
      = Ret false
          (logged DEBUG ("Error checking dynamic content: " +:+ str_exn e)
             (interact (EUntil 5 AjaxIdle) (Z.of_N (latency env (calls s)))
                (logged INFO "Checking for dynamic content loading..." s)))) /\
  (forall self url s k fuel,
      cooperative env ->
      (forall n, on_images env n = Ok tt \/
                 exists msg, on_images env n = Err (TimeoutException msg)) ->
      valid_wait_time self ->
      height_at env (11 * S k + (2 + calls s))
      = height_at env (11 * k + (2 + calls s)) ->
      (k < fuel)%nat -> (11 <= fuel)%nat ->
      exists paths s',
        capture_screenshot env self url fuel s = Ret (Some paths) s') /\
  (forall fuel s e,
      on_scroll_height env (calls s) = Err e ->
      (exists s', scroll_to_bottom env fuel s = Raise e s') /\
      (exists s', wait_for_content_stable env (S fuel) 10 s = Raise e s')) /\
  (forall s e,
      on_images env (calls s) = Err e ->
      (forall msg, e <> TimeoutException msg) ->
      exists s', wait_for_images env s = Raise e s') /\
  (forall self url fuel s e s1,
      prepare env self url fuel s = Raise e s1 ->
      capture_screenshot env self url fuel s
      = Ret None (logged ERROR (failure_message url e) s1)).
Proof.
  split; [|split; [|split; [|split; [|split; [|split]]]]].
  - intros s msg. apply wait_for_images_timeout.
  - intros s. apply wait_for_dynamic_content_Ret.
  - intros s e He. unfold wait_for_dynamic_content, try_except.
    erewrite bind_Ret by reflexivity.
    erewrite bind_Raise by (apply driver_Err; exact He). reflexivity.
  - intros self url s k fuel. apply capture_screenshot_succeeds.
  - intros fuel s e He. split.
    + unfold scroll_to_bottom, execute_script.
      erewrite bind_Ret by reflexivity.
      erewrite bind_Raise by (apply driver_Err; exact He). eauto.
    + unfold wait_for_content_stable.
      do 2 (erewrite bind_Ret by reflexivity). rewrite stable_loop_S.
      erewrite bind_Ret by reflexivity.
      match goal with
      | |- context [if ?c then _ else _] =>
          destruct c eqn:E; [|apply Z.ltb_ge in E; simpl in E; lia]
      end.
      unfold execute_script.
      erewrite bind_Raise by (apply driver_Err; exact He). eauto.
  - intros s e He Hne. unfold wait_for_images, try_except.
    erewrite bind_Ret by reflexivity.
    erewrite driver_Err by exact He.
    destruct e; eauto. now destruct (Hne msg).
  - intros self url fuel s e s1 Hp. apply capture_screenshot_Raise.
    rewrite capture_body_split. now apply bind_Raise.
Qed.

Lemma cooperative_sluggish : cooperative sluggish.
Proof. apply cooperative_scripted; intros i; eexists; reflexivity. Qed.

Lemma C2_witness :
  exists paths s',
    capture_screenshot sluggish sample_self sample_url 11 initial
    = Ret (Some paths) s'.
Proof.
  destruct (C2_tolerated_failures sluggish) as (_ & _ & _ & Hrun & _).
  apply (Hrun sample_self sample_url initial 0%nat 11%nat).
  - exact cooperative_sluggish.
  - intros n. right. eexists. reflexivity.
  - exact I.
  - reflexivity.
  - lia.
  - lia.
Defined.

(** * More of the program *)

(** ** What a capture logs and prints *)

Lemma shoot_stdout env self url s s' :
  final (shoot env self url s) = Some s' -> stdout s' = stdout s.
Proof.
  destruct (shoot env self url s) as [paths s1|e s1|] eqn:H; intros [= <-];
    run_shoot H; injection H as <- <-; reflexivity.
Qed.

Lemma shoot_log env self url s paths s' :
  shoot env self url s = Ret paths s' ->
  log s'
  = log s ++ [(INFO, "Screenshot and JSON data saved successfully: "
                     +:+ stem env (3 + calls s))].
Proof.
  intros H. run_shoot H; injection H as <- <-; reflexivity.
Qed.

Lemma capture_screenshot_stdout env self url fuel s r s' :
  capture_screenshot env self url fuel s = Ret r s' -> stdout s' = stdout s.
Proof.
  intros Hcap.
  destruct (capture_screenshot_cases env self url fuel s)
    as [(paths & s1 & Hbody & E) | [(e & s1 & Hbody & E) | [_ E]]];
    rewrite E in Hcap; try discriminate; injection Hcap as <- <-;
    rewrite capture_body_split in Hbody.
  - apply bind_Ret_inv in Hbody as (u & s0 & Hp & Hs).
    rewrite (shoot_stdout env self url s0 s1) by (now rewrite Hs).
    apply outputs_stdout, (quiet_prepare env self url fuel). now rewrite Hp.
  - change (stdout (logged ERROR (failure_message url e) s1)) with (stdout s1).
    apply bind_Raise_inv in Hbody as [Hp | (u & s0 & Hp & Hs)].
    + apply outputs_stdout, (quiet_prepare env self url fuel). now rewrite Hp.
    + rewrite (shoot_stdout env self url s0 s1) by (now rewrite Hs).
      apply outputs_stdout, (quiet_prepare env self url fuel). now rewrite Hp.
Qed.

Lemma capture_screenshot_never_raises env self url fuel s e s' :
  capture_screenshot env self url fuel s <> Raise e s'.
Proof.
  destruct (capture_screenshot_cases env self url fuel s)
    as [(paths & s1 & _ & E) | [(e1 & s1 & _ & E) | [_ E]]];
    rewrite E; discriminate.
Qed.

(** X1: [capture_screenshot] never lets an exception out.  When it
    returns [None] the last entry of its log is the error line of one
    of its two handlers; when it returns the pair of paths, the last
    entry is the success line, which names the stem [snapshot_] and
    timestamp that the screenshot path carries. *)
Theorem X1_capture_never_raises env self url fuel s :
  (forall e s', capture_screenshot env self url fuel s <> Raise e s') /\
  (forall s',
      capture_screenshot env self url fuel s = Ret None s' ->
      exists e, last (log s') = Some (ERROR, failure_message url e)) /\
  (forall p j s',
      capture_screenshot env self url fuel s = Ret (Some (p, j)) s' ->
      exists timestamp,
        p = path_join (output_dir self) (("snapshot_" +:+ timestamp) +:+ ".png") /\
        last (log s')
        = Some (INFO, "Screenshot and JSON data saved successfully: "
                      +:+ "snapshot_" +:+ timestamp)).
Proof.
  split; [|split].
  - intros e s'. apply capture_screenshot_never_raises.
  - intros s' Hcap.
    destruct (capture_screenshot_cases env self url fuel s)
      as [(paths & s1 & _ & E) | [(e & s1 & _ & E) | [_ E]]];
      rewrite E in Hcap; try discriminate.
    injection Hcap as <-. exists e. apply last_snoc.
  - intros p j s' Hcap.
    destruct (capture_screenshot_cases env self url fuel s)
      as [(paths & s1 & Hbody & E) | [(e & s1 & _ & E) | [_ E]]];
      rewrite E in Hcap; try discriminate.
    injection Hcap as -> ->.
    rewrite capture_body_split in Hbody.
    apply bind_Ret_inv in Hbody as (u & s0 & _ & Hs).
    pose proof (shoot_log _ _ _ _ _ _ Hs) as Hlog.
    apply shoot_Ret in Hs as (? & ? & ? & ? & ? & ? & Hs). cbv zeta in Hs.
    destruct Hs as (_ & _ & _ & _ & _ & _ & Hp & _).
    exists (strftime (on_now env (3 + calls s0))). split; [exact Hp|].
    rewrite Hlog. apply last_snoc.
Qed.

Lemma X1_witness :
  exists timestamp,
    sample_png
    = path_join (output_dir sample_self) (("snapshot_" +:+ timestamp) +:+ ".png") /\
    last (log (final_state calm_run))
    = Some (INFO, "Screenshot and JSON data saved successfully: "
                  +:+ "snapshot_" +:+ timestamp).
Proof.
  apply (proj2 (proj2 (X1_capture_never_raises calm sample_self sample_url 11 initial))
           sample_png sample_json).
  vm_compute. reflexivity.
Defined.

(** X2: a [TimeoutException] is reported as a timeout of the page load
    wherever in the [try] block it comes from: when the navigation and
    the wait for the body have succeeded and the first script of the
    scroll times out, the capture returns [None] and the log ends with
    [Timeout while loading URL]. *)
Theorem X2_any_timeout_is_logged_as_loading env self url fuel s msg :
  on_get env (calls s) = Ok tt ->
  on_body env (1 + calls s) = Ok tt ->
  on_scroll_height env (2 + calls s) = Err (TimeoutException msg) ->
  exists s',
    capture_screenshot env self url fuel s = Ret None s' /\
    trace s' = trace s ++ [EGet url; EUntilBody 10; EScript ReadScrollHeight] /\
    last (log s') = Some (ERROR, "Timeout while loading URL: " +:+ url).
Proof.
  intros Hget Hbody Hh.
  eexists. split.
  - apply capture_screenshot_Raise. unfold capture_body.
    erewrite bind_Ret by reflexivity.
    erewrite bind_Ret by (apply driver_Ok; exact Hget).
    erewrite bind_Ret by (apply driver_Ok; exact Hbody).
    apply bind_Raise. unfold scroll_to_bottom, execute_script.
    erewrite bind_Ret by reflexivity.
    apply bind_Raise. apply driver_Err. exact Hh.
  - simpl. split; [now rewrite <- !app_assoc | apply last_snoc].
Qed.

Lemma X2_witness :
  exists s',
    capture_screenshot script_timeout sample_self sample_url 11 initial
    = Ret None s' /\
    trace s' = trace initial
               ++ [EGet sample_url; EUntilBody 10; EScript ReadScrollHeight] /\
    last (log s') = Some (ERROR, "Timeout while loading URL: " +:+ sample_url).
Proof.
  apply (X2_any_timeout_is_logged_as_loading script_timeout sample_self
           sample_url 11 initial "script timeout"); reflexivity.
Defined.

(** ** The stability poll *)

Lemma stable_loop_reads env timeout start :
  forall f s last (m : nat),
    1000 * timeout - (clock s - start) <= 1000 * Z.of_nat m ->
    (m <= f)%nat ->
    exists s',
      final (stable_loop env (S f) timeout start last s) = Some s' /\
      (calls s' <= calls s + m)%nat.
Proof.
  induction f as [|f IH]; intros s last m Hm Hmf; rewrite stable_loop_S;
    (erewrite bind_Ret by reflexivity);
    destruct (Z.ltb_spec (clock s - start) (1000 * timeout)) as [Hlt|Hge];
    try lia; try (exists s; split; [reflexivity | lia]).
  unfold execute_script.
  destruct (on_scroll_height env (calls s)) as [h|e] eqn:E.
  - erewrite bind_Ret by (apply driver_Ok; exact E).
    destruct (h =? last).
    + erewrite bind_Ret by (apply sleep_Ret; lia).
      eexists. split; [reflexivity|]. simpl. lia.
    + erewrite bind_Ret by (apply sleep_Ret; lia).
      match goal with
      | |- context [stable_loop _ _ _ _ _ ?s1] =>
          destruct (IH s1 h (m - 1)%nat) as (s' & Hfin & Hcalls)
      end.
      { simpl. lia. }
      { lia. }
      exists s'. split; [exact Hfin|]. simpl in Hcalls. lia.
  - erewrite bind_Raise by (apply driver_Err; exact E).
    eexists. split; [reflexivity|]. simpl. lia.
Qed.

(** X3: whatever the browser answers and however long it takes, the
    poll of [wait_for_content_stable] with its timeout of ten seconds
    ends, with an answer or an exception, after at most ten readings
    of the height. *)
Theorem X3_poll_reads_at_most_ten env fuel s :
  (11 <= fuel)%nat ->
  exists s',
    final (wait_for_content_stable env fuel 10 s) = Some s' /\
    (calls s' <= calls s + 10)%nat.
Proof.
  intros Hfuel. unfold wait_for_content_stable.
  do 2 (erewrite bind_Ret by reflexivity).
  destruct fuel as [|f]; [lia|].
  match goal with
  | |- context [stable_loop _ _ _ ?start ?last ?s1] =>
      destruct (stable_loop_reads env 10 start f s1 last 10%nat) as (s' & Hfin & Hc)
  end.
  { simpl. lia. }
  { lia. }
  exists s'. split; [exact Hfin | exact Hc].
Qed.

Lemma X3_witness :
  exists s',
    final (wait_for_content_stable growing 11 10 initial) = Some s' /\
    (calls s' <= calls initial + 10)%nat.
Proof. apply (X3_poll_reads_at_most_ten growing 11 initial). lia. Defined.

Lemma stable_loop_timing env timeout start :
  forall fuel s last,
    match stable_loop env fuel timeout start last s with
    | Ret b s' =>
        clock s <= clock s' /\
        (b = true -> clock s + 2000 <= clock s') /\
        (b = false -> start + 1000 * timeout <= clock s')
    | Raise _ s' => clock s <= clock s'
    | OutOfFuel => True
    end.
Proof.
  induction fuel as [|fuel IH]; intros s last; [exact I|].
  rewrite stable_loop_S. unfold bind at 1. simpl.
  destruct (Z.ltb_spec (clock s - start) (1000 * timeout)) as [Hlt|Hge].
  - unfold execute_script, bind at 1, driver.
    destruct (on_scroll_height env (calls s)) as [h|e]; [|simpl; lia].
    destruct (h =? last).
    + simpl. repeat split; try (intros; lia); try discriminate.
    + unfold bind at 1. simpl.
      match goal with
      | |- context [stable_loop _ _ _ _ _ ?s1] => specialize (IH s1 h)
      end.
      destruct (stable_loop _ _ _ _ _ _) as [b s'|e s'|]; auto; simpl in IH;
        [|lia].
      destruct IH as (H1 & H2 & H3).
      repeat split; [lia | intros Hb; specialize (H2 Hb); lia | exact H3].
  - simpl. repeat split; try (intros; lia); try discriminate.
Qed.

(** X4: when [wait_for_content_stable] answers [True] at least two
    seconds have passed since it was called, and when it answers
    [False] at least the ten seconds of its timeout. *)
Theorem X4_poll_duration env fuel s b s' :
  wait_for_content_stable env fuel 10 s = Ret b s' ->
  (b = true -> clock s + 2000 <= clock s') /\
  (b = false -> clock s + 10000 <= clock s').
Proof.
  intros H. unfold wait_for_content_stable in H.
  do 2 (erewrite bind_Ret in H by reflexivity).
  pose proof (stable_loop_timing env 10
                (clock (logged INFO "Waiting for content to stabilize..." s))
                fuel (logged INFO "Waiting for content to stabilize..." s) 0) as Ht.
  rewrite H in Ht. simpl in Ht. destruct Ht as (_ & H2 & H3).
  split; [exact H2|]. intros Hb. specialize (H3 Hb). lia.
Qed.

Lemma X4_witness :
  (true = true ->
   clock initial + 2000
   <= clock (final_state (wait_for_content_stable calm 11 10 initial))) /\
  (true = false ->
   clock initial + 10000
   <= clock (final_state (wait_for_content_stable calm 11 10 initial))).
Proof.
  apply (X4_poll_duration calm 11 initial true). vm_compute. reflexivity.
Defined.

(** X5: while reading the height succeeds, [v i] being the [i]-th
    sample, [wait_for_content_stable] returns after [n] samples that
    each differed from the value before (the first from the initial
    [last_height = 0]): with [True], after one more sample that
    equals the value before it and a sleep of two seconds, or with
    [False], after at most ten samples.  On a page whose first sample
    is not 0, [True] means that two samples in a row were equal. *)
Theorem X5_poll_rule env fuel s (v : nat -> Z) :
  (forall i, on_scroll_height env (i + calls s) = Ok (v i)) ->
  (11 <= fuel)%nat ->
  exists n b s',
    wait_for_content_stable env fuel 10 s = Ret b s' /\
    trace s' = trace s ++ polls n
               ++ (if b then [EScript ReadScrollHeight; ESleep 2000] else []) /\
    (forall i, (i < n)%nat -> v i <> previous v 0 i) /\
    (b = true -> v n = previous v 0 n /\ (n < 10)%nat) /\
    (b = false -> (n <= 10)%nat) /\
    (v 0%nat <> 0 -> b = true -> exists m, n = S m /\ v (S m) = v m).
Proof.
  intros Hv Hfuel.
  destruct (wait_for_content_stable_spec env fuel s v Hv Hfuel)
    as (n & b & s' & Hrun & Htr & Hne & Htrue & Hfalse).
  exists n, b, s'. repeat split; auto; try (now apply Htrue).
  intros Hnz Hb. destruct (Htrue Hb) as [Heq _].
  destruct n as [|m]; [contradiction | now exists m].
Qed.

Lemma X5_witness :
  exists n b s',
    wait_for_content_stable calm 11 10 initial = Ret b s' /\
    trace s' = trace initial ++ polls n
               ++ (if b then [EScript ReadScrollHeight; ESleep 2000] else []) /\
    (forall i, (i < n)%nat -> 1000 <> previous (fun _ => 1000) 0 i) /\
    (b = true -> 1000 = previous (fun _ => 1000) 0 n /\ (n < 10)%nat) /\
    (b = false -> (n <= 10)%nat) /\
    (1000 <> 0 -> b = true -> exists m, n = S m /\ 1000 = 1000).
Proof.
  apply (X5_poll_rule calm 11 initial (fun _ => 1000)); [reflexivity | lia].
Defined.

Lemma polls_S n :
  polls (S n) = [EScript ReadScrollHeight; ESleep 1000] ++ polls n.
Proof. reflexivity. Qed.

Lemma stable_loop_restless env start (T : nat) :
  (forall n, latency env n = 0%N) ->
  forall m f s last (v : nat -> Z),
    (forall i, on_scroll_height env (i + calls s) = Ok (v i)) ->
    (forall i, v i <> previous v last i) ->
    clock s - start = 1000 * (Z.of_nat T - Z.of_nat m) ->
    (m <= T)%nat -> (m <= f)%nat ->
    exists s',
      stable_loop env (S f) (Z.of_nat T) start last s = Ret false s' /\
      trace s' = trace s ++ polls m /\
      clock s' = clock s + 1000 * Z.of_nat m /\
      calls s' = (calls s + m)%nat.
Proof.
  intros Hlat. induction m as [|m IH]; intros f s last v Hv Hne Hel HmT Hmf;
    rewrite stable_loop_S; (erewrite bind_Ret by reflexivity);
    destruct (Z.ltb_spec (clock s - start) (1000 * Z.of_nat T)) as [Hlt|Hge];
    try lia.
  - exists s. split; [reflexivity|]. simpl. rewrite app_nil_r.
    repeat split; lia.
  - destruct f as [|f]; [lia|]. unfold execute_script.
    erewrite bind_Ret by (apply driver_Ok; exact (Hv 0%nat)).
    destruct (Z.eqb_spec (v 0%nat) last) as [E|E]; [now apply (Hne 0%nat) in E|].
    erewrite bind_Ret by (apply sleep_Ret; lia).
    match goal with
    | |- context [stable_loop _ _ _ _ _ ?s1] =>
        destruct (IH f s1 (v 0%nat) (fun i => v (S i)))
          as (s' & Hrun & Htr & Hclock & Hcalls)
    end.
    + intros i. simpl. rewrite <- (Hv (S i)). f_equal. lia.
    + intros i. specialize (Hne (S i)). simpl in Hne. now destruct i.
    + simpl. rewrite Hlat. simpl. lia.
    + lia.
    + lia.
    + exists s'. split; [exact Hrun|]. simpl in *. rewrite Hlat in Hclock.
      rewrite Htr, polls_S, <- !app_assoc. repeat split; simpl; lia.
Qed.
(** X6: on a browser that answers at once and a page whose height is
    never twice the same (and not 0 at first), the poll takes exactly
    ten samples, a second apart, and answers [False] ten seconds after
    it began. *)
Theorem X6_restless_page_polled_ten_times env fuel s (v : nat -> Z) :
  (forall n, latency env n = 0%N) ->
  (forall i, on_scroll_height env (i + calls s) = Ok (v i)) ->
  (forall i, v i <> previous v 0 i) ->
  (11 <= fuel)%nat ->
  exists s',
    wait_for_content_stable env fuel 10 s = Ret false s' /\
    trace s' = trace s ++ polls 10 /\
    clock s' = clock s + 10000 /\
    calls s' = (calls s + 10)%nat.
Proof.
  intros Hlat Hv Hne Hfuel. unfold wait_for_content_stable.
  do 2 (erewrite bind_Ret by reflexivity).
  destruct fuel as [|f]; [lia|].
  match goal with
  | |- context [stable_loop _ _ _ ?start ?last ?s1] =>
      destruct (stable_loop_restless env start 10 Hlat 10%nat f s1 last v)
        as (s' & Hrun & Htr & Hclock & Hcalls); auto; try lia
  end.
  exists s'. split; [exact Hrun|]. simpl in *. repeat split; auto; lia.
Qed.

Lemma X6_witness :
  exists s',
    wait_for_content_stable growing 11 10 (interact (EGet sample_url) 0 initial)
    = Ret false s' /\
    trace s' = trace (interact (EGet sample_url) 0 initial) ++ polls 10 /\
    clock s' = clock (interact (EGet sample_url) 0 initial) + 10000 /\
    calls s' = (calls (interact (EGet sample_url) 0 initial) + 10)%nat.
Proof.
  apply (X6_restless_page_polled_ten_times growing 11
           (interact (EGet sample_url) 0 initial) (fun i => Z.of_nat (i + 1))).
  - reflexivity.
  - reflexivity.
  - intros [|i]; simpl; lia.
  - lia.
Defined.

(** ** How long a capture takes *)

Lemma lasts_weaken {A} d d' (c : M A) : d' <= d -> lasts d c -> lasts d' c.
Proof.
  intros Hd Hc s. specialize (Hc s). destruct (c s); auto. lia.
Qed.

Lemma lasts_ret {A} (a : A) : lasts 0 (ret a).
Proof. intros s. simpl. lia. Qed.

Lemma lasts_bind {A B} d1 d2 (c : M A) (k : A -> M B) :
  lasts d1 c -> (forall a, lasts d2 (k a)) -> lasts (d1 + d2) (bind c k).
Proof.
  intros Hc Hk s. unfold bind. specialize (Hc s).
  destruct (c s) as [a s1|e s1|]; auto.
  specialize (Hk a s1). destruct (k a s1); auto; lia.
Qed.

Lemma lasts_try_except {A} (c : M A) (h : exn -> option (M A)) :
  lasts 0 c -> (forall e k, h e = Some k -> lasts 0 k) ->
  lasts 0 (try_except c h).
Proof.
  intros Hc Hh s. unfold try_except. specialize (Hc s).
  destruct (c s) as [a s1|e s1|]; auto.
  destruct (h e) as [k|] eqn:E; auto.
  specialize (Hh e k E s1). destruct (k s1); auto; lia.
Qed.

Lemma lasts_logger l msg : lasts 0 (logger l msg).
Proof. intros s. simpl. lia. Qed.

Lemma lasts_time : lasts 0 time_time.
Proof. intros s. simpl. lia. Qed.

Lemma lasts_sleep ms : lasts (Z.max 0 ms) (sleep ms).
Proof.
  intros s. unfold sleep.
  destruct (fits_time_t ms), (Z.ltb_spec ms 0); simpl; lia.
Qed.

Lemma lasts_driver {A} env ev (oracle : nat -> result A) :
  lasts 0 (driver env ev oracle).
Proof.
  intros s. unfold driver. destruct (oracle (calls s)); simpl; lia.
Qed.

Lemma lasts_for_each {A} (l : list A) (body : A -> M unit) d :
  0 <= d -> (forall x, lasts d (body x)) ->
  lasts (Z.of_nat (length l) * d) (for_each l body).
Proof.
  intros Hd Hb. induction l as [|x l IH].
  - apply lasts_ret.
  - simpl for_each. eapply lasts_weaken; [|apply lasts_bind; [apply Hb | intros _; exact IH]].
    simpl length. lia.
Qed.

Lemma lasts_scroll_pass env : lasts 6500 (scroll_pass env).
Proof.
  unfold scroll_pass, execute_script.
  eapply lasts_weaken;
    [|apply lasts_bind;
       [apply (lasts_for_each _ _ 500); [lia|];
        intros i; eapply lasts_weaken;
          [|apply lasts_bind; [apply lasts_driver | intros _; apply lasts_sleep]]; lia
       |intros _; apply lasts_bind;
          [apply lasts_driver
          |intros _; apply lasts_bind; [apply lasts_sleep | intros _; apply lasts_driver]]]].
  simpl. lia.
Qed.

Lemma lasts_scroll_loop env fuel last : lasts 6500 (scroll_loop env fuel last).
Proof.
  revert last. induction fuel as [|fuel IH]; intros last.
  - intros s. exact I.
  - simpl scroll_loop.
    eapply lasts_weaken; [|apply lasts_bind; [apply lasts_scroll_pass|]].
    2:{ intros h. destruct (h =? last).
        - apply lasts_ret.
        - eapply lasts_weaken; [|apply IH]. lia. }
    lia.
Qed.

Lemma lasts_scroll_to_bottom env fuel : lasts 6500 (scroll_to_bottom env fuel).
Proof.
  unfold scroll_to_bottom, execute_script.
  eapply lasts_weaken;
    [|apply lasts_bind;
       [apply lasts_logger
       |intros _; apply lasts_bind;
          [apply lasts_driver
          |intros h; apply lasts_bind;
             [apply lasts_scroll_loop
             |intros _; apply lasts_bind; [apply lasts_driver | intros _; apply lasts_logger]]]]].
  lia.
Qed.

Lemma lasts_wait_for_content_stable env fuel :
  lasts 2000 (wait_for_content_stable env fuel 10).
Proof.
  intros s. unfold wait_for_content_stable.
  do 2 (erewrite bind_Ret by reflexivity).
  pose proof (stable_loop_timing env 10
                (clock (logged INFO "Waiting for content to stabilize..." s))
                fuel (logged INFO "Waiting for content to stabilize..." s) 0) as H.
  destruct (stable_loop _ _ _ _ _ _) as [b s'|e s'|]; auto.
  simpl in H. destruct H as (H1 & H2 & H3).
  split; [exact H1|]. destruct b; [now apply H2 | specialize (H3 eq_refl); lia].
Qed.

Lemma lasts_wait_for_images env : lasts 0 (wait_for_images env).
Proof.
  unfold wait_for_images.
  apply (lasts_bind 0 0); [apply lasts_logger | intros _].
  apply lasts_try_except; [apply lasts_driver|].
  intros e k H. destruct e; inversion H. apply lasts_logger.
Qed.

Lemma lasts_wait_for_dynamic_content env : lasts 0 (wait_for_dynamic_content env).
Proof.
  unfold wait_for_dynamic_content, execute_script.
  apply (lasts_bind 0 0); [apply lasts_logger | intros _].
  apply lasts_try_except.
  - apply (lasts_bind 0 0); [apply lasts_driver | intros _].
    apply (lasts_bind 0 0); [apply lasts_driver | intros changes].
    destruct (changes =? 0); [|apply lasts_ret].
    apply (lasts_bind 0 0); [apply lasts_logger | intros _; apply lasts_ret].
  - intros e k [= <-].
    apply (lasts_bind 0 0); [apply lasts_logger | intros _; apply lasts_ret].
Qed.

Lemma lasts_extra_delay self cs dl : lasts (delay_of self) (extra_delay self cs dl).
Proof.
  unfold extra_delay, delay_of. destruct (wait_time self) as [n|]; simpl.
  - eapply lasts_weaken; [|apply lasts_bind; [apply lasts_logger | intros _; apply lasts_sleep]].
    lia.
  - destruct (negb (cs && dl)); [|apply lasts_ret].
    eapply lasts_weaken; [|apply lasts_bind; [apply lasts_logger | intros _; apply lasts_sleep]].
    lia.
Qed.

Lemma lasts_prepare env self url fuel :
  lasts (8500 + delay_of self) (prepare env self url fuel).
Proof.
  unfold prepare.
  eapply lasts_weaken;
    [|apply lasts_bind; [apply lasts_logger | intros _];
      apply lasts_bind; [apply lasts_driver | intros _];
      apply lasts_bind; [apply lasts_driver | intros _];
      apply lasts_bind; [apply lasts_scroll_to_bottom | intros _];
      apply lasts_bind; [apply lasts_wait_for_content_stable | intros cs];
      apply lasts_bind; [apply lasts_wait_for_images | intros _];
      apply lasts_bind; [apply lasts_wait_for_dynamic_content | intros dl];
      apply lasts_extra_delay].
  lia.
Qed.

Lemma lasts_shoot env self url : lasts 2000 (shoot env self url).
Proof.
  intros s.
  destruct (shoot env self url s) as [paths s'|e s'|] eqn:H; [| |exact I].
  - run_shoot H; injection H as <- <-; simpl; lia.
  - run_shoot H; injection H as <- <-; simpl; lia.
Qed.

Lemma lasts_capture_body env self url fuel :
  lasts (10500 + delay_of self) (capture_body env self url fuel).
Proof.
  intros s. rewrite capture_body_split.
  pose proof (lasts_bind _ _ _ _ (lasts_prepare env self url fuel)
                (fun _ => lasts_shoot env self url) s) as H.
  destruct ((prepare env self url fuel;; shoot env self url) s); auto; lia.
Qed.
(** X7: [scroll_to_bottom] makes at least one full pass: when it
    returns, at least six and a half seconds have passed, nine pauses
    of half a second and one of two seconds. *)
Theorem X7_scroll_takes_a_pass env fuel s u s' :
  scroll_to_bottom env fuel s = Ret u s' -> clock s + 6500 <= clock s'.
Proof.
  intros H. pose proof (lasts_scroll_to_bottom env fuel s) as Hl.
  rewrite H in Hl. apply Hl.
Qed.

Lemma X7_witness :
  clock initial + 6500 <= clock (final_state (scroll_to_bottom calm 1 initial)).
Proof.
  apply (X7_scroll_takes_a_pass calm 1 initial tt). vm_compute. reflexivity.
Defined.

(** X8: a capture that returns the pair of paths has taken at least
    ten and a half seconds (one pass of the scroll, the two seconds
    after a stable poll and the two seconds after the resize), and a
    supplied wait time on top of that. *)
Theorem X8_capture_takes_ten_seconds env self url fuel s paths s' :
  capture_screenshot env self url fuel s = Ret (Some paths) s' ->
  clock s + 10500
  + match wait_time self with Some n => 1000 * n | None => 0 end
  <= clock s'.
Proof.
  intros Hcap.
  destruct (capture_screenshot_cases env self url fuel s)
    as [(paths' & s1 & Hbody & E) | [(e & s1 & _ & E) | [_ E]]];
    rewrite E in Hcap; try discriminate.
  injection Hcap as _ <-.
  pose proof (lasts_capture_body env self url fuel s) as Hl.
  rewrite Hbody in Hl. unfold delay_of in Hl.
  destruct (wait_time self); lia.
Qed.

Lemma X8_witness :
  clock initial + 10500
  + match wait_time sample_self with Some n => 1000 * n | None => 0 end
  <= clock (final_state calm_run).
Proof.
  apply (X8_capture_takes_ten_seconds calm sample_self sample_url 11 initial
           (sample_png, sample_json)).
  vm_compute. reflexivity.
Defined.

(** ** Two captures in one second *)

(** X9: the timestamp in the file names has the resolution of a second
    and nothing else tells two captures apart.  When the clock reads
    the same second for both, two successful captures into one
    directory return the same pair of paths, and the sidecar that held
    the record of the first URL holds the record of the second. *)
Theorem X9_same_second_overwrites env self url1 url2 fuel1 fuel2 s p1 j1 s1 p2 j2 s2 :
  (forall n m, strftime (on_now env n) = strftime (on_now env m)) ->
  capture_screenshot env self url1 fuel1 s = Ret (Some (p1, j1)) s1 ->
  capture_screenshot env self url2 fuel2 s1 = Ret (Some (p2, j2)) s2 ->
  p2 = p1 /\ j2 = j1 /\
  exists text1 data1 text2 data2,
    files s1 !! j1 = Some (Text text1) /\
    loads text1 = Some data1 /\ field "url" data1 = Some (JStr url1) /\
    files s2 !! j1 = Some (Text text2) /\
    loads text2 = Some data2 /\ field "url" data2 = Some (JStr url2).
Proof.
  intros Hsame H1 H2.
  apply capture_success in H1 as (a0 & hm1 & wm1 & sv1 & ti1 & cu1 & ua1 & H1).
  apply capture_success in H2 as (b0 & hm2 & wm2 & sv2 & ti2 & cu2 & ua2 & H2).
  cbv zeta in H1, H2.
  destruct H1 as (_ & _ & _ & _ & _ & _ & _ & Hp1 & Hj1 & Hf1 & _).
  destruct H2 as (_ & _ & _ & _ & _ & _ & _ & Hp2 & Hj2 & Hf2 & _).
  rewrite (Hsame _ (3 + calls a0)%nat) in Hp2, Hj2.
  split; [now rewrite Hp1, Hp2|]. split; [now rewrite Hj1, Hj2|].
  eexists _, _, _, _.
  split; [rewrite Hf1; apply lookup_insert_eq|].
  split; [apply loads_dumps|]. split; [reflexivity|].
  split; [rewrite Hf2, Hj2, <- Hj1; apply lookup_insert_eq|].
  split; [apply loads_dumps|]. reflexivity.
Qed.

Lemma X9_witness :
  sample_png = sample_png /\ sample_json = sample_json /\
  exists text1 data1 text2 data2,
    files (final_state calm_run) !! sample_json = Some (Text text1) /\
    loads text1 = Some data1 /\ field "url" data1 = Some (JStr sample_url) /\
    files (final_state
             (capture_screenshot calm sample_self other_url 11
                (final_state calm_run))) !! sample_json = Some (Text text2) /\
    loads text2 = Some data2 /\ field "url" data2 = Some (JStr other_url).
Proof.
  apply (X9_same_second_overwrites calm sample_self sample_url other_url 11 11
           initial sample_png sample_json (final_state calm_run)
           sample_png sample_json).
  - reflexivity.
  - vm_compute. reflexivity.
  - vm_compute. reflexivity.
Defined.

(** ** The browser session *)

Section Never.

Variable Q : event -> bool.

Lemma never_ret {A} (a : A) : never Q (ret a).
Proof. intros s s' [= <-]. exists []. now rewrite app_nil_r. Qed.

Lemma never_bind {A B} (c : M A) (k : A -> M B) :
  never Q c -> (forall a, never Q (k a)) -> never Q (bind c k).
Proof.
  intros Hc Hk s s'. unfold bind.
  destruct (c s) as [a s1|e s1|] eqn:E; simpl; intros H.
  - destruct (Hc s s1) as (t1 & Ht1 & Hq1); [now rewrite E|].
    destruct (Hk a s1 s' H) as (t2 & Ht2 & Hq2).
    exists (t1 ++ t2). rewrite Ht2, Ht1, <- app_assoc, existsb_app, Hq1, Hq2. auto.
  - injection H as <-. apply Hc. now rewrite E.
  - discriminate.
Qed.

Lemma never_try_except {A} (c : M A) (h : exn -> option (M A)) :
  never Q c -> (forall e k, h e = Some k -> never Q k) ->
  never Q (try_except c h).
Proof.
  intros Hc Hh s s'. unfold try_except.
  destruct (c s) as [a s1|e s1|] eqn:E; simpl; intros H.
  - injection H as <-. apply Hc. now rewrite E.
  - destruct (Hc s s1) as (t1 & Ht1 & Hq1); [now rewrite E|].
    destruct (h e) as [k|] eqn:Ek.
    + destruct (Hh e k Ek s1 s' H) as (t2 & Ht2 & Hq2).
      exists (t1 ++ t2). rewrite Ht2, Ht1, <- app_assoc, existsb_app, Hq1, Hq2. auto.
    + injection H as <-. eauto.
  - discriminate.
Qed.

Lemma never_logger l msg : never Q (logger l msg).
Proof. intros s s' [= <-]. exists []. now rewrite app_nil_r. Qed.

Lemma never_print env line : Q (EPrint line) = false -> never Q (print env line).
Proof.
  intros HQ s s'. unfold print, printed_part.
  destruct (on_print env (calls s)); [|destruct (written env (calls s))];
    simpl; intros [= <-]; exists [EPrint line]; simpl; now rewrite HQ.
Qed.

Lemma never_time : never Q time_time.
Proof. intros s s' [= <-]. exists []. now rewrite app_nil_r. Qed.

Lemma never_set_window w h : never Q (modify (set_window w h)).
Proof. intros s s' [= <-]. exists []. now rewrite app_nil_r. Qed.

Lemma never_set_file p c : never Q (modify (set_file p c)).
Proof. intros s s' [= <-]. exists []. now rewrite app_nil_r. Qed.

Lemma never_sleep ms : Q (ESleep ms) = false -> never Q (sleep ms).
Proof.
  intros HQ s s'. unfold sleep.
  destruct (fits_time_t ms), (ms <? 0); simpl; intros [= <-];
    exists [ESleep ms]; simpl; now rewrite HQ.
Qed.

Lemma never_driver {A} env ev (oracle : nat -> result A) :
  Q ev = false -> never Q (driver env ev oracle).
Proof.
  intros HQ s s'. unfold driver.
  destruct (oracle (calls s)); intros [= <-]; exists [ev]; simpl; now rewrite HQ.
Qed.

Lemma never_for_each {A} (l : list A) (body : A -> M unit) :
  (forall x, never Q (body x)) -> never Q (for_each l body).
Proof.
  intros Hb. induction l as [|x l IH]; simpl.
  - apply never_ret.
  - apply never_bind; auto.
Qed.

End Never.

Lemma never_save_screenshot env path :
  never session_event (save_screenshot env path).
Proof.
  intros s s'. unfold save_screenshot, bind, driver, modify, ret.
  destruct (on_save_screenshot env (calls s)) as [[]|e];
    [|destruct (opened env (calls s))|];
    simpl; intros [= <-]; exists [ESaveScreenshot path]; split; reflexivity.
Qed.

Lemma never_write_json env path data :
  never session_event (write_json env path data).
Proof.
  intros s s'. unfold write_json, bind, driver, modify.
  destruct (on_open env (calls s)) as [[]|e]; simpl.
  - destruct (on_dump env (S (calls s))); simpl; intros [= <-];
      exists [EOpen path "utf-8"; EDump path]; simpl;
      rewrite <- app_assoc; split; reflexivity.
  - intros [= <-]. exists [EOpen path "utf-8"]. split; reflexivity.
Qed.

Ltac session :=
  repeat first
    [ assumption
    | apply never_ret | apply never_logger | apply never_time
    | apply never_print; reflexivity
    | apply never_save_screenshot | apply never_write_json
    | apply never_set_window | apply never_set_file
    | apply never_sleep; reflexivity
    | apply never_driver; reflexivity
    | apply never_bind; [|intros ?]
    | apply never_try_except; [|intros ? ? ?]
    | apply never_for_each; intros ?
    | match goal with
      | H : Some _ = Some _ |- _ => inversion H; subst; clear H
      | H : None = Some _ |- _ => discriminate H
      | |- never _ (if ?b then _ else _) => destruct b
      | H : match ?e with _ => _ end = Some _ |- _ => destruct e
      end ].

Lemma never_scroll_loop env fuel last :
  never session_event (scroll_loop env fuel last).
Proof.
  revert last. induction fuel as [|fuel IH]; intros last; simpl.
  - intros s s' [=].
  - apply never_bind; [unfold scroll_pass, execute_script; session|].
    intros h. destruct (h =? last); [apply never_ret | apply IH].
Qed.

Lemma never_stable_loop env fuel timeout start last :
  never session_event (stable_loop env fuel timeout start last).
Proof.
  revert last. induction fuel as [|fuel IH]; intros last; simpl.
  - intros s s' [=].
  - apply never_bind; [apply never_time|].
    intros now. destruct (now - start <? 1000 * timeout); [|apply never_ret].
    unfold execute_script. apply never_bind; [apply never_driver; reflexivity|].
    intros h. destruct (h =? last); session. apply IH.
Qed.

(** A capture neither starts a browser nor quits one. *)
Lemma never_capture_screenshot env self url fuel :
  never session_event (capture_screenshot env self url fuel).
Proof.
  unfold capture_screenshot, capture_body, scroll_to_bottom,
    wait_for_content_stable, wait_for_images, wait_for_dynamic_content,
    extra_delay, execute_script, set_window_size.
  pose proof (never_scroll_loop env) as Hscroll.
  pose proof (never_stable_loop env) as Hstable.
  session; try apply Hscroll; try apply Hstable.
  all: try (intros s s' [= <-]; exists []; now rewrite app_nil_r).
Qed.

Lemma bind_ext {A B} (c : M A) (k k' : A -> M B) s :
  (forall a s1, c s = Ret a s1 -> k a s1 = k' a s1) ->
  bind c k s = bind c k' s.
Proof. intros H. unfold bind. destruct (c s); auto. Qed.

Lemma main_split env args fuel s :
  main env args fuel s
  = (startup env args ;;
     driver env EChrome (on_chrome env) ;;
     set_window_size env 1920 1080 ;;
     result <- capture_screenshot env
                 {| output_dir := arg_output_dir args;
                    wait_time := arg_wait_time args |} (arg_url args) fuel ;;
     try_finally (print env (report result)) (close env)) s.
Proof.
  unfold main, startup. rewrite bind_assoc.
  apply bind_ext. intros present s1 _. cbv beta. rewrite bind_assoc.
  apply bind_ext. intros _ s2 _. cbv beta. unfold init.
  etransitivity; [apply bind_assoc|].
  apply bind_ext. intros _ s3 _. cbv beta. unfold setup_driver.
  rewrite !bind_assoc.
  apply bind_ext. intros _ s4 _. cbv beta.
  apply bind_ext. intros _ s5 _. cbv beta.
  erewrite bind_Ret by reflexivity.
  unfold try_finally, bind.
  destruct (capture_screenshot _ _ _ _ s5) as [r s6|e s6|] eqn:Hcap;
    [|now apply capture_screenshot_never_raises in Hcap|reflexivity].
  destruct r as [[p j]|]; reflexivity.
Qed.

Lemma never_startup env args : never session_event (startup env args).
Proof. unfold startup, setup_logging. session. Qed.

Lemma quiet_startup env args : quiet (startup env args).
Proof. unfold startup, setup_logging. frame. Qed.

Lemma never_set_window_size env w h :
  never session_event (set_window_size env w h).
Proof. unfold set_window_size. session. Qed.

Lemma no_session_no_quit t :
  existsb session_event t = false -> existsb quit_event t = false.
Proof.
  induction t as [|ev t IH]; [reflexivity|]. simpl.
  intros H. apply orb_false_iff in H as [H1 H2].
  rewrite (IH H2). now destruct ev.
Qed.

(** How [main] ends: with an exception before the session is there,
    with what the printing of the result and [close] do, or never. *)
Lemma main_cases env args fuel s :
  (exists e s' t,
      main env args fuel s = Raise e s' /\
      trace s' = trace s ++ t /\ existsb quit_event t = false /\
      outputs s' = outputs s) \/
  (exists s3 r s4 before during,
      outputs s3 = outputs s /\
      capture_screenshot env
        {| output_dir := arg_output_dir args; wait_time := arg_wait_time args |}
        (arg_url args) fuel s3 = Ret r s4 /\
      trace s4 = trace s ++ before ++ [EChrome] ++ during /\
      existsb session_event (before ++ during) = false /\
      main env args fuel s
      = try_finally (print env (report r)) (close env) s4) \/
  main env args fuel s = OutOfFuel.
Proof.
  rewrite main_split.
  destruct (startup env args s) as [[] s1|e s1|] eqn:E1.
  - erewrite bind_Ret by exact E1.
    destruct (never_startup env args s s1) as (t1 & Ht1 & Hq1); [now rewrite E1|].
    assert (Ho1 : outputs s1 = outputs s)
      by (apply (quiet_startup env args); now rewrite E1).
    destruct (on_chrome env (calls s1)) as [[]|e] eqn:E2.
    + erewrite bind_Ret by (apply driver_Ok; exact E2).
      set (s2 := interact EChrome (Z.of_N (latency env (calls s1))) s1).
      destruct (set_window_size env 1920 1080 s2) as [[] s3|e s3|] eqn:E3.
      * erewrite bind_Ret by exact E3.
        destruct (never_set_window_size env 1920 1080 s2 s3)
          as (t3 & Ht3 & Hq3); [now rewrite E3|].
        assert (Ho3 : outputs s3 = outputs s).
        { rewrite <- Ho1.
          apply (quiet_set_window_size env 1920 1080 s2). now rewrite E3. }
        destruct (capture_screenshot env
                    {| output_dir := arg_output_dir args;
                       wait_time := arg_wait_time args |}
                    (arg_url args) fuel s3) as [r s4|e s4|] eqn:Hcap.
        -- right; left.
           pose proof (never_capture_screenshot env
                         {| output_dir := arg_output_dir args;
                            wait_time := arg_wait_time args |}
                         (arg_url args) fuel s3 s4) as Hn.
           rewrite Hcap in Hn. destruct (Hn eq_refl) as (t4 & Ht4 & Hq4).
           exists s3, r, s4, t1, (t3 ++ t4).
           split; [exact Ho3|]. split; [exact Hcap|].
           split; [rewrite Ht4, Ht3; unfold s2; simpl; rewrite Ht1;
                   now rewrite <- !app_assoc|].
           split; [now rewrite !existsb_app, Hq1, Hq3, Hq4|].
           erewrite bind_Ret by exact Hcap. reflexivity.
        -- now apply capture_screenshot_never_raises in Hcap.
        -- right; right. erewrite bind_OutOfFuel by exact Hcap. reflexivity.
      * left. erewrite bind_Raise by exact E3.
        destruct (never_set_window_size env 1920 1080 s2 s3)
          as (t3 & Ht3 & Hq3); [now rewrite E3|].
        exists e, s3, (t1 ++ [EChrome] ++ t3).
        split; [reflexivity|].
        split; [rewrite Ht3; unfold s2; simpl; rewrite Ht1;
                now rewrite <- !app_assoc|].
        split; [rewrite !existsb_app, (no_session_no_quit _ Hq1),
                  (no_session_no_quit _ Hq3); reflexivity|].
        rewrite <- Ho1.
        apply (quiet_set_window_size env 1920 1080 s2). now rewrite E3.
      * right; right. erewrite bind_OutOfFuel by exact E3. reflexivity.
    + left. erewrite bind_Raise by (apply driver_Err; exact E2).
      exists e, (interact EChrome (Z.of_N (latency env (calls s1))) s1),
        (t1 ++ [EChrome]).
      split; [reflexivity|]. simpl.
      split; [now rewrite Ht1, <- app_assoc|].
      split; [rewrite existsb_app, (no_session_no_quit _ Hq1); reflexivity|].
      exact Ho1.
  - left. erewrite bind_Raise by exact E1.
    destruct (never_startup env args s s1) as (t1 & Ht1 & Hq1); [now rewrite E1|].
    exists e, s1, t1. split; [reflexivity|]. split; [exact Ht1|].
    split; [now apply no_session_no_quit|].
    apply (quiet_startup env args). now rewrite E1.
  - right; right. erewrite bind_OutOfFuel by exact E1. reflexivity.
Qed.

(** The end of [main]: the result line is printed, and [close] runs
    whether or not that worked. *)
Lemma finish_cases env line s :
  let s1 := interact (EPrint line) (Z.of_N (latency env (calls s))) s in
  let quit sp := interact EQuit (Z.of_N (latency env (S (calls s)))) sp in
  try_finally (print env line) (close env) s
  = match on_print env (calls s) with
    | Ok _ =>
        match on_quit env (S (calls s)) with
        | Ok _ =>
            Ret tt (logged INFO "WebDriver closed successfully"
                      (quit (printed line s1)))
        | Err e => Raise e (quit (printed line s1))
        end
    | Err e =>
        let sp := printed_part (written env (calls s)) line s1 in
        match on_quit env (S (calls s)) with
        | Ok _ =>
            Raise e (logged INFO "WebDriver closed successfully" (quit sp))
        | Err e2 => Raise e2 (quit sp)
        end
    end.
Proof.
  unfold try_finally, print, close, bind, driver, logger, ret, printed_part.
  destruct (on_print env (calls s)) as [[]|e]; simpl.
  - destruct (on_quit env (S (calls s))) as [[]|e2]; reflexivity.
  - destruct (written env (calls s)); simpl;
      destruct (on_quit env (S (calls s))) as [[]|e2]; reflexivity.
Qed.

Lemma report_cases r :
  report r = "Failed to capture screenshot" \/
  exists p, report r = "Screenshot and JSON data saved successfully: " +:+ p.
Proof. destruct r as [[p j]|]; [right; now exists p | now left]. Qed.

(** X10: when [main] returns it has printed exactly one line and
    logged the closing of the browser last: the line is the failure
    line, or the success line with the path of the screenshot, and
    then the sidecar of the same stem is a file with text in it. *)
Theorem X10_main_reports env args fuel s u s' :
  main env args fuel s = Ret u s' ->
  last (log s') = Some (INFO, "WebDriver closed successfully") /\
  (stdout s' = stdout s ++ ["Failed to capture screenshot"] \/
   exists timestamp text,
     stdout s'
     = stdout s
       ++ ["Screenshot and JSON data saved successfully: "
           +:+ path_join (arg_output_dir args)
                 (("snapshot_" +:+ timestamp) +:+ ".png")] /\
     files s' !! path_join (arg_output_dir args)
                   (("snapshot_" +:+ timestamp) +:+ ".json")
     = Some (Text text)).
Proof.
  intros H.
  destruct (main_cases env args fuel s)
    as [(e & s1 & t & E & _)
       | [(s3 & r & s4 & before & during & Ho & Hcap & _ & _ & E) | E]];
    rewrite E in H; try discriminate.
  rewrite finish_cases in H. cbv zeta in H.
  destruct (on_print env (calls s4)) as [[]|e1];
    destruct (on_quit env (S (calls s4))) as [[]|e2]; try discriminate.
  injection H as _ <-.
  split; [apply last_snoc|].
  pose proof (capture_screenshot_stdout _ _ _ _ _ _ _ Hcap) as Hstd.
  pose proof (outputs_stdout _ _ Ho) as Hstd3.
  destruct r as [[p j]|].
  - right.
    apply capture_success in Hcap
      as (s0 & hm & wm & saved & title & cur & ua & Hc).
    cbv zeta in Hc.
    destruct Hc as (_ & _ & _ & _ & _ & _ & _ & Hp & Hj & Hfiles & _).
    eexists _, _. simpl. rewrite Hstd, Hstd3, Hp. split; [reflexivity|].
    rewrite Hfiles, Hj. apply lookup_insert_eq.
  - left. simpl. now rewrite Hstd, Hstd3.
Qed.

Lemma X10_witness :
  last (log (final_state (main calm sample_args 11 initial)))
  = Some (INFO, "WebDriver closed successfully") /\
  (stdout (final_state (main calm sample_args 11 initial))
   = stdout initial ++ ["Failed to capture screenshot"] \/
   exists timestamp text,
     stdout (final_state (main calm sample_args 11 initial))
     = stdout initial
       ++ ["Screenshot and JSON data saved successfully: "
           +:+ path_join (arg_output_dir sample_args)
                 (("snapshot_" +:+ timestamp) +:+ ".png")] /\
     files (final_state (main calm sample_args 11 initial))
       !! path_join (arg_output_dir sample_args)
            (("snapshot_" +:+ timestamp) +:+ ".json")
     = Some (Text text)).
Proof.
  apply (X10_main_reports calm sample_args 11 initial tt).
  vm_compute. reflexivity.
Defined.

(** X11: a run of [main] that returns has started one browser and quit
    it once, as the last thing it did with it: its trace is some
    events without a start or a quit, the start of Chrome, more such
    events, and the quit. *)
Theorem X11_one_session env args fuel s u s' :
  main env args fuel s = Ret u s' ->
  exists before during,
    trace s' = trace s ++ before ++ [EChrome] ++ during ++ [EQuit] /\
    existsb session_event (before ++ during) = false.
Proof.
  intros H.
  destruct (main_cases env args fuel s)
    as [(e & s1 & t & E & _) | [(s3 & r & s4 & before & during & _ & _ & Htr & Hq & E)
                               | E]];
    rewrite E in H; try discriminate.
  rewrite finish_cases in H. cbv zeta in H.
  destruct (on_print env (calls s4)) as [[]|e1];
    destruct (on_quit env (S (calls s4))) as [[]|e2]; try discriminate.
  injection H as _ <-.
  exists before, (during ++ [EPrint (report r)]). split.
  - simpl. rewrite Htr. now rewrite <- !app_assoc.
  - rewrite app_assoc, existsb_app, Hq. reflexivity.
Qed.

Lemma X11_witness :
  exists before during,
    trace (final_state (main calm sample_args 11 initial))
    = trace initial ++ before ++ [EChrome] ++ during ++ [EQuit] /\
    existsb session_event (before ++ during) = false.
Proof.
  apply (X11_one_session calm sample_args 11 initial tt).
  vm_compute. reflexivity.
Defined.

(** X12: [main] lets an exception out in three ways only.  Either it
    comes before the capture, from the directories, the logging or the
    start of the browser: then no quit has been asked for, no file
    written and nothing printed.  Or the capture has run in the one
    browser that was started, the printing of its result line was the
    last thing before the quit, and: the line was printed and [quit]
    raised the exception; or [print] raised, [close] ran all the same,
    and the exception is the one of [print] when [quit] went well and
    the one of [quit] otherwise, with at most a part of the line on
    the standard output. *)
Theorem X12_how_main_raises env args fuel s e s' :
  main env args fuel s = Raise e s' ->
  exists t,
    trace s' = trace s ++ t /\
    ((existsb quit_event t = false /\ outputs s' = outputs s) \/
     (exists before during line n,
        t = before ++ [EChrome] ++ during ++ [EPrint line; EQuit] /\
        existsb session_event (before ++ during) = false /\
        (line = "Failed to capture screenshot" \/
         exists p,
           line = "Screenshot and JSON data saved successfully: " +:+ p) /\
        ((on_print env n = Ok tt /\ on_quit env (S n) = Err e /\
          stdout s' = stdout s ++ [line]) \/
         (exists e1,
            on_print env n = Err e1 /\
            (on_quit env (S n) = Ok tt /\ e = e1 \/ on_quit env (S n) = Err e) /\
            (stdout s' = stdout s \/
             exists k, stdout s' = stdout s ++ [prefix k line]))))).
Proof.
  intros H.
  destruct (main_cases env args fuel s)
    as [(e1 & s1 & t & E & Htr & Hq & Ho)
       | [(s3 & r & s4 & before & during & Ho & Hcap & Htr & Hq & E) | E]];
    rewrite E in H; try discriminate.
  - injection H as <- <-. exists t. split; [exact Htr|]. now left.
  - pose proof (capture_screenshot_stdout _ _ _ _ _ _ _ Hcap) as Hstd.
    pose proof (outputs_stdout _ _ Ho) as Hstd3.
    rewrite finish_cases in H. cbv zeta in H.
    exists (before ++ [EChrome] ++ during ++ [EPrint (report r); EQuit]).
    destruct (on_print env (calls s4)) as [[]|e1] eqn:Hprint;
      destruct (on_quit env (S (calls s4))) as [[]|e2] eqn:Hquit;
      try discriminate; injection H as <- <-.
    + split; [simpl; rewrite Htr; now rewrite <- !app_assoc|].
      right. exists before, during, (report r), (calls s4).
      split; [reflexivity|]. split; [exact Hq|].
      split; [apply report_cases|]. left.
      split; [exact Hprint|]. split; [exact Hquit|].
      simpl. now rewrite Hstd, Hstd3.
    + split; [unfold printed_part; destruct (written env (calls s4));
              simpl; rewrite Htr; now rewrite <- !app_assoc|].
      right. exists before, during, (report r), (calls s4).
      split; [reflexivity|]. split; [exact Hq|].
      split; [apply report_cases|]. right. exists e1.
      split; [exact Hprint|]. split; [left; split; [exact Hquit | reflexivity]|].
      unfold printed_part. destruct (written env (calls s4)) as [|k]; simpl.
      * left. now rewrite Hstd, Hstd3.
      * right. exists (S k). now rewrite Hstd, Hstd3.
    + split; [unfold printed_part; destruct (written env (calls s4));
              simpl; rewrite Htr; now rewrite <- !app_assoc|].
      right. exists before, during, (report r), (calls s4).
      split; [reflexivity|]. split; [exact Hq|].
      split; [apply report_cases|]. right. exists e1.
      split; [exact Hprint|]. split; [right; exact Hquit|].
      unfold printed_part. destruct (written env (calls s4)) as [|k]; simpl.
      * left. now rewrite Hstd, Hstd3.
      * right. exists (S k). now rewrite Hstd, Hstd3.
Qed.

Lemma X12_witness :
  exists t,
    trace (final_state (main mute sample_args 11 initial)) = trace initial ++ t /\
    ((existsb quit_event t = false /\
      outputs (final_state (main mute sample_args 11 initial)) = outputs initial) \/
     (exists before during line n,
        t = before ++ [EChrome] ++ during ++ [EPrint line; EQuit] /\
        existsb session_event (before ++ during) = false /\
        (line = "Failed to capture screenshot" \/
         exists p,
           line = "Screenshot and JSON data saved successfully: " +:+ p) /\
        ((on_print mute n = Ok tt /\
          on_quit mute (S n)
          = Err (UnicodeEncodeError "ascii codec cannot encode the line") /\
          stdout (final_state (main mute sample_args 11 initial))
          = stdout initial ++ [line]) \/
         (exists e1,
            on_print mute n = Err e1 /\
            (on_quit mute (S n) = Ok tt /\
             UnicodeEncodeError "ascii codec cannot encode the line" = e1 \/
             on_quit mute (S n)
             = Err (UnicodeEncodeError "ascii codec cannot encode the line")) /\
            (stdout (final_state (main mute sample_args 11 initial))
             = stdout initial \/
             exists k,
               stdout (final_state (main mute sample_args 11 initial))
               = stdout initial ++ [prefix k line]))))).
Proof.
  apply (X12_how_main_raises mute sample_args 11 initial).
  vm_compute. reflexivity.
Defined.

(** The two ways out of the session on the sample browsers: on [mute]
    the sidecar is written, nothing is printed and the browser is
    quit; on [clingy] the line is printed and the quit fails. *)
Lemma session_failures :
  (exists s',
      main mute sample_args 11 initial
      = Raise (UnicodeEncodeError "ascii codec cannot encode the line") s' /\
      last (trace s') = Some EQuit /\
      stdout s' = [] /\
      is_Some (files s' !! sample_json)) /\
  (exists s',
      main clingy sample_args 11 initial
      = Raise (WebDriverException "chrome not reachable") s' /\
      last (trace s') = Some EQuit /\
      stdout s'
      = ["Screenshot and JSON data saved successfully: " +:+ sample_png]).
Proof.
  split; eexists; (split; [vm_compute; reflexivity|]).
  - split; [reflexivity|]. split; [reflexivity|]. eexists. reflexivity.
  - split; reflexivity.
Qed.

Lemma init_resize_fails env dir lvl wt s e :
  succeeds (on_makedirs env) -> succeeds (on_open env) ->
  succeeds (on_chrome env) ->
  (forall n, on_set_window_size env n = Err e) ->
  exists s' before,
    init env dir lvl wt s = Raise e s' /\
    trace s' = trace s ++ before ++ [EChrome; ESetWindowSize 1920 1080] /\
    ~ In EQuit before /\
    stdout s' = stdout s.
Proof.
  intros Hmk Hop Hch Hsz.
  unfold init, setup_logging, setup_driver, set_window_size.
  rewrite ?bind_assoc.
  erewrite bind_Ret by (apply driver_Ok; reflexivity).
  destruct (on_path_exists env (calls s)); simpl negb; cbv iota;
    rewrite ?bind_assoc;
    [ erewrite bind_Ret by reflexivity
    | erewrite bind_Ret by (apply driver_Ok, succeeds_unit, Hmk) ];
    rewrite ?bind_assoc;
    (erewrite bind_Ret by (apply driver_Ok, succeeds_unit, Hop));
    rewrite ?bind_assoc;
    (erewrite bind_Ret by (apply driver_Ok, succeeds_unit, Hch));
    rewrite ?bind_assoc;
    (erewrite bind_Raise by (apply driver_Err, Hsz)).
  - eexists _,
      [EPathExists "logs"; EBasicConfig lvl (path_join "logs" "snapshot.log")].
    split; [reflexivity|]. cbn [trace stdout interact].
    split; [rewrite <- !app_assoc; reflexivity|].
    split; [|reflexivity]. cbn [In]. intuition discriminate.
  - eexists _,
      [EPathExists "logs"; EMakedirs "logs";
       EBasicConfig lvl (path_join "logs" "snapshot.log")].
    split; [reflexivity|]. cbn [trace stdout interact].
    split; [rewrite <- !app_assoc; reflexivity|].
    split; [|reflexivity]. cbn [In]. intuition discriminate.
Qed.

(** X13: the object is made outside the [try] of [main].  When the
    directories, the logging and the start of Chrome succeed and the
    resize to 1920 by 1080 in [setup_driver] raises, [main] ends with
    that exception right there: Chrome is started, [quit] is never
    called for it, and nothing is printed. *)
Theorem X13_failed_resize_leaks_the_browser env args fuel s e :
  succeeds (on_makedirs env) -> succeeds (on_open env) ->
  succeeds (on_chrome env) ->
  (forall n, on_set_window_size env n = Err e) ->
  exists s' before,
    main env args fuel s = Raise e s' /\
    trace s' = trace s ++ before ++ [EChrome; ESetWindowSize 1920 1080] /\
    ~ In EQuit before /\
    stdout s' = stdout s.
Proof.
  intros Hmk Hop Hch Hsz. unfold main.
  erewrite bind_Ret by (apply driver_Ok; reflexivity).
  destruct (on_path_exists env (calls s)); simpl negb; cbv iota;
    [ erewrite bind_Ret by reflexivity
    | erewrite bind_Ret by (apply driver_Ok, succeeds_unit, Hmk) ];
    match goal with
    | |- context [bind (init ?en ?d ?l ?w) _ ?s1] =>
        destruct (init_resize_fails en d l w s1 e Hmk Hop Hch Hsz)
          as (s' & before & Hinit & Htr & Hq & Hstd)
    end;
    (erewrite bind_Raise by exact Hinit).
  - exists s', (EPathExists (arg_output_dir args) :: before).
    split; [reflexivity|]. rewrite Htr, Hstd. cbn [trace stdout interact].
    split; [rewrite <- !app_assoc; reflexivity|].
    split; [|reflexivity]. cbn [In]. intuition discriminate.
  - exists s', (EPathExists (arg_output_dir args)
                :: EMakedirs (arg_output_dir args) :: before).
    split; [reflexivity|]. rewrite Htr, Hstd. cbn [trace stdout interact].
    split; [rewrite <- !app_assoc; reflexivity|].
    split; [|reflexivity]. cbn [In]. intuition discriminate.
Qed.

Lemma X13_witness :
  exists s' before,
    main unsizable sample_args 0 initial
    = Raise (WebDriverException "window is gone") s' /\
    trace s' = trace initial ++ before ++ [EChrome; ESetWindowSize 1920 1080] /\
    ~ In EQuit before /\
    stdout s' = stdout initial.
Proof.
  apply (X13_failed_resize_leaks_the_browser unsizable sample_args 0 initial);
    intros n; try (eexists; reflexivity); reflexivity.
Defined.

(** ** A screenshot that could not be written *)

(** X14: [save_screenshot] answers [False] when it cannot write the
    image, and the capture does not look at the answer.  When that
    happens and all else succeeds, the capture returns the pair of
    paths and logs that screenshot and JSON data were saved, with the
    sidecar written and no screenshot: at the screenshot path it
    returns, the file is what it was before, or an image file that is
    empty or cut short; no other file is touched. *)
Theorem X14_unsaved_screenshot_reported env self url fuel s p j s' :
  (forall n, on_save_screenshot env n = Ok false) ->
  capture_screenshot env self url fuel s = Ret (Some (p, j)) s' ->
  p <> j /\
  (exists text, files s' !! j = Some (Text text)) /\
  (files s' !! p = files s !! p \/ files s' !! p = Some Truncated) /\
  (forall q, q <> p -> q <> j -> files s' !! q = files s !! q) /\
  exists timestamp,
    p = path_join (output_dir self) (("snapshot_" +:+ timestamp) +:+ ".png") /\
    last (log s')
    = Some (INFO, "Screenshot and JSON data saved successfully: "
                  +:+ "snapshot_" +:+ timestamp).
Proof.
  intros Hsave Hcap.
  destruct (capture_screenshot_cases env self url fuel s)
    as [(paths & s1 & Hbody & E) | [(e & s1 & _ & E) | [_ E]]];
    rewrite E in Hcap; try discriminate.
  injection Hcap as -> ->.
  apply capture_success in E as (s0 & hm & wm & saved & title & cur & ua & Hc).
  cbv zeta in Hc.
  destruct Hc as (_ & _ & _ & Hs & _ & _ & _ & Hp & Hj & Hfiles & _).
  rewrite Hsave in Hs. injection Hs as <-.
  assert (Hpj : p <> j) by (rewrite Hp, Hj; apply png_json_distinct).
  split; [exact Hpj|].
  split; [eexists; rewrite Hfiles; apply lookup_insert_eq|].
  split.
  { rewrite Hfiles, lookup_insert_ne by congruence.
    destruct (opened env (4 + calls s0)); [right; apply lookup_insert_eq | now left]. }
  split.
  { intros q Hqp Hqj. rewrite Hfiles, lookup_insert_ne by congruence.
    destruct (opened env (4 + calls s0)); [|reflexivity].
    apply lookup_insert_ne. congruence. }
  rewrite capture_body_split in Hbody.
  apply bind_Ret_inv in Hbody as (u & s2 & _ & Hshoot).
  pose proof (shoot_log _ _ _ _ _ _ Hshoot) as Hlog.
  apply shoot_Ret in Hshoot as (? & ? & ? & ? & ? & ? & Hshoot).
  cbv zeta in Hshoot.
  destruct Hshoot as (_ & _ & _ & _ & _ & _ & Hp' & _).
  exists (strftime (on_now env (3 + calls s2))). split; [exact Hp'|].
  rewrite Hlog. apply last_snoc.
Qed.

Lemma X14_witness :
  sample_png <> sample_json /\
  (exists text,
      files (final_state
               (capture_screenshot unwritable sample_self sample_url 11 initial))
        !! sample_json = Some (Text text)) /\
  (files (final_state
            (capture_screenshot unwritable sample_self sample_url 11 initial))
     !! sample_png = files initial !! sample_png \/
   files (final_state
            (capture_screenshot unwritable sample_self sample_url 11 initial))
     !! sample_png = Some Truncated) /\
  (forall q, q <> sample_png -> q <> sample_json ->
     files (final_state
              (capture_screenshot unwritable sample_self sample_url 11 initial))
       !! q = files initial !! q) /\
  exists timestamp,
    sample_png
    = path_join (output_dir sample_self) (("snapshot_" +:+ timestamp) +:+ ".png") /\
    last (log (final_state
                 (capture_screenshot unwritable sample_self sample_url 11 initial)))
    = Some (INFO, "Screenshot and JSON data saved successfully: "
                  +:+ "snapshot_" +:+ timestamp).
Proof.
  apply (X14_unsaved_screenshot_reported unwritable sample_self sample_url 11
           initial sample_png sample_json).
  - reflexivity.
  - vm_compute. reflexivity.
Defined.
